(** * HealthAnalyzer: cleaning and aggregation of hospital patient records

    A shallow embedding of [src/health_analyzer.py].  The Python class keeps
    one pandas [DataFrame] in [self.df]; [clean_data] normalises it and the
    other methods are read-only queries over it.

    Modelling conventions.
    - A cell is a missing value (NaN / NaT), a string, a number or a
      timestamp.  Numbers ([int64] / [float64]) are idealised as canonical
      rationals [Qc], so sums and quotients are exact; timestamps are
      nanoseconds since the epoch in [Z].
    - A frame is row-major: the list of column labels and the list of rows.
      Column labels may repeat, as in pandas.  The index is not modelled.
    - Python exceptions are the [Raise] case of [result].
    - The recognisers of pandas ([to_datetime], [to_numeric], [str]) are
      parameters of the development, see [PandasLib]; they are applied cell
      by cell.
    - pandas is taken as in its 1.x / 2.x releases: [astype(str)] prints a
      missing value as [nan], ["M"] is a resampling frequency, [groupby]
      sorts its labels and drops rows with a missing label.
    - [sort_values] uses numpy's default sort, which keeps equal values in
      place on short inputs; it is modelled as a stable sort throughout.
    - The caller's table and the table held by the analyzer are distinct
      objects of a store, see [Store]; the functions on [DataFrame] below are
      what the methods compute from the table held in [self.df].
    - The script [src/main.py] that drives the class is embedded in
      [Dashboard] (the defaults of its widgets and its row filter; what the
      user selects is an argument) and in [Demo] (its generator of sample
      data; what numpy draws is an argument). *)

From Stdlib Require Import ZArith QArith Qcanon Qround Ascii String List Lia Permutation.
From stdpp Require Import base decidable option numbers list strings pretty lexico sorting gmap.

Local Open Scope string_scope.
Local Open Scope list_scope.

(** ** Cells, exceptions, frames *)

Inductive cell : Type :=
| CNull
| CStr (s : string)
| CNum (q : Qc)
| CDate (t : Z).

#[global] Instance cell_eq_dec : EqDecision cell.
Proof. solve_decision. Defined.

Inductive exn : Type :=
| KeyError (key : string)
| ValueError (msg : string)
| TypeError (msg : string)
| AttributeError (msg : string).

Inductive result (A : Type) : Type :=
| OK (a : A)
| Raise (e : exn).
Arguments OK {A} a.
Arguments Raise {A} e.

Definition rbind {A B} (r : result A) (k : A -> result B) : result B :=
  match r with
  | OK a => k a
  | Raise e => Raise e
  end.

Notation "'try!' x := r 'in' k" := (rbind r (fun x => k))
  (at level 10, x name, r at level 100, k at level 200).

Definition rmap {A B} (f : A -> B) (r : result A) : result B :=
  match r with
  | OK a => OK (f a)
  | Raise e => Raise e
  end.

Notation "f <$$> r" := (rmap f r) (at level 61, left associativity).

Definition row : Type := list cell.

Record DataFrame : Type := mkDF {
  columns : list string;
  rows : list row
}.

#[global] Instance DataFrame_eq_dec : EqDecision DataFrame.
Proof. solve_decision. Defined.

(** Every row has one cell per column label. *)
Definition well_formed (df : DataFrame) : Prop :=
  Forall (fun r => length r = length (columns df)) (rows df).

(** ** Python string helpers (ASCII range) *)

Definition lower_ascii (c : ascii) : ascii :=
  let n := nat_of_ascii c in
  if (65 <=? n)%nat && (n <=? 90)%nat then ascii_of_nat (n + 32) else c.

Fixpoint str_lower (s : string) : string :=
  match s with
  | EmptyString => EmptyString
  | String c s' => String (lower_ascii c) (str_lower s')
  end.

(** [str.isspace] on one character: TAB, LF, VT, FF, CR, FS, GS, RS, US, SPACE. *)
Definition is_space (c : ascii) : bool :=
  let n := nat_of_ascii c in
  ((9 <=? n)%nat && (n <=? 13)%nat) || ((28 <=? n)%nat && (n <=? 32)%nat).

Fixpoint str_lstrip (s : string) : string :=
  match s with
  | EmptyString => EmptyString
  | String c s' => if is_space c then str_lstrip s' else s
  end.

(** [str_rstrip] drops the trailing run of whitespace. *)
Fixpoint str_rstrip (s : string) : string :=
  match s with
  | EmptyString => EmptyString
  | String c s' =>
      match str_rstrip s' with
      | EmptyString => if is_space c then EmptyString else String c EmptyString
      | t => String c t
      end
  end.

Definition str_strip (s : string) : string := str_rstrip (str_lstrip s).

(** ** The pandas recognisers the code relies on

    [parse_datetime] and [parse_number] say which strings [pd.to_datetime] and
    [pd.to_numeric] accept under [errors="coerce"]; [None] is the coerced
    NaT / NaN.  The remaining fields give the conversions between numbers and
    timestamps and Python's [str] of a value. *)

Class PandasLib : Type := {
  parse_datetime : string -> option Z;
  datetime_of_number : Qc -> option Z;
  parse_number : string -> option Qc;
  number_of_datetime : Z -> option Qc;
  repr_number : Qc -> string;
  repr_datetime : Z -> string;
  (** [df.groupby(column).agg(verb)] for an arbitrary aggregation verb *)
  groupby_agg : list string -> string -> DataFrame -> result DataFrame
}.

(** ** Column primitives *)

Definition has_col (name : string) (df : DataFrame) : bool :=
  bool_decide (name ∈ columns df).

Definition col_count (name : string) (df : DataFrame) : nat :=
  length (filter (fun c => c = name) (columns df)).

(** Apply [f] to the cells standing under a label equal to [name]. *)
Fixpoint map_under (name : string) (f : cell -> cell)
    (labels : list string) (r : row) : row :=
  match labels, r with
  | l :: labels', c :: r' =>
      (if bool_decide (l = name) then f c else c) :: map_under name f labels' r'
  | _, _ => r
  end.

(** [df[name] = f(df[name])] for an element-wise [f]; with a repeated label
    every column carrying it is rewritten. *)
Definition map_col (name : string) (f : cell -> cell) (df : DataFrame) : DataFrame :=
  mkDF (columns df) (map (map_under name f (columns df)) (rows df)).

(** The cell of row [r] under the first label equal to [name]. *)
Fixpoint cell_at (name : string) (labels : list string) (r : row) : cell :=
  match labels, r with
  | l :: labels', c :: r' =>
      if bool_decide (l = name) then c else cell_at name labels' r'
  | _, _ => CNull
  end.

(** The cells of row [r] under the labels that belong to [subset]. *)
Fixpoint cells_at (subset : list string) (labels : list string) (r : row) : list cell :=
  match labels, r with
  | l :: labels', c :: r' =>
      if bool_decide (l ∈ subset) then c :: cells_at subset labels' r'
      else cells_at subset labels' r'
  | _, _ => []
  end.

Definition column (name : string) (df : DataFrame) : list cell :=
  map (cell_at name (columns df)) (rows df).

(** [df.rename(columns={old: new})]. *)
Definition rename_col (old new : string) (df : DataFrame) : DataFrame :=
  mkDF (map (fun l => if bool_decide (l = old) then new else l) (columns df)) (rows df).

(** [df[name] = values] where [values] is computed row by row: an existing
    label keeps its place (all columns carrying it are overwritten), a new
    one is appended on the right. *)
Definition set_col (name : string) (f : row -> cell) (df : DataFrame) : DataFrame :=
  if has_col name df then
    mkDF (columns df)
         (map (fun r => map_under name (fun _ => f r) (columns df) r) (rows df))
  else
    mkDF (columns df ++ [name]) (map (fun r => r ++ [f r]) (rows df)).

(** ** Cleaning *)

Definition ns_per_day : Z := 86400000000000.

Section Cleaning.
Context `{PandasLib}.

(** [c.strip().lower()] *)
Definition normalize_name (c : string) : string := str_lower (str_strip c).

(** [df.columns = [c.strip().lower() for c in df.columns]] *)
Definition normalize_columns (df : DataFrame) : DataFrame :=
  mkDF (map normalize_name (columns df)) (rows df).

(** [for col in aliases: if col in df.columns: rename(col -> target); break] *)
Fixpoint rename_first_alias (aliases : list string) (target : string)
    (df : DataFrame) : DataFrame :=
  match aliases with
  | [] => df
  | col :: rest =>
      if has_col col df then rename_col col target df
      else rename_first_alias rest target df
  end.

Definition admission_aliases : list string :=
  ["admission_date"; "admit_date"; "date_admitted"].
Definition discharge_aliases : list string :=
  ["discharge_date"; "date_discharged"].

(** [pd.to_datetime(_, errors="coerce")] on one value. *)
Definition to_datetime_cell (c : cell) : cell :=
  match c with
  | CNull => CNull
  | CStr s => from_option CDate CNull (parse_datetime s)
  | CNum q => from_option CDate CNull (datetime_of_number q)
  | CDate t => CDate t
  end.

(** [pd.to_numeric(_, errors="coerce")] on one value. *)
Definition to_numeric_cell (c : cell) : cell :=
  match c with
  | CNull => CNull
  | CStr s => from_option CNum CNull (parse_number s)
  | CNum q => CNum q
  | CDate t => from_option CNum CNull (number_of_datetime t)
  end.

(** [str(x)]; a missing value prints as [nan]. *)
Definition str_of_cell (c : cell) : string :=
  match c with
  | CNull => "nan"
  | CStr s => s
  | CNum q => repr_number q
  | CDate t => repr_datetime t
  end.

(** [.astype(str).str.lower().str.strip()] on one value. *)
Definition standardize_outcome (c : cell) : cell :=
  CStr (str_strip (str_lower (str_of_cell c))).

(** [.fillna("Unknown")] on one value. *)
Definition fillna_unknown (c : cell) : cell :=
  match c with
  | CNull => CStr "Unknown"
  | _ => c
  end.

(** [(discharge - admission).dt.days] on one row: the floor of the difference
    in days, NaN when either side is NaT. *)
Definition days_between (discharge admission : cell) : cell :=
  match discharge, admission with
  | CDate d, CDate a => CNum (Q2Qc (inject_Z ((d - a) / ns_per_day)))
  | _, _ => CNull
  end.

(** [df[name] = g(df[name])] where [g] wants a Series: when the label is
    repeated [df[name]] is a DataFrame and [g] raises [e]. *)
Definition assign_series (name : string) (e : exn) (f : cell -> cell)
    (df : DataFrame) : result DataFrame :=
  if (1 <? col_count name df)%nat then Raise e else OK (map_col name f df).

Definition parse_date_col (name : string) (df : DataFrame) : result DataFrame :=
  if has_col name df then
    assign_series name
      (ValueError "to assemble mappings requires at least that [year, month, day] be specified")
      to_datetime_cell df
  else OK df.

Definition standardize_outcome_col (df : DataFrame) : result DataFrame :=
  if has_col "outcome" df then
    assign_series "outcome"
      (AttributeError "'DataFrame' object has no attribute 'str'")
      standardize_outcome df
  else OK df.

Definition numeric_col (name : string) (df : DataFrame) : result DataFrame :=
  if has_col name df then
    assign_series name
      (TypeError "arg must be a list, tuple, 1-d array, or Series")
      to_numeric_cell df
  else OK df.

Definition length_of_stay_col (df : DataFrame) : DataFrame :=
  if has_col "admission_date" df && has_col "discharge_date" df then
    set_col "length_of_stay"
      (fun r => days_between (cell_at "discharge_date" (columns df) r)
                             (cell_at "admission_date" (columns df) r)) df
  else df.

Definition fillna_col (name : string) (df : DataFrame) : DataFrame :=
  if has_col name df then map_col name fillna_unknown df else df.

(** Keep the rows whose key has not been seen before ([keep="first"]). *)
Fixpoint keep_first {K : Type} `{EqDecision K} (key : row -> K)
    (seen : list K) (rs : list row) : list row :=
  match rs with
  | [] => []
  | r :: rs' =>
      if bool_decide (key r ∈ seen) then keep_first key seen rs'
      else r :: keep_first key (key r :: seen) rs'
  end.

(** [df.empty]: no rows or no columns. *)
Definition df_empty (df : DataFrame) : bool :=
  match rows df, columns df with
  | [], _ | _, [] => true
  | _, _ => false
  end.

(** [df.drop_duplicates(subset=subset, keep="first")]; [None] is the default
    subset, all columns.  An empty frame is returned as it is; otherwise a
    subset label that is not a column raises [KeyError]. *)
Definition drop_duplicates (subset : option (list string)) (df : DataFrame)
    : result DataFrame :=
  if df_empty df then OK df
  else
    let subset := default (columns df) subset in
    match filter (fun s => s ∉ columns df) subset with
    | missing :: _ => Raise (KeyError missing)
    | [] => OK (mkDF (columns df)
                     (keep_first (cells_at subset (columns df)) [] (rows df)))
    end.

(** The part of [clean_data] that works on [self.df] in place (everything
    before the duplicates are dropped). *)
Definition clean_in_place (df : DataFrame) : result DataFrame :=
  let df := normalize_columns df in
  let df := rename_first_alias admission_aliases "admission_date" df in
  let df := rename_first_alias discharge_aliases "discharge_date" df in
  try! df := parse_date_col "admission_date" df in
  try! df := parse_date_col "discharge_date" df in
  try! df := standardize_outcome_col df in
  try! df := numeric_col "age" df in
  try! df := numeric_col "satisfaction" df in
  let df := length_of_stay_col df in
  let df := fillna_col "department" df in
  let df := fillna_col "gender" df in
  OK df.

Definition drop_obvious_duplicates (df : DataFrame) : result DataFrame :=
  if has_col "patient_id" df then
    drop_duplicates (Some ["patient_id"; "admission_date"]) df
  else
    drop_duplicates None df.

(** [HealthAnalyzer.clean_data], as a function of the table held in [self.df]. *)
Definition clean_data (df : DataFrame) : result DataFrame :=
  try! df := clean_in_place df in
  drop_obvious_duplicates df.

End Cleaning.

(** ** Ordering of labels

    [groupby] and [unstack] sort their labels.  Numbers are ordered by value,
    strings by code point, timestamps by time; between kinds the order is
    numbers, strings, timestamps, missing. *)

Definition string_codes (s : string) : list N :=
  map N_of_ascii (list_ascii_of_string s).

#[global] Instance cell_lexico : Lexico cell := λ c1 c2,
  match c1, c2 with
  | CNum p, CNum q => (p < q)%Qc
  | CNum _, _ => True
  | CStr s, CStr t => lexico (string_codes s) (string_codes t)
  | CStr _, (CDate _ | CNull) => True
  | CDate a, CDate b => (a < b)%Z
  | CDate _, CNull => True
  | _, _ => False
  end.

Lemma string_codes_inj s t : string_codes s = string_codes t → s = t.
Proof.
  unfold string_codes. intros E.
  rewrite <- (string_of_list_ascii_of_string s), <- (string_of_list_ascii_of_string t).
  f_equal. revert E. generalize (list_ascii_of_string t).
  induction (list_ascii_of_string s) as [|a l IH]; intros [|b l'] E;
    simpl in E; try discriminate; [reflexivity|].
  injection E as E1 E2. f_equal; [|by apply IH].
  rewrite <- (ascii_N_embedding a), <- (ascii_N_embedding b). by rewrite E1.
Qed.

#[global] Instance cell_lexico_trichotomy : TrichotomyT (@lexico cell _).
Proof.
  red; refine (λ c1 c2,
    match c1, c2 with
    | CNum p, CNum q =>
        match (p ?= q)%Qc as c return (p ?= q)%Qc = c → _ with
        | Lt => λ E, inleft (left _)
        | Eq => λ E, inleft (right _)
        | Gt => λ E, inright _
        end eq_refl
    | CStr s, CStr t =>
        match trichotomyT lexico (string_codes s) (string_codes t) with
        | inleft (left E) => inleft (left _)
        | inleft (right E) => inleft (right _)
        | inright E => inright _
        end
    | CDate a, CDate b =>
        match trichotomyT lexico a b with
        | inleft (left E) => inleft (left _)
        | inleft (right E) => inleft (right _)
        | inright E => inright _
        end
    | CNull, CNull => inleft (right _)
    | CNum _, (CStr _ | CDate _ | CNull) => inleft (left _)
    | CStr _, (CDate _ | CNull) => inleft (left _)
    | CDate _, CNull => inleft (left _)
    | _, _ => inright _
    end);
  abstract (first
    [ exact I | reflexivity | exact E
    | by apply Qclt_alt | by (f_equal; apply Qceq_alt)
    | by apply Qcgt_alt | by (f_equal; apply string_codes_inj)
    | by f_equal ]).
Defined.

Definition key : Type := list cell.

(** [k1 <= k2] on labels (tuples of cells, compared position by position). *)
Definition key_leb (k1 k2 : key) : bool :=
  match trichotomyT lexico k1 k2 with
  | inleft _ => true
  | inright _ => false
  end.

Definition key_le (k1 k2 : key) : Prop := key_leb k1 k2 = true.

#[global] Instance key_le_dec k1 k2 : Decision (key_le k1 k2).
Proof. unfold key_le. apply _. Defined.

Definition sort_keys (ks : list key) : list key := merge_sort key_le ks.

Definition cell_ltb (c1 c2 : cell) : bool :=
  match trichotomyT lexico c1 c2 with
  | inleft (left _) => true
  | _ => false
  end.

(** The distinct elements of a list, in order of first appearance. *)
Fixpoint distinct {A : Type} `{EqDecision A} (l : list A) : list A :=
  match l with
  | [] => []
  | x :: l' => x :: filter (λ y, y ≠ x) (distinct l')
  end.

Definition is_null (c : cell) : bool :=
  match c with CNull => true | _ => false end.

(** ** Series and their sort *)

(** A Series: index labels with their values, in order. *)
Abbreviation Series V := (list (key * V)).

Section SortValues.
Context {V : Type} (ltb : V → V → bool) (isnull : V → bool).

(** Insert before the first entry that is not strictly greater: the result is
    descending and entries of equal value keep their order. *)
Fixpoint insert_desc (x : key * V) (l : Series V) : Series V :=
  match l with
  | [] => [x]
  | y :: l' => if ltb x.2 y.2 then y :: insert_desc x l' else x :: l
  end.

Definition isort_desc (l : Series V) : Series V := foldr insert_desc [] l.

(** [s.sort_values(ascending=False)]: missing values last, the others in
    descending order; the argsort is taken as stable, so equal values stay in
    the order they had in [s]. *)
Definition sort_values_desc (s : Series V) : Series V :=
  isort_desc (filter (λ e, isnull e.2 = false) s)
  ++ filter (λ e, isnull e.2 = true) s.

End SortValues.

(** ** Aggregation queries *)

(** The label of row [r] in [df.groupby(by)]. *)
Definition group_key (by_ : list string) (labels : list string) (r : row) : key :=
  map (λ b, cell_at b labels r) by_.

Definition key_known (k : key) : bool := forallb (λ c, negb (is_null c)) k.

(** [df.groupby(by)]: the groups in ascending label order, each with its
    rows in table order.  Rows with a missing label are left out. *)
Definition groupby (by_ : list string) (df : DataFrame)
    : result (list (key * list row)) :=
  match by_ with
  | [] => Raise (ValueError "No group keys passed!")
  | _ =>
    match filter (λ b, b ∉ columns df) by_ with
    | missing :: _ => Raise (KeyError missing)
    | [] =>
      match filter (λ b, (1 < col_count b df)%nat) by_ with
      | b :: _ => Raise (ValueError ("Grouper for '" ++ b ++ "' not 1-dimensional"))
      | [] =>
        let kof := group_key by_ (columns df) in
        let known := filter (λ r, key_known (kof r) = true) (rows df) in
        OK (map (λ k, (k, filter (λ r, kof r = k) known))
                (sort_keys (distinct (map kof known))))
      end
    end
  end.

(** [groupby(...)[name]]: the selected column must exist.  A repeated label
    makes the selection a frame instead of a series; what the queries then do
    is outside this model, which reports it as a [ValueError]. *)
Definition select_column (name : string) (df : DataFrame) : result unit :=
  if negb (has_col name df) then Raise (KeyError ("Column not found: " ++ name))
  else if (1 <? col_count name df)%nat
  then Raise (ValueError ("label repeated: " ++ name))
  else OK ().

Definition count_occ_cell (c : cell) (l : list cell) : nat :=
  length (filter (λ x, x = c) l).

(** A table of groups (rows) by values (columns). *)
Record CrossTab (V : Type) : Type := mkCT {
  ct_columns : list cell;
  ct_rows : list (key * list V)
}.
Arguments mkCT {V} _ _.
Arguments ct_columns {V} _.
Arguments ct_rows {V} _.

Fixpoint sum_nat (l : list nat) : nat :=
  match l with
  | [] => 0
  | n :: l' => n + sum_nat l'
  end.

(** A count as a number. *)
Definition nat_Qc (n : nat) : Qc := Q2Qc (inject_Z (Z.of_nat n)).

(** Float division of two counts: [0 / 0] is NaN ([None]). *)
Definition div_count (c total : nat) : option Qc :=
  if (total =? 0)%nat then None
  else Some (nat_Qc c / nat_Qc total)%Qc.

(** [grouped.div(grouped.sum(axis=1), axis=0)] *)
Definition div_rows (ct : CrossTab nat) : CrossTab (option Qc) :=
  mkCT (ct_columns ct)
       (map (λ kr, (kr.1, map (λ c, div_count c (sum_nat kr.2)) kr.2)) (ct_rows ct)).

(** [df.groupby(by)["outcome"].value_counts().unstack(fill_value=0)]:
    one row per group that has a known outcome, one column per known outcome
    value, both in ascending order. *)
Definition outcome_counts_by (by_ : list string) (df : DataFrame)
    : result (CrossTab nat) :=
  try! groups := groupby by_ df in
  try! _u := select_column "outcome" df in
  let oof := cell_at "outcome" (columns df) in
  let known g := filter (λ c, is_null c = false) (map oof g) in
  let seen := filter (λ g, known g.2 ≠ []) groups in
  let values := map (λ k, hd CNull k)
                    (sort_keys (distinct (map (λ c, [c]) (flat_map (λ g, known g.2) seen)))) in
  OK (mkCT values
           (map (λ g, (g.1, map (λ v, count_occ_cell v (known g.2)) values)) seen)).

(** [s.value_counts(dropna=False)]: distinct values (missing included) in
    order of first appearance, then sorted by count, descending. *)
Definition value_counts (l : list cell) : Series nat :=
  sort_values_desc Nat.ltb (λ _, false)
    (map (λ v, ([v], count_occ_cell v l)) (distinct l)).

Inductive outcome_summary : Type :=
| Grouped (counts : CrossTab nat) (pct : CrossTab (option Qc))
| Overall (counts : Series nat) (pct : Series (option Qc)).

(** [HealthAnalyzer.summarize_outcomes]; [by_ = []] stands for a falsy [by]
    ([None], the empty string or list). *)
Definition summarize_outcomes (by_ : list string) (df : DataFrame)
    : result outcome_summary :=
  match by_ with
  | _ :: _ =>
      try! grouped := outcome_counts_by by_ df in
      OK (Grouped grouped (div_rows grouped))
  | [] =>
      if negb (has_col "outcome" df) then Raise (KeyError "outcome")
      else if (1 <? col_count "outcome" df)%nat
      then Raise (ValueError "label repeated: outcome") (* outside the model *)
      else
        let counts := value_counts (column "outcome" df) in
        let total := sum_nat (map snd counts) in
        OK (Overall counts (map (λ e, (e.1, div_count e.2 total)) counts))
  end.

(** The dtype pandas gives a column, as far as [mean] is concerned. *)
Inductive col_kind : Type := KNumeric | KDatetime | KObject.

Definition is_num (c : cell) : bool :=
  match c with CNum _ | CNull => true | _ => false end.
Definition is_date (c : cell) : bool :=
  match c with CDate _ | CNull => true | _ => false end.

Definition kind_of (l : list cell) : col_kind :=
  if forallb is_num l then KNumeric
  else if forallb is_date l then KDatetime
  else KObject.

Definition num_of (c : cell) : Qc :=
  match c with CNum q => q | _ => 0%Qc end.
Definition date_of (c : cell) : Z :=
  match c with CDate t => t | _ => 0%Z end.

Fixpoint sum_Qc (l : list Qc) : Qc :=
  match l with
  | [] => 0%Qc
  | q :: l' => (q + sum_Qc l')%Qc
  end.

Fixpoint sum_Z (l : list Z) : Z :=
  match l with
  | [] => 0%Z
  | z :: l' => (z + sum_Z l')%Z
  end.

(** The mean of one group: missing values are skipped, a group without a
    known value has mean NaN. *)
Definition mean_cells (kind : col_kind) (l : list cell) : cell :=
  let known := filter (λ c, is_null c = false) l in
  match known with
  | [] => CNull
  | _ =>
      match kind with
      | KNumeric =>
          CNum (sum_Qc (map num_of known) / Q2Qc (inject_Z (Z.of_nat (length known))))%Qc
      | KDatetime =>
          CDate (sum_Z (map date_of known) / Z.of_nat (length known))%Z
      | KObject => CNull
      end
  end.

(** [df.groupby(by)[value_col].mean()] *)
Definition groupby_mean (by_ : list string) (value_col : string) (df : DataFrame)
    : result (Series cell) :=
  try! groups := groupby by_ df in
  try! _u := select_column value_col df in
  match kind_of (column value_col df) with
  | KObject => Raise (TypeError "agg function failed [how->mean,dtype->object]")
  | kind =>
      OK (map (λ g, (g.1, mean_cells kind (map (cell_at value_col (columns df)) g.2)))
              groups)
  end.

(** [df.groupby(by).size()] *)
Definition groupby_size (by_ : list string) (df : DataFrame)
    : result (Series nat) :=
  try! groups := groupby by_ df in
  OK (map (λ g, (g.1, length g.2)) groups).

Inductive aggregate : Type :=
| Counts (s : Series nat)
| Means (s : Series cell)
| Frame (df : DataFrame).

Section Aggregate.
Context `{PandasLib}.

(** [HealthAnalyzer.aggregate_by]; [value_col = None] or the empty string is
    falsy. *)
Definition aggregate_by (column_ : list string) (agg : string)
    (value_col : option string) (df : DataFrame) : result aggregate :=
  if bool_decide (agg = "count") then
    try! s := groupby_size column_ df in
    OK (Counts (sort_values_desc Nat.ltb (λ _, false) s))
  else
    match value_col with
    | Some v =>
        if bool_decide (agg = "mean" ∧ v ≠ "") then
          try! s := groupby_mean column_ v df in
          OK (Means (sort_values_desc cell_ltb is_null s))
        else Frame <$$> groupby_agg column_ agg df
    | None => Frame <$$> groupby_agg column_ agg df
    end.

End Aggregate.

(** [HealthAnalyzer.average_satisfaction_by_department] *)
Definition average_satisfaction_by_department (df : DataFrame)
    : result (Series cell) :=
  if negb (has_col "satisfaction" df) || negb (has_col "department" df) then OK []
  else
    try! s := groupby_mean ["department"] "satisfaction" df in
    OK (sort_values_desc cell_ltb is_null s).

(** ** Calendar arithmetic (proleptic Gregorian), used by [resample] and by
    the sample recogniser *)

Definition days_from_civil (y m d : Z) : Z :=
  let y' := if (m <=? 2)%Z then (y - 1)%Z else y in
  let era := (y' / 400)%Z in
  let yoe := (y' - era * 400)%Z in
  let mp := if (2 <? m)%Z then (m - 3)%Z else (m + 9)%Z in
  let doy := ((153 * mp + 2) / 5 + d - 1)%Z in
  let doe := (yoe * 365 + yoe / 4 - yoe / 100 + doy)%Z in
  (era * 146097 + doe - 719468)%Z.

(** Year, month and day of a day number. *)
Definition civil_from_days (z : Z) : Z * Z * Z :=
  let z := (z + 719468)%Z in
  let era := (z / 146097)%Z in
  let doe := (z - era * 146097)%Z in
  let yoe := ((doe - doe / 1460 + doe / 36524 - doe / 146096) / 365)%Z in
  let doy := (doe - (365 * yoe + yoe / 4 - yoe / 100))%Z in
  let mp := ((5 * doy + 2) / 153)%Z in
  let d := (doy - (153 * mp + 2) / 5 + 1)%Z in
  let m := if (mp <? 10)%Z then (mp + 3)%Z else (mp - 9)%Z in
  let y := (yoe + era * 400)%Z in
  (if (m <=? 2)%Z then (y + 1)%Z else y, m, d).

Definition days_in_month (y m : Z) : Z :=
  (days_from_civil (if (m =? 12)%Z then y + 1 else y)
                   (if (m =? 12)%Z then 1 else m + 1) 1
   - days_from_civil y m 1)%Z.

(** ** Admissions over time *)

(** The resampling frequencies covered: ["D"], ["W"] (weeks ending on
    Sunday), ["M"], ["Q"] and ["Y"] (calendar months, quarters and years,
    labelled by their last day). *)
Inductive Freq : Type := Daily | Weekly | Monthly | Quarterly | Yearly.

Definition month_index (day : Z) : Z :=
  let '(y, m, _) := civil_from_days day in (y * 12 + (m - 1))%Z.

Definition month_end (mi : Z) : Z :=
  let y := (mi / 12)%Z in
  let m := (mi mod 12 + 1)%Z in
  days_from_civil y m (days_in_month y m).

(** The number of the period a timestamp falls in. *)
Definition period_of (f : Freq) (t : Z) : Z :=
  let day := (t / ns_per_day)%Z in
  match f with
  | Daily => day
  | Weekly => ((day + 3) / 7)%Z
  | Monthly => month_index day
  | Quarterly => (month_index day / 3)%Z
  | Yearly => (month_index day / 12)%Z
  end.

(** The timestamp that labels a period in the resampled index. *)
Definition period_label (f : Freq) (p : Z) : Z :=
  (match f with
   | Daily => p
   | Weekly => 7 * p + 3
   | Monthly => month_end p
   | Quarterly => month_end (3 * p + 2)
   | Yearly => month_end (12 * p + 11)
   end * ns_per_day)%Z.

Definition count_Z (p : Z) (l : list Z) : nat :=
  length (filter (λ x, x = p) l).

(** [.resample(freq).size()] over the known timestamps of the index: one
    entry per period from the first to the last one observed. *)
Definition resample_size (f : Freq) (dates : list Z) : list (Z * nat) :=
  match map (period_of f) dates with
  | [] => []
  | p :: ps =>
      let lo := foldr Z.min p ps in
      let hi := foldr Z.max p ps in
      map (λ q, (period_label f q, count_Z q (p :: ps)))
          (seqZ lo (hi - lo + 1))
  end.

Definition known_dates (l : list cell) : list Z :=
  omap (λ c, match c with CDate t => Some t | _ => None end) l.

(** [HealthAnalyzer.admissions_over_time] *)
Definition admissions_over_time (freq : Freq) (df : DataFrame)
    : result (list (Z * nat)) :=
  if negb (has_col "admission_date" df) then
    Raise (ValueError "admission_date column required")
  else if (1 <? col_count "admission_date" df)%nat then
    Raise (ValueError "Index data must be 1-dimensional")
  else
    let col := column "admission_date" df in
    if forallb is_date col then OK (resample_size freq (known_dates col))
    else Raise (TypeError "Only valid with DatetimeIndex, TimedeltaIndex or PeriodIndex").

(** ** Charts *)

Definition count_cell (n : nat) : cell := CNum (nat_Qc n).

(** The declarative description handed to the charting library. *)
Record Chart : Type := mkChart {
  chart_mark : string;
  chart_data : DataFrame;
  chart_x : string;
  chart_y : string;
  chart_color : option string;
  chart_tooltip : list string
}.

(** [df.dropna(subset=subset)] *)
Definition dropna (subset : list string) (df : DataFrame) : result DataFrame :=
  match filter (λ s, s ∉ columns df) subset with
  | missing :: _ => Raise (KeyError missing)
  | [] =>
      OK (mkDF (columns df)
               (filter (λ r, forallb (λ c, negb (is_null c))
                                     (cells_at subset (columns df) r) = true)
                       (rows df)))
  end.

(** [(age // width).astype(int) * width] on one value. *)
Definition age_bin (width : Z) (c : cell) : cell :=
  CNum (Q2Qc (inject_Z (Qfloor (num_of c / Q2Qc (inject_Z width))%Qc * width))).

(** [HealthAnalyzer.plot_outcomes_by_age_hist]; [None] is "no chart". *)
Definition plot_outcomes_by_age_hist (age_bin_width : Z) (df0 : DataFrame)
    : result (option Chart) :=
  try! df := (if has_col "age" df0 then dropna ["age"; "outcome"] df0 else OK df0) in
  if df_empty df || negb (has_col "age" df) then OK None
  else if (1 <? col_count "age" df)%nat then
    Raise (ValueError "Cannot set a DataFrame with multiple columns to the single column age_bin")
  else if negb (forallb (λ c, match c with CNum _ => true | _ => false end)
                        (column "age" df)) then
    Raise (TypeError "unsupported operand type(s) for //")
  else if (age_bin_width =? 0)%Z then
    Raise (ValueError "Cannot convert non-finite values (NA or inf) to integer")
  else
    let df := set_col "age_bin"
                (λ r, age_bin age_bin_width (cell_at "age" (columns df) r)) df in
    OK (Some (mkChart "bar" df "age_bin:O" "count():Q" (Some "outcome:N")
                (if has_col "patient_id" df then ["age"; "outcome"; "patient_id"]
                 else ["age"; "outcome"]))).

(** [HealthAnalyzer.plot_admissions_over_time] *)
Definition plot_admissions_over_time (freq : Freq) (df : DataFrame)
    : result (option Chart) :=
  try! s := admissions_over_time freq df in
  let data := mkDF ["date"; "admissions"]
                   (map (λ e, [CDate e.1; count_cell e.2]) s) in
  OK (Some (mkChart "line" data "date:T" "admissions:Q" None ["date"; "admissions"])).

(** [HealthAnalyzer.plot_satisfaction_by_department] *)
Definition plot_satisfaction_by_department (df : DataFrame)
    : result (option Chart) :=
  try! ser := average_satisfaction_by_department df in
  match ser with
  | [] => OK None
  | _ =>
      let data := mkDF ["department"; "satisfaction"]
                       (map (λ e, [hd CNull e.1; e.2]) ser) in
      OK (Some (mkChart "bar" data "department:N" "satisfaction:Q" None
                  ["department"; "satisfaction"]))
  end.

(** ** A small recogniser instance: ISO dates [YYYY-MM-DD] and decimal
    integers.  It is what the worked examples below run on. *)
Module Sample.

Definition digit_val (c : ascii) : option Z :=
  let n := nat_of_ascii c in
  if (48 <=? n)%nat && (n <=? 57)%nat then Some (Z.of_nat (n - 48)) else None.

Fixpoint digits_val (acc : Z) (s : string) : option Z :=
  match s with
  | EmptyString => Some acc
  | String c s' =>
      match digit_val c with
      | Some d => digits_val (10 * acc + d)%Z s'
      | None => None
      end
  end.

Definition parse_nat (s : string) : option Z :=
  match s with
  | EmptyString => None
  | _ => digits_val 0 s
  end.

Definition parse_int (s : string) : option Z :=
  match s with
  | String "-" s' => Z.opp <$> parse_nat s'
  | _ => parse_nat s
  end.

Definition parse_iso_date (s : string) : option Z :=
  if bool_decide (String.length s = 10%nat
                  ∧ String.get 4 s = Some "-"%char ∧ String.get 7 s = Some "-"%char)
  then
    y ← parse_nat (String.substring 0 4 s);
    m ← parse_nat (String.substring 5 2 s);
    d ← parse_nat (String.substring 8 2 s);
    if bool_decide (1 ≤ m ≤ 12 ∧ 1 ≤ d ≤ days_in_month y m)%Z
    then Some (days_from_civil y m d * ns_per_day)%Z
    else None
  else None.

Definition two_digits (n : Z) : string :=
  (if (n <? 10)%Z then "0" else "") ++ pretty n.

Definition show_date (t : Z) : string :=
  let '(y, m, d) := civil_from_days (t / ns_per_day) in
  pretty y ++ "-" ++ two_digits m ++ "-" ++ two_digits d.

Definition show_number (q : Qc) : string :=
  if (Qden q =? 1)%positive then pretty (Qnum q)
  else pretty (Qnum q) ++ "/" ++ pretty (Z.pos (Qden q)).

#[export] Instance conv : PandasLib := {|
  parse_datetime := parse_iso_date;
  datetime_of_number := fun q => Some (Qfloor q);
  parse_number := fun s => (fun z => Q2Qc (inject_Z z)) <$> parse_int (str_strip s);
  number_of_datetime := fun t => Some (Q2Qc (inject_Z t));
  repr_number := show_number;
  repr_datetime := show_date;
  groupby_agg := fun _ verb _ => Raise (AttributeError verb)
|}.

End Sample.

(** ** The object store

    Tables are Python objects: the caller's table and the one held in
    [self.df] live in a store, and [clean_data] rewrites the held one in
    place before it rebinds [self.df] to the result of [drop_duplicates]. *)
Module Store.

Definition loc : Type := positive.
Abbreviation store := (gmap loc DataFrame).

Record HealthAnalyzer : Type := mkHA { self_df : loc }.

(** Computations on the store that may raise; the store survives a raise. *)
Definition M (A : Type) : Type := store → result A * store.

Definition ret {A} (a : A) : M A := λ σ, (OK a, σ).

Definition bind {A B} (m : M A) (k : A → M B) : M B := λ σ,
  match m σ with
  | (OK a, σ') => k a σ'
  | (Raise e, σ') => (Raise e, σ')
  end.

Notation "x ←! m ; k" := (bind m (λ x, k))
  (at level 20, m at level 100, k at level 200, right associativity).
Notation "m ;! k" := (bind m (λ _, k))
  (at level 100, k at level 200, right associativity).

Definition lift {A} (r : result A) : M A := λ σ, (r, σ).

Definition read (l : loc) : M DataFrame := λ σ,
  match σ !! l with
  | Some t => (OK t, σ)
  | None => (Raise (ValueError "unbound table"), σ)
  end.

(** A new object holding [t]. *)
Definition alloc (t : DataFrame) : M loc := λ σ,
  let l := fresh (dom σ) in (OK l, <[l := t]> σ).

(** Rewrite the object at [l] in place. *)
Definition mutate (l : loc) (f : DataFrame → result DataFrame) : M unit :=
  t ←! read l;
  t' ←! lift (f t);
  λ σ, (OK (), <[l := t']> σ).

Definition mutate_ok (l : loc) (f : DataFrame → DataFrame) : M unit :=
  mutate l (λ t, OK (f t)).

Section Methods.
Context `{PandasLib}.

(** [__init__]: [self.df = df.copy()] *)
Definition init (df : loc) : M HealthAnalyzer :=
  t ←! read df;
  l ←! alloc t;
  ret (mkHA l).

(** [clean_data]: returns the analyzer with [self.df] rebound, and the
    table it returns. *)
Definition clean_data (self : HealthAnalyzer) : M (HealthAnalyzer * loc) :=
  let df := self_df self in
  mutate_ok df normalize_columns ;!
  mutate_ok df (rename_first_alias admission_aliases "admission_date") ;!
  mutate_ok df (rename_first_alias discharge_aliases "discharge_date") ;!
  mutate df (parse_date_col "admission_date") ;!
  mutate df (parse_date_col "discharge_date") ;!
  mutate df standardize_outcome_col ;!
  mutate df (numeric_col "age") ;!
  mutate df (numeric_col "satisfaction") ;!
  mutate_ok df length_of_stay_col ;!
  mutate_ok df (fillna_col "department") ;!
  mutate_ok df (fillna_col "gender") ;!
  t ←! read df;
  t' ←! lift (drop_obvious_duplicates t);
  df' ←! alloc t';
  ret (mkHA df', df').

(** A read-only method: it looks at [self.df] and builds its answer. *)
Definition query {A} (q : DataFrame → result A) (self : HealthAnalyzer) : M A :=
  t ←! read (self_df self);
  lift (q t).

(** The methods a caller can invoke on an analyzer. *)
Inductive call : Type :=
| CleanData
| SummarizeOutcomes (by_ : list string)
| AggregateBy (column_ : list string) (agg : string) (value_col : option string)
| AdmissionsOverTime (freq : Freq)
| AverageSatisfactionByDepartment
| PlotOutcomesByAgeHist (age_bin_width : Z)
| PlotAdmissionsOverTime (freq : Freq)
| PlotSatisfactionByDepartment.

(** One call; the caller may catch what it raises, so the analyzer and the
    store are what is left behind in either case. *)
Definition exec (c : call) (self : HealthAnalyzer) (σ : store)
    : HealthAnalyzer * store :=
  let forget {A} (m : M A) := (self, (m σ).2) in
  match c with
  | CleanData =>
      match clean_data self σ with
      | (OK (self', _), σ') => (self', σ')
      | (Raise _, σ') => (self, σ')
      end
  | SummarizeOutcomes by_ => forget (query (summarize_outcomes by_) self)
  | AggregateBy c a v => forget (query (aggregate_by c a v) self)
  | AdmissionsOverTime f => forget (query (admissions_over_time f) self)
  | AverageSatisfactionByDepartment =>
      forget (query average_satisfaction_by_department self)
  | PlotOutcomesByAgeHist w => forget (query (plot_outcomes_by_age_hist w) self)
  | PlotAdmissionsOverTime f => forget (query (plot_admissions_over_time f) self)
  | PlotSatisfactionByDepartment =>
      forget (query plot_satisfaction_by_department self)
  end.

Fixpoint exec_all (cs : list call) (self : HealthAnalyzer) (σ : store)
    : HealthAnalyzer * store :=
  match cs with
  | [] => (self, σ)
  | c :: cs' => let '(self', σ') := exec c self σ in exec_all cs' self' σ'
  end.

End Methods.

End Store.

(** ** What a cleaned table looks like *)

(** Every cell under label [n] satisfies [P]. *)
Definition under (n : string) (P : cell → Prop) (df : DataFrame) : Prop :=
  Forall (λ r, Forall P (cells_at [n] (columns df) r)) (rows df).

(** [f] changes no cell under label [n]. *)
Definition fixed_under (n : string) (f : cell → cell) (df : DataFrame) : Prop :=
  under n (λ c, f c = c) df.

(** Every [length_of_stay] cell is the day difference of its row's dates. *)
Definition los_ok (df : DataFrame) : Prop :=
  Forall (λ r, Forall (λ c, c = days_between (cell_at "discharge_date" (columns df) r)
                                             (cell_at "admission_date" (columns df) r))
                      (cells_at ["length_of_stay"] (columns df) r))
         (rows df).

Section Cleaned.
Context `{PandasLib}.

Record cleaned (df : DataFrame) : Prop := {
  cl_wf : well_formed df;
  cl_names : Forall (λ l, normalize_name l = l) (columns df);
  cl_adm_alias :
    "admission_date" ∈ columns df ∨ Forall (λ a, a ∉ columns df) admission_aliases;
  cl_dis_alias :
    "discharge_date" ∈ columns df ∨ Forall (λ a, a ∉ columns df) discharge_aliases;
  cl_unique :
    Forall (λ n, (col_count n df ≤ 1)%nat)
           ["admission_date"; "discharge_date"; "outcome"; "age"; "satisfaction"];
  cl_adm : fixed_under "admission_date" to_datetime_cell df;
  cl_dis : fixed_under "discharge_date" to_datetime_cell df;
  cl_outcome : fixed_under "outcome" standardize_outcome df;
  cl_age : fixed_under "age" to_numeric_cell df;
  cl_sat : fixed_under "satisfaction" to_numeric_cell df;
  cl_los_col :
    "admission_date" ∈ columns df → "discharge_date" ∈ columns df →
    "length_of_stay" ∈ columns df ∧ los_ok df;
  cl_dept : fixed_under "department" fillna_unknown df;
  cl_gender : fixed_under "gender" fillna_unknown df
}.

End Cleaned.

Section CleanStages.
Context `{PandasLib}.

(** The table after its labels are normalised and the date aliases renamed. *)
Definition base_frame (raw : DataFrame) : DataFrame :=
  rename_first_alias discharge_aliases "discharge_date"
    (rename_first_alias admission_aliases "admission_date" (normalize_columns raw)).

(** ... after the date, outcome and numeric columns are rewritten. *)
Definition typed_frame (raw : DataFrame) : DataFrame :=
  map_col "satisfaction" to_numeric_cell
    (map_col "age" to_numeric_cell
      (map_col "outcome" standardize_outcome
        (map_col "discharge_date" to_datetime_cell
          (map_col "admission_date" to_datetime_cell (base_frame raw))))).

(** ... and after the derived column and the filled categories. *)
Definition finished_frame (raw : DataFrame) : DataFrame :=
  map_col "gender" fillna_unknown
    (map_col "department" fillna_unknown (length_of_stay_col (typed_frame raw))).

Definition typed_labels : list string :=
  ["admission_date"; "discharge_date"; "outcome"; "age"; "satisfaction"].

End CleanStages.

(** [m] leaves the object at [l] alone, and its result satisfies [Q]. *)
Definition frame {A} (l : Store.loc) (Q : A → Prop) (m : Store.M A) : Prop :=
  ∀ σ : gmap Store.loc DataFrame, is_Some (σ !! l) →
    (m σ).2 !! l = σ !! l ∧ ∀ a, (m σ).1 = OK a → Q a.
(** The rows of [df] that [groupby(by_)] looks at, and the labels it finds. *)
Definition keyed_rows (by_ : list string) (df : DataFrame) : list row :=
  filter (λ r, key_known (group_key by_ (columns df) r) = true) (rows df).

Definition group_keys (by_ : list string) (df : DataFrame) : list key :=
  sort_keys (distinct (map (group_key by_ (columns df)) (keyed_rows by_ df))).

Definition group_rows (by_ : list string) (df : DataFrame) (k : key) : list row :=
  filter (λ r, group_key by_ (columns df) r = k) (keyed_rows by_ df).

(** The labels in [by_] are columns of [df], none of them repeated. *)
Definition groupable (by_ : list string) (df : DataFrame) : Prop :=
  by_ ≠ [] ∧ Forall (λ b, b ∈ columns df ∧ (col_count b df ≤ 1)%nat) by_.

(** ** Worked tables *)
Module Examples.

(** An upload with mixed-case labels, a date alias, a repeated patient, an
    unreadable date and missing values. *)
Definition raw : DataFrame :=
  mkDF ["Patient_ID"; "admit_date"; "Discharge_Date"; " Outcome"; "Department"]
    [ [CStr "P1"; CStr "2020-01-05"; CStr "2020-01-09"; CStr "Discharge "; CStr "Cardiology"];
      [CStr "P1"; CStr "2020-01-05"; CStr "2020-01-20"; CStr "death"; CStr "Cardiology"];
      [CStr "P2"; CStr "bad"; CStr "2020-03-01"; CNull; CNull];
      [CStr "P3"; CStr "2020-03-15"; CStr "2020-03-16"; CStr "DAMA"; CStr "Oncology"] ].

Definition cleaned_table : DataFrame :=
  Eval vm_compute in
    match clean_data (H := Sample.conv) raw with
    | OK t => t
    | Raise _ => mkDF [] []
    end.


(** A table that brings its own [length_of_stay] and no dates. *)
Definition stay_only : DataFrame :=
  mkDF ["length_of_stay"] [[CStr "7"]].

(** Departments with their satisfaction ratings. *)
Definition ratings : DataFrame :=
  mkDF ["department"; "satisfaction"]
    [ [CStr "A"; CNum (Q2Qc 4)]; [CStr "B"; CNum (Q2Qc 5)]; [CStr "A"; CNum (Q2Qc 2)] ].

End Examples.

(** The known outcome cells of a group of rows, the groups that have one,
    and the outcome values that head the columns of the cross table. *)
Definition known_outcomes (df : DataFrame) (g : list row) : list cell :=
  filter (λ c, is_null c = false) (map (cell_at "outcome" (columns df)) g).

Definition shown_groups (by_ : list string) (df : DataFrame) : list (key * list row) :=
  filter (λ g : key * list row, known_outcomes df g.2 ≠ [])
         (map (λ k, (k, group_rows by_ df k)) (group_keys by_ df)).

Definition outcome_values (by_ : list string) (df : DataFrame) : list cell :=
  map (λ k : key, hd CNull k)
      (sort_keys (distinct (map (λ c, [c])
         (flat_map (λ g : key * list row, known_outcomes df g.2)
                   (shown_groups by_ df))))).
(** ** The dashboard script ([src/main.py])

    The script cleans the loaded table, reads the defaults of its three
    filter widgets off the cleaned table, keeps the rows that pass the
    filters and hands them to the charts.  The widgets are the user: what
    they return is an argument here. *)
Module Dashboard.

(** Python's [int(x)] on a number: truncation toward zero. *)
Definition py_int (q : Qc) : Z :=
  if Qle_bool 0 q then Qfloor q else Qceiling q.

Definition qc_min (a b : Qc) : Qc := if Qle_bool a b then a else b.
Definition qc_max (a b : Qc) : Qc := if Qle_bool a b then b else a.

Definition known_numbers (l : list cell) : list Qc :=
  omap (λ c, match c with CNum q => Some q | _ => None end) l.

(** [df[name].min()] and [.max()] on a numeric column: missing values are
    skipped, and the result is NaN ([None]) when nothing is known.  A column
    of another dtype does not come out of [clean_data]; it is reported as a
    [TypeError]. *)
Definition series_stat (pick : Qc → Qc → Qc) (name : string) (df : DataFrame)
    : result (option Qc) :=
  if negb (has_col name df) then Raise (KeyError name)
  else if (1 <? col_count name df)%nat then
    Raise (TypeError "cannot convert the series to <class 'int'>")
  else if negb (forallb is_num (column name df)) then
    Raise (TypeError "int() argument must be a string, a bytes-like object or a real number")
  else
    OK (match known_numbers (column name df) with
        | [] => None
        | q :: qs => Some (foldr pick q qs)
        end).

(** [int(df["age"].min())], [int(df["age"].max())] *)
Definition int_of_stat (pick : Qc → Qc → Qc) (df : DataFrame) : result Z :=
  try! m := series_stat pick "age" df in
  match m with
  | Some q => OK (py_int q)
  | None => Raise (ValueError "cannot convert float NaN to integer")
  end.

(** The second component of line 57 is an integer or the pair [(0, 100)]. *)
Inductive age_max_value : Type :=
| AgeMax (z : Z)
| AgeDefault (lo hi : Z).

(** [age_min, age_max = int(min), int(max) if "age" in columns else (0, 100)]:
    the conditional belongs to the second component only, and the first
    component is evaluated first. *)
Definition age_bounds (df : DataFrame) : result (Z * age_max_value) :=
  try! age_min := int_of_stat qc_min df in
  try! age_max := (if has_col "age" df then AgeMax <$$> int_of_stat qc_max df
                   else OK (AgeDefault 0 100)) in
  OK (age_min, age_max).

Definition is_str (c : cell) : bool :=
  match c with CStr _ => true | _ => false end.
Definition is_num_cell (c : cell) : bool :=
  match c with CNum _ => true | _ => false end.
Definition is_date_cell (c : cell) : bool :=
  match c with CDate _ => true | _ => false end.

(** Python can order the values: strings only, or numbers and timestamps
    apart (NaN and NaT compare without raising). *)
Definition sortable (l : list cell) : bool :=
  forallb is_str l
  || (negb (existsb is_str l) && negb (existsb is_num_cell l && existsb is_date_cell l)).

(** [sorted(df[name].unique())]: the options of a multiselect.  The place
    Python's sort gives a NaN is not modelled: a missing value comes last. *)
Definition options (name : string) (df : DataFrame) : result (list cell) :=
  if negb (has_col name df) then Raise (KeyError name)
  else if (1 <? col_count name df)%nat then
    Raise (AttributeError "'DataFrame' object has no attribute 'unique'")
  else
    let values := distinct (column name df) in
    if sortable values then
      OK (map (λ k : key, hd CNull k) (sort_keys (map (λ c, [c]) values)))
    else Raise (TypeError "'<' not supported between instances").

(** [lo <= age <= hi]; a comparison with NaN is false. *)
Definition in_age_range (lo hi : Z) (c : cell) : bool :=
  match c with
  | CNum a => Qle_bool (inject_Z lo) a && Qle_bool a (inject_Z hi)
  | _ => false
  end.

(** The row passes the three filters. *)
Definition passes (lo hi : Z) (genders departments : list cell)
    (labels : list string) (r : row) : bool :=
  in_age_range lo hi (cell_at "age" labels r)
  && bool_decide (cell_at "gender" labels r ∈ genders)
  && bool_decide (cell_at "department" labels r ∈ departments).

(** [df[(df["age"] >= lo) & (df["age"] <= hi) & df["gender"].isin(genders)
        & df["department"].isin(departments)]].
    The masks are computed from left to right.  Comparing a column that is
    not numeric with an integer raises [TypeError]; a repeated label makes a
    mask two-dimensional, which is outside this model and reported as a
    [ValueError]. *)
Definition filter_rows (lo hi : Z) (genders departments : list cell)
    (df : DataFrame) : result DataFrame :=
  if negb (has_col "age" df) then Raise (KeyError "age")
  else if negb (forallb is_num (column "age" df)) then
    Raise (TypeError "'>=' not supported between instances")
  else if negb (has_col "gender" df) then Raise (KeyError "gender")
  else if negb (has_col "department" df) then Raise (KeyError "department")
  else if existsb (λ n, (1 <? col_count n df)%nat) ["age"; "gender"; "department"] then
    Raise (ValueError "two-dimensional mask")
  else
    OK (mkDF (columns df)
             (filter (λ r, passes lo hi genders departments (columns df) r = true)
                     (rows df))).

(** What the widgets are given when the page is drawn. *)
Record Widgets : Type := mkWidgets {
  age_min : Z;
  age_max : age_max_value;
  gender_options : list cell;
  department_options : list cell
}.

Section Script.
Context `{PandasLib}.

(** Lines 52 to 60: clean the table, then compute the widget defaults. *)
Definition load (raw : DataFrame) : result (DataFrame * Widgets) :=
  try! t := clean_data raw in
  try! b := age_bounds t in
  try! g := options "gender" t in
  try! d := options "department" t in
  OK (t, mkWidgets b.1 b.2 g d).

(** Line 58: the default of the slider, [(age_min, min(age_max, 120))].
    Whether streamlit accepts a default outside the slider's bounds 0 and
    120 is not modelled. *)
Definition default_age_range (w : Widgets) : result (Z * Z) :=
  match age_max w with
  | AgeMax z => OK (age_min w, Z.min z 120)
  | AgeDefault _ _ =>
      Raise (TypeError "'<' not supported between instances of 'int' and 'tuple'")
  end.

(** The rows shown when the user has not touched a widget. *)
Definition default_view (raw : DataFrame) : result DataFrame :=
  try! tw := load raw in
  try! range := default_age_range tw.2 in
  filter_rows range.1 range.2 (gender_options tw.2) (department_options tw.2) tw.1.

End Script.

End Dashboard.

(** ** The demonstration data ([generate_sample_data] in [src/main.py])

    The generator draws every value from numpy's random generator.  What is
    drawn is an argument here: one [Draw] per patient, the values that stand
    at the same position in the arrays numpy returns.  [rng.integers] gives
    whole numbers and [rng.choice] one of the listed strings. *)
Module Demo.

Inductive outcome_draw : Type := DrawDischarge | DrawDama | DrawDeath.
Inductive gender_draw : Type := Male | Female | Other.
Inductive department_draw : Type :=
  Cardiology | Oncology | Emergency | Pediatrics | General.
Inductive diagnosis_draw : Type := Flu | Covid19 | Fracture | Cancer | Infection.

Definition outcome_name (o : outcome_draw) : string :=
  match o with
  | DrawDischarge => "discharge" | DrawDama => "dama" | DrawDeath => "death"
  end.
Definition gender_name (g : gender_draw) : string :=
  match g with Male => "Male" | Female => "Female" | Other => "Other" end.
Definition department_name (d : department_draw) : string :=
  match d with
  | Cardiology => "Cardiology" | Oncology => "Oncology" | Emergency => "Emergency"
  | Pediatrics => "Pediatrics" | General => "General"
  end.
Definition diagnosis_name (d : diagnosis_draw) : string :=
  match d with
  | Flu => "Flu" | Covid19 => "COVID-19" | Fracture => "Fracture"
  | Cancer => "Cancer" | Infection => "Infection"
  end.

Record Draw : Type := mkDraw {
  admission_offset : Z;
  discharge_offset : Z;
  outcome : outcome_draw;
  age : Z;
  gender : gender_draw;
  department : department_draw;
  satisfaction : Z;
  diagnosis : diagnosis_draw
}.

(** The half-open ranges the whole numbers are drawn from. *)
Definition in_range (d : Draw) : Prop :=
  (0 <= admission_offset d < 1000)%Z ∧ (0 <= discharge_offset d < 30)%Z
  ∧ (0 <= age d < 100)%Z ∧ (1 <= satisfaction d < 6)%Z.

(** [f"{i:05d}"]: the decimal digits, filled with zeros on the left up to
    [width] characters. *)
Definition zfill (width : nat) (s : string) : string :=
  string_of_list_ascii (replicate (width - String.length s) "0"%char) +:+ s.

(** [f"P{i:05d}"] *)
Definition patient_id (i : nat) : string := "P" +:+ zfill 5 (pretty i).

(** [datetime(2020, 1, 1)], in days since the epoch. *)
Definition start : Z := days_from_civil 2020 1 1.

(** The timestamp of midnight, [days] days after the epoch. *)
Definition midnight (days : Z) : cell := CDate (days * ns_per_day).

Definition int_cell (z : Z) : cell := CNum (Q2Qc (inject_Z z)).

Definition labels : list string :=
  ["patient_id"; "admission_date"; "discharge_date"; "outcome"; "age"; "gender";
   "department"; "satisfaction"; "diagnosis"].

Definition row_of (pid : string) (d : Draw) : row :=
  [ CStr pid;
    midnight (start + admission_offset d);
    midnight (start + admission_offset d + discharge_offset d);
    CStr (outcome_name (outcome d));
    int_cell (age d);
    CStr (gender_name (gender d));
    CStr (department_name (department d));
    int_cell (satisfaction d);
    CStr (diagnosis_name (diagnosis d)) ].

(** [generate_sample_data(n, seed)], [n] being the number of draws. *)
Definition generate_sample_data (draws : list Draw) : DataFrame :=
  mkDF labels (imap (λ i d, row_of (patient_id i) d) draws).

(** The table the dashboard shows for these draws: the generated one with
    the length of stay on the right. *)
Definition cleaned_sample (draws : list Draw) : DataFrame :=
  mkDF (labels ++ ["length_of_stay"])
       (imap (λ i d, row_of (patient_id i) d ++ [int_cell (discharge_offset d)]) draws).

End Demo.

(** A decimal numeral: the digit zero alone, or digits that do not start
    with a zero. *)
Definition numeral (s : string) : Prop :=
  s = "0" ∨ ∃ c r, s = String c r ∧ c ≠ "0"%char.

(** A ward list as it might be uploaded: labels in mixed case, ages and
    ratings as text, an unreadable age, missing categories, and patient P1
    entered twice for the same admission. *)
Module Ward.

Definition visits : DataFrame :=
  mkDF [" Patient_ID"; "Admit_Date"; "discharge_date"; "Outcome"; "Age"; "Gender";
        "Department"; "Satisfaction"]
    [ [CStr "P1"; CStr "2021-03-01"; CStr "2021-03-04"; CStr "Discharge"; CStr "34";
       CStr "Female"; CStr "Cardiology"; CStr "4"];
      [CStr "P2"; CStr "2021-03-09"; CStr "2021-03-10"; CStr "death"; CStr "n/a";
       CStr "Male"; CNull; CStr "2"];
      [CStr "P3"; CStr "2021-05-20"; CStr "2021-05-30"; CStr "DAMA "; CStr "71";
       CNull; CStr "Oncology"; CNull];
      [CStr "P1"; CStr "2021-03-01"; CStr "2021-03-05"; CStr "death"; CStr "35";
       CStr "Female"; CStr "Cardiology"; CStr "5"] ].

Definition cleaned_visits : DataFrame :=
  Eval vm_compute in
    match clean_data (H := Sample.conv) visits with
    | OK t => t
    | Raise _ => mkDF [] []
    end.

(** A list of patient identifiers without admission dates. *)
Definition identifiers : DataFrame := mkDF ["Patient_ID"] [[CStr "P1"]].

(** One patient of the demonstration data. *)
Definition one_draw : Demo.Draw :=
  Demo.mkDraw 5 3 Demo.DrawDischarge 40 Demo.Female Demo.Oncology 4 Demo.Flu.

End Ward.

(** * Properties *)

(** ** Strings *)

Lemma lower_ascii_idem c : lower_ascii (lower_ascii c) = lower_ascii c.
Proof. by destruct c as [[] [] [] [] [] [] [] []]. Qed.

Lemma is_space_lower c : is_space (lower_ascii c) = is_space c.
Proof. by destruct c as [[] [] [] [] [] [] [] []]. Qed.

Lemma str_lower_idem s : str_lower (str_lower s) = str_lower s.
Proof. induction s as [|c s IH]; simpl; [done|]. by rewrite lower_ascii_idem, IH. Qed.

Lemma str_lstrip_lower s : str_lstrip (str_lower s) = str_lower (str_lstrip s).
Proof.
  induction s as [|c s IH]; simpl; [done|].
  rewrite is_space_lower. by destruct (is_space c).
Qed.

Lemma str_rstrip_lower s : str_rstrip (str_lower s) = str_lower (str_rstrip s).
Proof.
  induction s as [|c s IH]; simpl; [done|].
  rewrite IH, is_space_lower.
  destruct (str_rstrip s); simpl; [by destruct (is_space c)|done].
Qed.

Lemma str_strip_lower s : str_strip (str_lower s) = str_lower (str_strip s).
Proof. unfold str_strip. by rewrite str_lstrip_lower, str_rstrip_lower. Qed.

(** The string does not start with whitespace. *)
Definition no_leading_space (s : string) : Prop :=
  match s with
  | EmptyString => True
  | String c _ => is_space c = false
  end.

Lemma str_lstrip_no_leading s : no_leading_space (str_lstrip s).
Proof.
  induction s as [|c s IH]; simpl; [done|].
  by destruct (is_space c) eqn:E.
Qed.

Lemma str_lstrip_fixed s : no_leading_space s → str_lstrip s = s.
Proof. destruct s as [|c s]; simpl; [done|]. by intros ->. Qed.

Lemma str_rstrip_no_leading s : no_leading_space s → no_leading_space (str_rstrip s).
Proof.
  destruct s as [|c s]; simpl; [done|]. intros E.
  destruct (str_rstrip s); simpl; [by rewrite E|done].
Qed.

Lemma str_rstrip_idem s : str_rstrip (str_rstrip s) = str_rstrip s.
Proof.
  induction s as [|c s IH]; simpl; [done|].
  destruct (str_rstrip s) as [|d t] eqn:E.
  - destruct (is_space c) eqn:Ec; simpl; [done|]. by rewrite Ec.
  - change (str_rstrip (String c (String d t)))
      with (match str_rstrip (String d t) with
            | EmptyString => if is_space c then EmptyString else String c EmptyString
            | u => String c u
            end).
    by rewrite IH.
Qed.

Lemma str_strip_idem s : str_strip (str_strip s) = str_strip s.
Proof.
  unfold str_strip.
  rewrite (str_lstrip_fixed (str_rstrip _)).
  - apply str_rstrip_idem.
  - apply str_rstrip_no_leading, str_lstrip_no_leading.
Qed.

Lemma normalize_name_idem c : normalize_name (normalize_name c) = normalize_name c.
Proof.
  unfold normalize_name.
  by rewrite <- str_strip_lower, str_lower_idem, str_strip_lower, str_strip_idem.
Qed.

Lemma strip_lower_fixed s :
  str_strip (str_lower (str_strip (str_lower s))) = str_strip (str_lower s).
Proof. by rewrite (str_strip_lower (str_strip _)), str_strip_idem, <- str_strip_lower, str_lower_idem. Qed.

(** ** Rows and labels *)

Lemma map_under_length n f L r : length (map_under n f L r) = length r.
Proof.
  revert r; induction L as [|l L IH]; intros [|c r]; simpl; try done.
  by rewrite IH.
Qed.

Lemma cells_at_map_under_other S n f L r :
  n ∉ S → cells_at S L (map_under n f L r) = cells_at S L r.
Proof.
  intros Hn. revert r; induction L as [|l L IH]; intros [|c r]; simpl; try done.
  rewrite IH. case_bool_decide as Hl; [|done].
  case_bool_decide as E; [|done]. by subst.
Qed.

Lemma cells_at_map_under_same n f L r :
  cells_at [n] L (map_under n f L r) = map f (cells_at [n] L r).
Proof.
  revert r; induction L as [|l L IH]; intros [|c r]; simpl; try done.
  rewrite IH. repeat case_bool_decide; simpl; try done; set_solver.
Qed.

Lemma cell_at_hd n L r : cell_at n L r = hd CNull (cells_at [n] L r).
Proof.
  revert r; induction L as [|l L IH]; intros [|c r]; simpl; try done.
  repeat case_bool_decide; simpl; try done; set_solver.
Qed.

Lemma cell_at_map_under_other n m f L r :
  n ≠ m → cell_at n L (map_under m f L r) = cell_at n L r.
Proof.
  intros. rewrite !cell_at_hd, cells_at_map_under_other; [done|set_solver].
Qed.

Lemma map_under_fixed n f L r :
  Forall (λ c, f c = c) (cells_at [n] L r) → map_under n f L r = r.
Proof.
  revert r; induction L as [|l L IH]; intros [|c r]; simpl; try done.
  repeat case_bool_decide; try set_solver.
  - intros [-> ?]%Forall_cons. f_equal; auto.
  - intros. f_equal; auto.
Qed.

Lemma cells_at_absent S L r :
  (∀ l, l ∈ S → l ∉ L) → cells_at S L r = [].
Proof.
  intros HS. revert r; induction L as [|l L IH]; intros [|c r]; simpl; try done.
  case_bool_decide as E.
  - exfalso. eapply HS; [done|set_solver].
  - apply IH. intros l' Hl' ?. eapply HS; [done|set_solver].
Qed.

Lemma cells_at_snoc S L m r x :
  length r = length L →
  cells_at S (L ++ [m]) (r ++ [x])
  = cells_at S L r ++ (if bool_decide (m ∈ S) then [x] else []).
Proof.
  revert r; induction L as [|l L IH]; intros [|c r]; simpl; try done.
  intros [=E]. rewrite IH by done. by destruct (bool_decide (l ∈ S)).
Qed.

(** ** Frames under the cleaning steps *)

Lemma has_col_true n df : has_col n df = true ↔ n ∈ columns df.
Proof. unfold has_col. by rewrite bool_decide_eq_true. Qed.

Lemma has_col_false n df : has_col n df = false ↔ n ∉ columns df.
Proof. unfold has_col. by rewrite bool_decide_eq_false. Qed.

Lemma col_count_absent n df : n ∉ columns df → col_count n df = 0%nat.
Proof.
  unfold col_count. intros Hn.
  destruct (filter _ _) as [|l F] eqn:E; [done|].
  assert (l ∈ filter (λ c, c = n) (columns df)) as Hl by (rewrite E; left).
  apply list_elem_of_filter in Hl as [-> ?]. done.
Qed.

Lemma map_col_absent n f df : n ∉ columns df → map_col n f df = df.
Proof.
  intros Hn. destruct df as [L rs]. unfold map_col. simpl in *. f_equal.
  rewrite <- (map_id rs) at 2. apply map_ext. intros r.
  apply map_under_fixed. rewrite cells_at_absent; [done|].
  intros l Hl. apply list_elem_of_singleton in Hl. by subst.
Qed.

Lemma map_col_fixed n f df : fixed_under n f df → map_col n f df = df.
Proof.
  intros Hf. destruct df as [L rs]. unfold map_col, fixed_under, under in *.
  simpl in *. f_equal.
  rewrite <- (map_id rs) at 2. apply map_ext_Forall.
  eapply Forall_impl; [exact Hf|]. intros r Hr. by apply map_under_fixed.
Qed.

Lemma well_formed_map_col n f df : well_formed df → well_formed (map_col n f df).
Proof.
  unfold well_formed, map_col. simpl. intros Hw.
  apply Forall_map. eapply Forall_impl; [exact Hw|].
  intros r. simpl. by rewrite map_under_length.
Qed.

Lemma under_map_col_other n m f P df :
  n ≠ m → under n P df → under n P (map_col m f df).
Proof.
  unfold under, map_col. simpl. intros Hne Hu.
  apply Forall_map. eapply Forall_impl; [exact Hu|].
  intros r. simpl. rewrite cells_at_map_under_other; [done|].
  rewrite list_elem_of_singleton. congruence.
Qed.

Lemma under_map_col_same n f P df :
  (∀ c, P (f c)) → under n P (map_col n f df).
Proof.
  unfold under, map_col. simpl. intros HP.
  apply Forall_map, Forall_forall. intros r _. simpl.
  rewrite cells_at_map_under_same. apply Forall_map, Forall_forall. auto.
Qed.

Lemma well_formed_set_col n g df : well_formed df → well_formed (set_col n g df).
Proof.
  unfold well_formed, set_col. intros Hw. destruct (has_col n df); simpl.
  - apply Forall_map. eapply Forall_impl; [exact Hw|].
    intros r. simpl. by rewrite map_under_length.
  - apply Forall_map. eapply Forall_impl; [exact Hw|].
    intros r. simpl. rewrite !length_app. simpl. lia.
Qed.

Lemma under_set_col_other n m g P df :
  n ≠ m → well_formed df → under n P df → under n P (set_col m g df).
Proof.
  unfold under, set_col, well_formed. intros Hne Hw Hu.
  destruct (has_col m df); simpl; apply Forall_map.
  - eapply Forall_impl; [exact Hu|]. intros r. simpl.
    rewrite cells_at_map_under_other; [done|].
    rewrite list_elem_of_singleton. congruence.
  - rewrite Forall_forall in Hu, Hw. apply Forall_forall. intros r Hr. simpl.
    rewrite cells_at_snoc by auto.
    rewrite bool_decide_eq_false_2, app_nil_r; [auto|].
    rewrite list_elem_of_singleton. congruence.
Qed.

Lemma columns_set_col n g df :
  columns (set_col n g df)
  = if has_col n df then columns df else columns df ++ [n].
Proof. unfold set_col. by destruct (has_col n df). Qed.


Section CleaningFacts.
Context `{PandasLib}.

Lemma to_datetime_cell_idem c : to_datetime_cell (to_datetime_cell c) = to_datetime_cell c.
Proof.
  destruct c as [|s|q|t]; simpl; try done.
  - by destruct (parse_datetime s).
  - by destruct (datetime_of_number q).
Qed.

Lemma to_numeric_cell_idem c : to_numeric_cell (to_numeric_cell c) = to_numeric_cell c.
Proof.
  destruct c as [|s|q|t]; simpl; try done.
  - by destruct (parse_number s).
  - by destruct (number_of_datetime t).
Qed.

Lemma standardize_outcome_idem c :
  standardize_outcome (standardize_outcome c) = standardize_outcome c.
Proof. unfold standardize_outcome. simpl. by rewrite strip_lower_fixed. Qed.

Lemma fillna_unknown_idem c : fillna_unknown (fillna_unknown c) = fillna_unknown c.
Proof. by destruct c. Qed.

(** A guarded column assignment either rewrites the column or, when the
    label is repeated, raises. *)
Lemma guarded_assign n e f df :
  (if has_col n df then assign_series n e f df else OK df)
  = if (1 <? col_count n df)%nat then Raise e else OK (map_col n f df).
Proof.
  destruct (has_col n df) eqn:E; [done|].
  apply has_col_false in E.
  by rewrite (col_count_absent _ _ E), (map_col_absent _ _ _ E).
Qed.

Lemma fillna_col_eq n df : fillna_col n df = map_col n fillna_unknown df.
Proof.
  unfold fillna_col. destruct (has_col n df) eqn:E; [done|].
  apply has_col_false in E. by rewrite map_col_absent.
Qed.

Lemma clean_in_place_spec raw :
  clean_in_place raw
  = match filter (λ n, (1 < col_count n (base_frame raw))%nat) typed_labels with
    | [] => OK (finished_frame raw)
    | n :: _ =>
        Raise (if bool_decide (n = "admission_date" ∨ n = "discharge_date") then
                 ValueError "to assemble mappings requires at least that [year, month, day] be specified"
               else if bool_decide (n = "outcome") then
                 AttributeError "'DataFrame' object has no attribute 'str'"
               else TypeError "arg must be a list, tuple, 1-d array, or Series")
    end.
Proof.
  unfold clean_in_place, parse_date_col, standardize_outcome_col, numeric_col.
  fold (base_frame raw). set (d := base_frame raw).
  unfold typed_labels. rewrite !filter_cons, filter_nil.
  rewrite guarded_assign.
  destruct (decide (1 < col_count "admission_date" d)%nat) as [E1|E1].
  { by rewrite (proj2 (Nat.ltb_lt _ _) E1). }
  rewrite (proj2 (Nat.ltb_ge _ _)) by lia. simpl rbind.
  rewrite guarded_assign.
  change (col_count "discharge_date" (map_col _ _ d)) with (col_count "discharge_date" d).
  destruct (decide (1 < col_count "discharge_date" d)%nat) as [E2|E2].
  { by rewrite (proj2 (Nat.ltb_lt _ _) E2). }
  rewrite (proj2 (Nat.ltb_ge _ _)) by lia. simpl rbind.
  rewrite guarded_assign.
  change (col_count "outcome" (map_col _ _ (map_col _ _ d))) with (col_count "outcome" d).
  destruct (decide (1 < col_count "outcome" d)%nat) as [E3|E3].
  { by rewrite (proj2 (Nat.ltb_lt _ _) E3). }
  rewrite (proj2 (Nat.ltb_ge _ _)) by lia. simpl rbind.
  rewrite guarded_assign.
  change (col_count "age" (map_col _ _ (map_col _ _ (map_col _ _ d))))
    with (col_count "age" d).
  destruct (decide (1 < col_count "age" d)%nat) as [E4|E4].
  { by rewrite (proj2 (Nat.ltb_lt _ _) E4). }
  rewrite (proj2 (Nat.ltb_ge _ _)) by lia. simpl rbind.
  rewrite guarded_assign.
  change (col_count "satisfaction" (map_col _ _ (map_col _ _ (map_col _ _ (map_col _ _ d)))))
    with (col_count "satisfaction" d).
  destruct (decide (1 < col_count "satisfaction" d)%nat) as [E5|E5].
  { by rewrite (proj2 (Nat.ltb_lt _ _) E5). }
  rewrite (proj2 (Nat.ltb_ge _ _)) by lia. simpl rbind.
  by rewrite !fillna_col_eq.
Qed.

Lemma clean_in_place_OK raw pre :
  clean_in_place raw = OK pre →
  pre = finished_frame raw
  ∧ Forall (λ n, (col_count n (base_frame raw) ≤ 1)%nat) typed_labels.
Proof.
  rewrite clean_in_place_spec.
  destruct (filter _ _) as [|n F] eqn:E; [|done].
  intros [= <-]. split; [done|].
  apply Forall_forall. intros n Hn.
  destruct (decide (1 < col_count n (base_frame raw))%nat) as [Hlt|]; [|lia].
  assert (n ∈ filter (λ n, (1 < col_count n (base_frame raw))%nat) typed_labels) as Hf
    by (by apply list_elem_of_filter).
  rewrite E in Hf. by apply not_elem_of_nil in Hf.
Qed.

Lemma clean_in_place_unique raw :
  Forall (λ n, (col_count n (base_frame raw) ≤ 1)%nat) typed_labels →
  clean_in_place raw = OK (finished_frame raw).
Proof.
  intros Hu. rewrite clean_in_place_spec.
  destruct (filter _ _) as [|n F] eqn:E; [done|].
  assert (n ∈ filter (λ n, (1 < col_count n (base_frame raw))%nat) typed_labels) as Hf
    by (rewrite E; left).
  apply list_elem_of_filter in Hf as [Hlt Hn].
  rewrite Forall_forall in Hu. specialize (Hu n Hn). lia.
Qed.

End CleaningFacts.

Section LabelFacts.
Context `{PandasLib}.

Lemma rename_col_same a df : rename_col a a df = df.
Proof.
  destruct df as [L rs]. unfold rename_col. simpl. f_equal.
  rewrite <- (map_id L) at 2. apply map_ext. intros l. by case_bool_decide.
Qed.

Lemma rename_first_alias_cases aliases target df :
  (∃ a, a ∈ aliases ∧ a ∈ columns df
        ∧ rename_first_alias aliases target df = rename_col a target df)
  ∨ (Forall (λ a, a ∉ columns df) aliases ∧ rename_first_alias aliases target df = df).
Proof.
  induction aliases as [|a l IH]; simpl; [by right|].
  destruct (has_col a df) eqn:E.
  - left. exists a. apply has_col_true in E. split; [left|done].
  - apply has_col_false in E. destruct IH as [(b & Hb & Hin & Heq)|[Hall Heq]].
    + left. exists b. split; [by right|done].
    + right. split; [by constructor|done].
Qed.

Lemma rows_base_frame raw : rows (base_frame raw) = rows raw.
Proof.
  unfold base_frame.
  destruct (rename_first_alias_cases discharge_aliases "discharge_date"
    (rename_first_alias admission_aliases "admission_date" (normalize_columns raw)))
    as [(a & _ & _ & ->)|[_ ->]];
  destruct (rename_first_alias_cases admission_aliases "admission_date"
    (normalize_columns raw)) as [(b & _ & _ & ->)|[_ ->]]; done.
Qed.

Lemma length_columns_base_frame raw :
  length (columns (base_frame raw)) = length (columns raw).
Proof.
  unfold base_frame.
  destruct (rename_first_alias_cases discharge_aliases "discharge_date"
    (rename_first_alias admission_aliases "admission_date" (normalize_columns raw)))
    as [(a & _ & _ & ->)|[_ ->]];
  destruct (rename_first_alias_cases admission_aliases "admission_date"
    (normalize_columns raw)) as [(b & _ & _ & ->)|[_ ->]];
  unfold rename_col, normalize_columns; simpl; by rewrite ?length_map.
Qed.

Lemma well_formed_base_frame raw : well_formed raw → well_formed (base_frame raw).
Proof.
  unfold well_formed. by rewrite rows_base_frame, length_columns_base_frame.
Qed.

Lemma names_rename_col a target df :
  normalize_name target = target →
  Forall (λ l, normalize_name l = l) (columns df) →
  Forall (λ l, normalize_name l = l) (columns (rename_col a target df)).
Proof.
  intros Ht Hn. unfold rename_col. simpl. apply Forall_map.
  eapply Forall_impl; [exact Hn|]. intros l Hl. simpl. by case_bool_decide.
Qed.

Lemma names_rename_first aliases target df :
  normalize_name target = target →
  Forall (λ l, normalize_name l = l) (columns df) →
  Forall (λ l, normalize_name l = l) (columns (rename_first_alias aliases target df)).
Proof.
  intros Ht Hn.
  destruct (rename_first_alias_cases aliases target df) as [(a & _ & _ & ->)|[_ ->]];
    [by apply names_rename_col|done].
Qed.

Lemma names_base_frame raw :
  Forall (λ l, normalize_name l = l) (columns (base_frame raw)).
Proof.
  unfold base_frame. do 2 (apply names_rename_first; [done|]).
  unfold normalize_columns. simpl. apply Forall_map, Forall_forall.
  intros l _. simpl. apply normalize_name_idem.
Qed.

Lemma elem_of_rename_col l a target df :
  l ∈ columns (rename_col a target df)
  ↔ (l = target ∧ a ∈ columns df) ∨ (l ≠ a ∧ l ∈ columns df).
Proof.
  unfold rename_col. simpl. rewrite list_elem_of_fmap. split.
  - intros (x & -> & Hx). case_bool_decide; subst; [by left|by right].
  - intros [[-> Ha]|[Hne Hl]].
    + exists a. by rewrite bool_decide_eq_true_2.
    + exists l. by rewrite bool_decide_eq_false_2.
Qed.

Lemma alias_base_frame_adm raw :
  "admission_date" ∈ columns (base_frame raw)
  ∨ Forall (λ a, a ∉ columns (base_frame raw)) admission_aliases.
Proof.
  unfold base_frame. set (d := normalize_columns raw).
  destruct (rename_first_alias_cases admission_aliases "admission_date" d)
    as [(a & Ha & Hin & ->)|[Hall ->]].
  - left.
    assert ("admission_date" ∈ columns (rename_col a "admission_date" d)) as Hadm
      by (apply elem_of_rename_col; by left).
    destruct (rename_first_alias_cases discharge_aliases "discharge_date"
      (rename_col a "admission_date" d)) as [(b & Hb & Hinb & ->)|[_ ->]]; [|done].
    apply elem_of_rename_col. right. split; [|done].
    intros <-. unfold discharge_aliases in Hb.
    repeat (apply elem_of_cons in Hb as [Hb|Hb]; [done|]). by apply not_elem_of_nil in Hb.
  - right.
    destruct (rename_first_alias_cases discharge_aliases "discharge_date" d)
      as [(b & Hb & Hinb & ->)|[_ ->]]; [|done].
    apply Forall_forall. intros x Hx.
    pose proof (proj1 (Forall_forall _ _) Hall x Hx) as Hnx.
    rewrite elem_of_rename_col. intros [[-> _]|[_ ?]]; [|done].
    unfold admission_aliases in Hx.
    repeat (apply elem_of_cons in Hx as [Hx|Hx]; [done|]). by apply not_elem_of_nil in Hx.
Qed.

Lemma alias_base_frame_dis raw :
  "discharge_date" ∈ columns (base_frame raw)
  ∨ Forall (λ a, a ∉ columns (base_frame raw)) discharge_aliases.
Proof.
  unfold base_frame.
  set (d := rename_first_alias admission_aliases "admission_date" (normalize_columns raw)).
  destruct (rename_first_alias_cases discharge_aliases "discharge_date" d)
    as [(a & Ha & Hin & ->)|[Hall ->]]; [left|by right].
  apply elem_of_rename_col. by left.
Qed.

End LabelFacts.

Section LengthOfStay.
Context `{PandasLib}.

Lemma columns_length_of_stay_col df :
  columns (length_of_stay_col df)
  = if has_col "admission_date" df && has_col "discharge_date" df
    then (if has_col "length_of_stay" df then columns df
          else columns df ++ ["length_of_stay"])
    else columns df.
Proof.
  unfold length_of_stay_col.
  destruct (has_col "admission_date" df && has_col "discharge_date" df); [|done].
  apply columns_set_col.
Qed.

Lemma elem_of_columns_los l df :
  l ∈ columns (length_of_stay_col df)
  ↔ l ∈ columns df
    ∨ (l = "length_of_stay" ∧ "admission_date" ∈ columns df ∧ "discharge_date" ∈ columns df).
Proof.
  rewrite columns_length_of_stay_col.
  destruct (has_col "admission_date" df) eqn:Ea;
  destruct (has_col "discharge_date" df) eqn:Ed; simpl;
  rewrite ?has_col_true, ?has_col_false in *; try tauto.
  destruct (has_col "length_of_stay" df) eqn:El;
  rewrite ?has_col_true, ?has_col_false in *.
  - split; [tauto|]. intros [?|(-> & _)]; done.
  - rewrite elem_of_app, list_elem_of_singleton. tauto.
Qed.

Lemma well_formed_los df : well_formed df → well_formed (length_of_stay_col df).
Proof.
  unfold length_of_stay_col. destruct (_ && _); [|done]. apply well_formed_set_col.
Qed.

Lemma under_los_other n P df :
  n ≠ "length_of_stay" → well_formed df → under n P df →
  under n P (length_of_stay_col df).
Proof.
  unfold length_of_stay_col. destruct (_ && _); [|done]. apply under_set_col_other.
Qed.

Lemma col_count_los n df :
  n ≠ "length_of_stay" → col_count n (length_of_stay_col df) = col_count n df.
Proof.
  intros Hn. unfold col_count. rewrite columns_length_of_stay_col.
  destruct (_ && _); [|done]. destruct (has_col _ _); [done|].
  rewrite filter_app, filter_cons, filter_nil.
  rewrite decide_False by done. by rewrite app_nil_r.
Qed.

Lemma los_ok_los df :
  well_formed df → "admission_date" ∈ columns df → "discharge_date" ∈ columns df →
  los_ok (length_of_stay_col df).
Proof.
  intros Hw Ha Hd. unfold los_ok.
  assert (length_of_stay_col df
          = set_col "length_of_stay"
              (λ r, days_between (cell_at "discharge_date" (columns df) r)
                                 (cell_at "admission_date" (columns df) r)) df) as ->.
  { unfold length_of_stay_col.
    by rewrite (proj2 (has_col_true _ _) Ha), (proj2 (has_col_true _ _) Hd). }
  set (g := λ r, days_between _ _).
  unfold well_formed in Hw. rewrite Forall_forall in Hw.
  unfold set_col. destruct (has_col "length_of_stay" df) eqn:El; simpl;
    apply Forall_map, Forall_forall; intros r Hr; simpl.
  - rewrite cells_at_map_under_same, !cell_at_map_under_other by done.
    apply Forall_map, Forall_forall. by intros.
  - apply has_col_false in El.
    rewrite cells_at_snoc by auto. rewrite bool_decide_eq_true_2 by left.
    rewrite (cells_at_absent _ (columns df)).
    2:{ intros l Hl. apply list_elem_of_singleton in Hl. by subst. }
    simpl. constructor; [|done]. subst g. simpl.
    rewrite !cell_at_hd, !cells_at_snoc by auto.
    rewrite !bool_decide_eq_false_2, !app_nil_r; [done| |];
      rewrite list_elem_of_singleton; done.
Qed.

Lemma los_ok_map_col_other m f df :
  m ≠ "length_of_stay" → m ≠ "admission_date" → m ≠ "discharge_date" →
  los_ok df → los_ok (map_col m f df).
Proof.
  unfold los_ok, map_col. simpl. intros H1 H2 H3 Hl.
  apply Forall_map. eapply Forall_impl; [exact Hl|]. intros r Hr. simpl.
  rewrite cells_at_map_under_other, !cell_at_map_under_other; try done.
  rewrite list_elem_of_singleton. congruence.
Qed.

(** What the in-place part of [clean_data] leaves behind is a cleaned table. *)
Lemma cleaned_finished_frame raw :
  well_formed raw →
  Forall (λ n, (col_count n (base_frame raw) ≤ 1)%nat) typed_labels →
  cleaned (finished_frame raw).
Proof.
  intros Hw Hu.
  pose proof (well_formed_base_frame _ Hw) as Hwb.
  assert (well_formed (typed_frame raw)) as Hwt.
  { unfold typed_frame. by repeat apply well_formed_map_col. }
  assert (∀ l, l ∈ columns (finished_frame raw)
               ↔ l ∈ columns (base_frame raw)
                 ∨ (l = "length_of_stay" ∧ "admission_date" ∈ columns (base_frame raw)
                    ∧ "discharge_date" ∈ columns (base_frame raw))) as Hcols.
  { intros l. apply (elem_of_columns_los l (typed_frame raw)). }
  split.
  - unfold finished_frame. do 2 apply well_formed_map_col. by apply well_formed_los.
  - apply Forall_forall. intros l [Hl|(-> & _)]%Hcols; [|done].
    pose proof (names_base_frame raw) as Hn. rewrite Forall_forall in Hn. auto.
  - destruct (alias_base_frame_adm raw) as [Ha|Ha].
    + left. apply Hcols. by left.
    + right. unfold admission_aliases in *.
      apply Forall_forall. intros a Ha'.
      pose proof (proj1 (Forall_forall _ _) Ha a Ha') as Hna.
      intros [?|(-> & _)]%Hcols; [done|].
      repeat (apply elem_of_cons in Ha' as [Ha'|Ha']; [done|]).
      by apply not_elem_of_nil in Ha'.
  - destruct (alias_base_frame_dis raw) as [Ha|Ha].
    + left. apply Hcols. by left.
    + right. unfold discharge_aliases in *.
      apply Forall_forall. intros a Ha'.
      pose proof (proj1 (Forall_forall _ _) Ha a Ha') as Hna.
      intros [?|(-> & _)]%Hcols; [done|].
      repeat (apply elem_of_cons in Ha' as [Ha'|Ha']; [done|]).
      by apply not_elem_of_nil in Ha'.
  - apply Forall_forall. intros n Hn.
    pose proof (proj1 (Forall_forall _ _) Hu n Hn) as Hle.
    change (col_count n (finished_frame raw))
      with (col_count n (length_of_stay_col (typed_frame raw))).
    rewrite col_count_los; [done|].
    intros ->. unfold typed_labels in Hn.
    repeat (apply elem_of_cons in Hn as [Hn|Hn]; [done|]).
    by apply not_elem_of_nil in Hn.
  - unfold fixed_under, finished_frame.
    do 2 (apply under_map_col_other; [done|]).
    apply under_los_other; [done|done|]. unfold typed_frame.
    do 4 (apply under_map_col_other; [done|]).
    apply under_map_col_same, to_datetime_cell_idem.
  - unfold fixed_under, finished_frame.
    do 2 (apply under_map_col_other; [done|]).
    apply under_los_other; [done|done|]. unfold typed_frame.
    do 3 (apply under_map_col_other; [done|]).
    apply under_map_col_same, to_datetime_cell_idem.
  - unfold fixed_under, finished_frame.
    do 2 (apply under_map_col_other; [done|]).
    apply under_los_other; [done|done|]. unfold typed_frame.
    do 2 (apply under_map_col_other; [done|]).
    apply under_map_col_same, standardize_outcome_idem.
  - unfold fixed_under, finished_frame.
    do 2 (apply under_map_col_other; [done|]).
    apply under_los_other; [done|done|]. unfold typed_frame.
    do 1 (apply under_map_col_other; [done|]).
    apply under_map_col_same, to_numeric_cell_idem.
  - unfold fixed_under, finished_frame.
    do 2 (apply under_map_col_other; [done|]).
    apply under_los_other; [done|done|]. unfold typed_frame.
    apply under_map_col_same, to_numeric_cell_idem.
  - intros [Ha|(? & _)]%Hcols [Hd|(? & _)]%Hcols; try done.
    split; [apply Hcols; by right|].
    unfold finished_frame. do 2 (apply los_ok_map_col_other; [done..|]).
    by apply los_ok_los.
  - unfold fixed_under, finished_frame.
    apply under_map_col_other; [done|].
    apply under_map_col_same, fillna_unknown_idem.
  - unfold fixed_under, finished_frame.
    apply under_map_col_same, fillna_unknown_idem.
Qed.

End LengthOfStay.

(** ** Dropping duplicates *)

Section KeepFirst.
Context {K : Type} `{EqDecision K} (key : row → K).

Lemma keep_first_sublist seen rs : sublist (keep_first key seen rs) rs.
Proof.
  revert seen; induction rs as [|r rs IH]; intros seen; simpl; [done|].
  case_bool_decide; [by apply sublist_cons|by apply sublist_skip].
Qed.

Lemma keep_first_unseen seen rs :
  Forall (λ r, key r ∉ seen) (keep_first key seen rs).
Proof.
  revert seen; induction rs as [|r rs IH]; intros seen; simpl; [done|].
  case_bool_decide as E; [done|]. constructor; [done|].
  eapply Forall_impl; [apply IH|]. simpl. intros r' Hr' Hin. apply Hr'. by right.
Qed.

Lemma keep_first_NoDup seen rs : NoDup (map key (keep_first key seen rs)).
Proof.
  revert seen; induction rs as [|r rs IH]; intros seen; simpl; [constructor|].
  case_bool_decide as E; [done|]. simpl. constructor; [|done].
  intros (r' & Hk & Hr')%list_elem_of_fmap.
  pose proof (keep_first_unseen (key r :: seen) rs) as Hu.
  rewrite Forall_forall in Hu. apply (Hu r' Hr'). rewrite Hk. left.
Qed.


(** A row whose key occurs neither among the seen keys nor earlier in the
    table is kept. *)
Lemma keep_first_first seen before r after :
  key r ∉ seen → key r ∉ map key before →
  r ∈ keep_first key seen (before ++ r :: after).
Proof.
  revert seen; induction before as [|a p IH]; intros seen Hs Hb; simpl.
  - rewrite bool_decide_eq_false_2 by done. left.
  - simpl in Hb. apply not_elem_of_cons in Hb as [Hne Hb].
    case_bool_decide; [by apply IH|]. right. apply IH; [|done].
    apply not_elem_of_cons. by split.
Qed.


Lemma keep_first_nonempty rs : rs ≠ [] → keep_first key [] rs ≠ [].
Proof.
  destruct rs as [|r rs]; [done|]. intros _ Hn.
  assert (r ∈ keep_first key [] ([] ++ r :: rs)) as Hin
    by (apply keep_first_first; apply not_elem_of_nil).
  simpl app in Hin. rewrite Hn in Hin. by apply not_elem_of_nil in Hin.
Qed.

End KeepFirst.

Lemma drop_duplicates_OK subset df t :
  drop_duplicates subset df = OK t →
  columns t = columns df
  ∧ ((df_empty df = true ∧ t = df)
     ∨ (df_empty df = false
        ∧ Forall (λ s, s ∈ columns df) (default (columns df) subset)
        ∧ rows t = keep_first (cells_at (default (columns df) subset) (columns df))
                              [] (rows df))).
Proof.
  unfold drop_duplicates. destruct (df_empty df) eqn:E.
  - intros [= <-]. split; [done|by left].
  - destruct (filter _ _) as [|m F] eqn:EF; [|done].
    intros [= <-]. split; [done|]. right. split; [done|]. split; [|done].
    apply Forall_forall. intros s Hs.
    destruct (decide (s ∈ columns df)) as [|Hn]; [done|].
    assert (s ∈ filter (λ s, s ∉ columns df) (default (columns df) subset)) as Hf
      by (by apply list_elem_of_filter).
    rewrite EF in Hf. by apply not_elem_of_nil in Hf.
Qed.



Lemma drop_duplicates_sublist subset df t :
  drop_duplicates subset df = OK t → sublist (rows t) (rows df).
Proof.
  intros Hd. destruct (drop_duplicates_OK _ _ _ Hd) as [Hc [[He ->]|(He & Hs & Hr)]]; [done|].
  rewrite Hr. apply keep_first_sublist.
Qed.

Section Idempotence.
Context `{PandasLib}.

Lemma sublist_Forall {A} (P : A → Prop) (l k : list A) :
  sublist l k → Forall P k → Forall P l.
Proof. intros Hs. rewrite !Forall_forall. intros HP x Hx. apply HP. by eapply elem_of_sublist. Qed.

Lemma cleaned_sublist pre t :
  columns t = columns pre → sublist (rows t) (rows pre) → cleaned pre → cleaned t.
Proof.
  intros Hc Hs [Hw Hn Ha Hd Hu H1 H2 H3 H4 H5 Hl H6 H7].
  split; unfold well_formed, fixed_under, under, los_ok, col_count in *;
    rewrite ?Hc; try done; try (by eapply sublist_Forall).
  intros Ha' Hd'. destruct (Hl Ha' Hd'). split; [done|by eapply sublist_Forall].
Qed.

Lemma normalize_columns_fixed df :
  Forall (λ l, normalize_name l = l) (columns df) → normalize_columns df = df.
Proof.
  destruct df as [L rs]. unfold normalize_columns. simpl. intros Hn. f_equal.
  rewrite <- (map_id L) at 2. by apply map_ext_Forall.
Qed.

Lemma rename_first_alias_fixed target rest df :
  target ∈ columns df ∨ Forall (λ a, a ∉ columns df) (target :: rest) →
  rename_first_alias (target :: rest) target df = df.
Proof.
  intros [Hin|Hall].
  - simpl. rewrite (proj2 (has_col_true _ _) Hin). apply rename_col_same.
  - destruct (rename_first_alias_cases (target :: rest) target df)
      as [(a & Ha & Hin & _)|[_ ->]]; [|done].
    rewrite Forall_forall in Hall. by apply Hall in Ha.
Qed.



Lemma drop_obvious_duplicates_columns pre t :
  drop_obvious_duplicates pre = OK t → columns t = columns pre.
Proof.
  unfold drop_obvious_duplicates.
  destruct (has_col _ _); intros Hd; by apply drop_duplicates_OK in Hd as [? _].
Qed.


Lemma drop_obvious_duplicates_sublist pre t :
  drop_obvious_duplicates pre = OK t → sublist (rows t) (rows pre).
Proof.
  unfold drop_obvious_duplicates.
  destruct (has_col _ _); intros Hd; by eapply drop_duplicates_sublist.
Qed.

(** The two halves of [clean_data]. *)
Lemma clean_data_OK raw t :
  clean_data raw = OK t →
  clean_in_place raw = OK (finished_frame raw)
  ∧ Forall (λ n, (col_count n (base_frame raw) ≤ 1)%nat) typed_labels
  ∧ drop_obvious_duplicates (finished_frame raw) = OK t.
Proof.
  unfold clean_data. destruct (clean_in_place raw) as [pre|e] eqn:E; [|done].
  apply clean_in_place_OK in E as [-> Hu]. simpl. by intros ->.
Qed.

Lemma clean_data_cleaned raw t :
  well_formed raw → clean_data raw = OK t → cleaned t.
Proof.
  intros Hw (_ & Hu & Hd)%clean_data_OK.
  eapply cleaned_sublist.
  - by eapply drop_obvious_duplicates_columns.
  - by eapply drop_obvious_duplicates_sublist.
  - by apply cleaned_finished_frame.
Qed.

End Idempotence.






(** ** The derived column *)

(** In a full-length row, the cell under a label that is present is one of
    the cells found under it. *)
Lemma cell_at_under n L r :
  n ∈ L → length r = length L → cell_at n L r ∈ cells_at [n] L r.
Proof.
  revert r; induction L as [|l L IH]; intros [|c r] Hin; simpl; try done.
  - by apply not_elem_of_nil in Hin.
  - intros [=E]. destruct (decide (l = n)) as [->|Hne].
    + rewrite !bool_decide_eq_true_2 by (done || left). left.
    + rewrite !bool_decide_eq_false_2 by (done || by rewrite list_elem_of_singleton).
      apply IH; [|done]. by apply elem_of_cons in Hin as [->|].
Qed.

Lemma under_cell_at n P df r :
  well_formed df → under n P df → n ∈ columns df → r ∈ rows df →
  P (cell_at n (columns df) r).
Proof.
  unfold well_formed, under. rewrite !Forall_forall. intros Hw Hu Hn Hr.
  pose proof (Hu r Hr) as HP. rewrite Forall_forall in HP.
  apply HP, cell_at_under; auto.
Qed.

Section Dates.
Context `{PandasLib}.

Lemma to_datetime_fixed c : to_datetime_cell c = c → c = CNull ∨ ∃ t, c = CDate t.
Proof.
  destruct c as [|s|q|t]; simpl; [by left| | |by right; exists t].
  - by destruct (parse_datetime s).
  - by destruct (datetime_of_number q).
Qed.

Lemma to_numeric_fixed c : to_numeric_cell c = c → c = CNull ∨ ∃ q, c = CNum q.
Proof.
  destruct c as [|s|q|t]; simpl; [by left| |by right; exists q|].
  - by destruct (parse_number s).
  - by destruct (number_of_datetime t).
Qed.

Lemma elem_of_rename_first l aliases target df :
  l ∈ columns (rename_first_alias aliases target df) → l = target ∨ l ∈ columns df.
Proof.
  destruct (rename_first_alias_cases aliases target df) as [(a & _ & _ & ->)|[_ ->]];
    [|by right].
  rewrite elem_of_rename_col. intros [[-> _]|[_ ?]]; [by left|by right].
Qed.

Lemma elem_of_base_frame l raw :
  l ∈ columns (base_frame raw) →
  l = "admission_date" ∨ l = "discharge_date" ∨ l ∈ map normalize_name (columns raw).
Proof.
  unfold base_frame.
  intros [->|Hl]%elem_of_rename_first; [by right; left|].
  apply elem_of_rename_first in Hl as [->|Hl]; [by left|]. by right; right.
Qed.

Lemma elem_of_finished_frame l raw :
  l ∈ columns (finished_frame raw)
  ↔ l ∈ columns (base_frame raw)
    ∨ (l = "length_of_stay" ∧ "admission_date" ∈ columns (base_frame raw)
       ∧ "discharge_date" ∈ columns (base_frame raw)).
Proof. apply (elem_of_columns_los l (typed_frame raw)). Qed.

End Dates.

(** C6 (as amended).  After cleaning, [length_of_stay] exists whenever both
    date columns exist, and, when the input carries no column of that name,
    only then.  With both date columns, the cell of every row is the
    difference discharge minus admission in whole days when both dates are
    known (so it is not negative when discharge is not before admission),
    and is missing when either date is missing; a date cell is a timestamp
    or missing. *)
Theorem length_of_stay_derived `{PandasLib} (raw t : DataFrame) :
  well_formed raw → clean_data raw = OK t →
  ("admission_date" ∈ columns t → "discharge_date" ∈ columns t →
   "length_of_stay" ∈ columns t)
  ∧ ("length_of_stay" ∉ map normalize_name (columns raw) →
     ("length_of_stay" ∈ columns t
      ↔ "admission_date" ∈ columns t ∧ "discharge_date" ∈ columns t))
  ∧ ("admission_date" ∈ columns t → "discharge_date" ∈ columns t →
     ∀ r, r ∈ rows t →
       let a := cell_at "admission_date" (columns t) r in
       let d := cell_at "discharge_date" (columns t) r in
       let s := cell_at "length_of_stay" (columns t) r in
       (a = CNull ∨ ∃ ta, a = CDate ta)
       ∧ (d = CNull ∨ ∃ td, d = CDate td)
       ∧ (a = CNull ∨ d = CNull → s = CNull)
       ∧ ∀ ta td, a = CDate ta → d = CDate td →
           s = CNum (Q2Qc (inject_Z ((td - ta) / ns_per_day)))
           ∧ ((ta ≤ td)%Z → (0 ≤ (td - ta) / ns_per_day)%Z)).
Proof.
  intros Hw Hc. pose proof (clean_data_cleaned _ _ Hw Hc) as Hcl.
  apply clean_data_OK in Hc as (_ & _ & Hd).
  apply drop_obvious_duplicates_columns in Hd as Hcols.
  split; [|split].
  - intros Ha Hdd. by apply (cl_los_col _ Hcl).
  - intros Hno. rewrite !Hcols, !elem_of_finished_frame. split.
    + intros [Hb|(_ & ? & ?)]; [|by split; left].
      apply elem_of_base_frame in Hb as [?|[?|?]]; done.
    + intros [[Ha|(? & _)] [Hdd|(? & _)]]; try done. by right.
  - intros Ha Hdd r Hr. cbv zeta.
    destruct (cl_los_col _ Hcl Ha Hdd) as [Hl Hok].
    pose proof (under_cell_at _ _ _ _ (cl_wf _ Hcl) (cl_adm _ Hcl) Ha Hr) as Hfa.
    pose proof (under_cell_at _ _ _ _ (cl_wf _ Hcl) (cl_dis _ Hcl) Hdd Hr) as Hfd.
    simpl in Hfa, Hfd. apply to_datetime_fixed in Hfa, Hfd.
    assert (cell_at "length_of_stay" (columns t) r
            = days_between (cell_at "discharge_date" (columns t) r)
                           (cell_at "admission_date" (columns t) r)) as Hs.
    { unfold los_ok in Hok. rewrite Forall_forall in Hok.
      pose proof (Hok r Hr) as Hor. rewrite Forall_forall in Hor.
      apply Hor, cell_at_under; [done|].
      pose proof (cl_wf _ Hcl) as Hwt. unfold well_formed in Hwt.
      rewrite Forall_forall in Hwt. auto. }
    split; [done|]. split; [done|]. rewrite Hs. split.
    + intros [->| ->]; [|done].
      by destruct (cell_at "discharge_date" (columns t) r).
    + intros ta td -> ->. split; [done|]. intros Hle.
      apply Z.div_pos; [lia|done].
Qed.

(** ** Orders and sorting *)

#[global] Instance cell_lexico_po : StrictOrder (@lexico cell _).
Proof.
  split.
  - intros [|s|q|t]; unfold complement;
      change (@lexico cell _ ?a ?b) with (cell_lexico a b); unfold cell_lexico;
      try tauto.
    + apply (irreflexivity (@lexico (list N) _)).
    + intros Hq. by apply Qclt_not_eq in Hq.
    + apply Z.lt_irrefl.
  - intros [|s1|q1|t1] [|s2|q2|t2] [|s3|q3|t3];
      change (@lexico cell _ ?a ?b) with (cell_lexico a b); unfold cell_lexico;
      try tauto.
    + apply (transitivity (R:=@lexico (list N) _)).
    + apply Qclt_trans.
    + apply Z.lt_trans.
Qed.


Lemma key_le_spec k1 k2 : key_le k1 k2 ↔ lexico k1 k2 ∨ k1 = k2.
Proof.
  unfold key_le, key_leb. destruct (trichotomyT lexico k1 k2) as [[Hlt| ->]|Hgt].
  - naive_solver.
  - naive_solver.
  - split; [done|]. intros [Hl| ->].
    + exfalso. apply (irreflexivity lexico k1). by etrans.
    + by apply (irreflexivity lexico) in Hgt.
Qed.

#[global] Instance key_le_total : Total key_le.
Proof.
  intros k1 k2. rewrite !key_le_spec.
  destruct (trichotomyT lexico k1 k2) as [[?|?]|?]; naive_solver.
Qed.

#[global] Instance key_le_trans : Transitive key_le.
Proof.
  intros k1 k2 k3. rewrite !key_le_spec.
  intros [H1| ->] [H2| ->]; try naive_solver. left. by etrans.
Qed.

#[global] Instance key_le_antisym : AntiSymm (=) key_le.
Proof.
  intros k1 k2. rewrite !key_le_spec. intros [H1|?] [H2|?]; try done.
  exfalso. apply (irreflexivity lexico k1). by etrans.
Qed.

Lemma sort_keys_perm ks : sort_keys ks ≡ₚ ks.
Proof. apply merge_sort_Permutation. Qed.

Lemma sort_keys_sorted ks : StronglySorted key_le (sort_keys ks).
Proof. apply StronglySorted_merge_sort; apply _. Qed.

(** Distinct keys come out in strictly ascending order. *)
Lemma sort_keys_strict ks : NoDup ks → StronglySorted lexico (sort_keys ks).
Proof.
  intros Hnd. rewrite <- sort_keys_perm in Hnd.
  induction (sort_keys_sorted ks) as [|k l Hs IH Hall]; [constructor|].
  apply NoDup_cons in Hnd as [Hk Hnd]. constructor; [by apply IH|].
  rewrite Forall_forall in Hall |- *. intros k' Hk'.
  destruct (proj1 (key_le_spec _ _) (Hall k' Hk')) as [?| ->]; done.
Qed.

Lemma elem_of_distinct {A} `{EqDecision A} (l : list A) x : x ∈ distinct l ↔ x ∈ l.
Proof.
  induction l as [|a l IH]; simpl; [done|].
  rewrite !elem_of_cons, list_elem_of_filter, IH.
  destruct (decide (x = a)); naive_solver.
Qed.

Lemma NoDup_distinct {A} `{EqDecision A} (l : list A) : NoDup (distinct l).
Proof.
  induction l as [|a l IH]; simpl; constructor.
  - rewrite list_elem_of_filter. naive_solver.
  - by apply NoDup_filter.
Qed.

Lemma filter_none {A} (P : A → Prop) `{∀ x, Decision (P x)} (l : list A) :
  (∀ x, x ∈ l → ¬ P x) → filter P l = [].
Proof.
  induction l as [|a l IH]; intros HP; [done|].
  rewrite filter_cons_False by (apply HP; left).
  apply IH. intros x Hx. apply HP. by right.
Qed.

Lemma filter_all {A} (P : A → Prop) `{∀ x, Decision (P x)} (l : list A) :
  (∀ x, x ∈ l → P x) → filter P l = l.
Proof.
  induction l as [|a l IH]; intros HP; [done|].
  rewrite filter_cons_True by (apply HP; left).
  f_equal. apply IH. intros x Hx. apply HP. by right.
Qed.

Section SortFacts.
Context {V : Type} `{EqDecision V} (ltb : V → V → bool) (isnull : V → bool).
Hypothesis ltb_irrefl : ∀ a, ltb a a = false.

Lemma insert_desc_perm x l : insert_desc ltb x l ≡ₚ x :: l.
Proof.
  induction l as [|y l IH]; simpl; [done|].
  destruct (ltb x.2 y.2); [|done]. rewrite IH. apply Permutation_swap.
Qed.

Lemma isort_desc_perm l : isort_desc ltb l ≡ₚ l.
Proof.
  induction l as [|x l IH]; simpl; [done|].
  by rewrite insert_desc_perm, IH.
Qed.

Lemma filter_null_perm (s : Series V) :
  filter (λ e, isnull e.2 = false) s ++ filter (λ e, isnull e.2 = true) s ≡ₚ s.
Proof.
  induction s as [|x s IH]; [done|].
  rewrite !filter_cons. destruct (isnull x.2) eqn:E.
  - rewrite decide_False by done. rewrite decide_True by done.
    rewrite <- Permutation_middle. by rewrite IH.
  - rewrite decide_True by done. rewrite decide_False by done.
    simpl. by rewrite IH.
Qed.

Lemma sort_values_desc_perm s : sort_values_desc ltb isnull s ≡ₚ s.
Proof.
  unfold sort_values_desc. rewrite isort_desc_perm. apply filter_null_perm.
Qed.




(** Order: no entry is strictly smaller than a later one. *)
Hypothesis ltb_asym : ∀ a b, ltb a b = true → ltb b a = false.
Hypothesis ltb_negtrans : ∀ a b c, ltb a b = false → ltb b c = false → ltb a c = false.




End SortFacts.

(** ** The outcome column *)



Section Outcome.
Context `{PandasLib}.






End Outcome.



(** ** Totality of cleaning *)

(** C1.  [clean_data] is not total: on a table with a [patient_id] column,
    no admission-date column and at least one row, [drop_duplicates] is asked
    for the subset [patient_id, admission_date] and raises [KeyError]. *)
Theorem clean_data_raises_without_admission_date `{PandasLib} :
  clean_data (mkDF ["patient_id"] [[CStr "P1"]]) = Raise (KeyError "admission_date").
Proof. reflexivity. Qed.

(** ** Charts without their columns *)

(** C3.  Without an [admission_date] column [plot_admissions_over_time]
    does not answer "no chart": the [ValueError] of [admissions_over_time]
    goes through it. *)
Theorem plot_admissions_over_time_raises (freq : Freq) (df : DataFrame) :
  "admission_date" ∉ columns df →
  plot_admissions_over_time freq df = Raise (ValueError "admission_date column required").
Proof.
  intros Hn. unfold plot_admissions_over_time, admissions_over_time.
  by rewrite (proj2 (has_col_false _ _) Hn).
Qed.

(** With an [age] column but no [outcome] column the histogram raises too:
    [dropna] is given a label that is not there. *)
Lemma plot_outcomes_by_age_hist_raises (w : Z) (df : DataFrame) :
  "age" ∈ columns df → "outcome" ∉ columns df →
  plot_outcomes_by_age_hist w df = Raise (KeyError "outcome").
Proof.
  intros Ha Ho. unfold plot_outcomes_by_age_hist, dropna.
  rewrite (proj2 (has_col_true _ _) Ha).
  rewrite !filter_cons, filter_nil.
  rewrite decide_False by (by intros Hx; apply Hx).
  by rewrite decide_True.
Qed.

(** The two other charts do answer "no chart" when their columns are absent. *)
Lemma plot_outcomes_by_age_hist_no_age (w : Z) (df : DataFrame) :
  "age" ∉ columns df → plot_outcomes_by_age_hist w df = OK None.
Proof.
  intros Ha. unfold plot_outcomes_by_age_hist.
  rewrite (proj2 (has_col_false _ _) Ha). simpl.
  rewrite (proj2 (has_col_false _ _) Ha). by rewrite orb_true_r.
Qed.

Lemma plot_satisfaction_by_department_absent (df : DataFrame) :
  "satisfaction" ∉ columns df ∨ "department" ∉ columns df →
  plot_satisfaction_by_department df = OK None.
Proof.
  intros Hn. unfold plot_satisfaction_by_department, average_satisfaction_by_department.
  destruct Hn as [Hn|Hn]; rewrite (proj2 (has_col_false _ _) Hn); simpl;
    [done|by rewrite orb_true_r].
Qed.

(** ** Admissions over time *)


Lemma foldr_min_le p ps x : x ∈ p :: ps → (foldr Z.min p ps ≤ x)%Z.
Proof.
  induction ps as [|q ps IH]; simpl.
  - intros Hx. apply list_elem_of_singleton in Hx. lia.
  - intros Hx. apply elem_of_cons in Hx as [Hx|Hx];
      [|apply elem_of_cons in Hx as [Hx|Hx]].
    + assert (x ∈ p :: ps) as Hin by (rewrite Hx; left). apply IH in Hin. lia.
    + lia.
    + assert (x ∈ p :: ps) as Hin by (by right). apply IH in Hin. lia.
Qed.


Lemma foldr_max_ge p ps x : x ∈ p :: ps → (x ≤ foldr Z.max p ps)%Z.
Proof.
  induction ps as [|q ps IH]; simpl.
  - intros Hx. apply list_elem_of_singleton in Hx. lia.
  - intros Hx. apply elem_of_cons in Hx as [Hx|Hx];
      [|apply elem_of_cons in Hx as [Hx|Hx]].
    + assert (x ∈ p :: ps) as Hin by (rewrite Hx; left). apply IH in Hin. lia.
    + lia.
    + assert (x ∈ p :: ps) as Hin by (by right). apply IH in Hin. lia.
Qed.


(** ** The caller's table *)

Module StoreFacts.
Import Store.


Lemma frame_ret {A} l (Q : A → Prop) a : Q a → frame l Q (ret a).
Proof. intros HQ σ _. split; [done|]. by intros a' [= <-]. Qed.

Lemma frame_lift {A} l (r : result A) : frame l (λ _, True) (lift r).
Proof. by intros σ _. Qed.

Lemma frame_read l l' : frame l (λ _, True) (read l').
Proof. intros σ _. unfold read. by destruct (σ !! l'). Qed.

Lemma frame_bind {A B} l (Q1 : A → Prop) (Q2 : B → Prop) m k :
  frame l Q1 m → (∀ a, Q1 a → frame l Q2 (k a)) → frame l Q2 (bind m k).
Proof.
  intros Hm Hk σ Hs. destruct (Hm σ Hs) as [Hl HQ]. unfold bind.
  destruct (m σ) as [[a|e] σ'] eqn:E; simpl in *.
  - destruct (Hk a (HQ a eq_refl) σ') as [Hl' HQ']; [by rewrite Hl|].
    split; [by rewrite Hl', Hl|done].
  - split; [done|]. by intros.
Qed.

Lemma frame_weaken {A} l (Q Q' : A → Prop) m :
  (∀ a, Q a → Q' a) → frame l Q m → frame l Q' m.
Proof. intros HQ Hm σ Hs. destruct (Hm σ Hs). split; auto. Qed.

Lemma frame_alloc l t : frame l (λ l', l' ≠ l) (alloc t).
Proof.
  intros σ Hs. unfold alloc. simpl.
  assert (fresh (dom σ) ≠ l) as Hne.
  { intros E. apply (is_fresh (dom σ)). rewrite E. by apply elem_of_dom. }
  split; [by rewrite lookup_insert_ne|]. by intros a [= <-].
Qed.

Lemma frame_mutate l l' f : l' ≠ l → frame l (λ _, True) (mutate l' f).
Proof.
  intros Hne. unfold mutate.
  eapply frame_bind; [apply frame_read|]. intros t _.
  eapply frame_bind; [apply frame_lift|]. intros t' _.
  intros σ _. simpl. split; [by rewrite lookup_insert_ne|done].
Qed.

Section Methods.
Context `{PandasLib}.

Lemma frame_init l df : frame l (λ a, self_df a ≠ l) (init df).
Proof.
  unfold init. eapply frame_bind; [apply frame_read|]. intros t _.
  eapply frame_bind; [apply frame_alloc|]. intros l' Hl'.
  by apply frame_ret.
Qed.

Lemma frame_clean_data l self :
  self_df self ≠ l → frame l (λ r, self_df r.1 ≠ l) (clean_data self).
Proof.
  intros Hne. unfold clean_data, mutate_ok.
  repeat (eapply frame_bind; [by apply frame_mutate|]; intros _ _).
  eapply frame_bind; [apply frame_read|]. intros t _.
  eapply frame_bind; [apply frame_lift|]. intros t' _.
  eapply frame_bind; [apply frame_alloc|]. intros l' Hl'.
  by apply frame_ret.
Qed.

Lemma frame_query {A} l (q : DataFrame → result A) self :
  frame l (λ _, True) (query q self).
Proof.
  unfold query. eapply frame_bind; [apply frame_read|]. intros t _.
  apply frame_lift.
Qed.

Lemma exec_frame l c self (σ : gmap loc DataFrame) :
  is_Some (σ !! l) → self_df self ≠ l →
  (exec c self σ).2 !! l = σ !! l ∧ self_df (exec c self σ).1 ≠ l.
Proof.
  intros Hs Hne.
  destruct c; simpl;
    try (split; [|done];
         match goal with |- (query ?q _ _).2 !! _ = _ =>
           by apply (frame_query l q self σ) end).
  destruct (frame_clean_data l self Hne σ Hs) as [Hl HQ].
  destruct (clean_data self σ) as [[[self' l']|e] σ']; simpl in *; [|done].
  split; [done|]. apply (HQ (self', l') eq_refl).
Qed.

Lemma exec_all_frame l cs self (σ : gmap loc DataFrame) :
  is_Some (σ !! l) → self_df self ≠ l →
  (exec_all cs self σ).2 !! l = σ !! l.
Proof.
  revert self σ; induction cs as [|c cs IH]; intros self σ Hs Hne; simpl; [done|].
  destruct (exec_frame l c self σ Hs Hne) as [Hl Hn].
  destruct (exec c self σ) as [self' σ']. simpl in *.
  rewrite IH; [done| |done]. by rewrite Hl.
Qed.

End Methods.

(** C9.  Constructing the analyzer copies the caller's table: whatever
    methods are then called on the analyzer ([clean_data] and the queries, in
    any number and order, raising or not), the caller's table object holds
    what it held before. *)
Theorem caller_table_unchanged `{PandasLib} (σ : gmap loc DataFrame) (df : loc)
    (t : DataFrame) :
  σ !! df = Some t →
  ∃ self σ1,
    init df σ = (OK self, σ1)
    ∧ self_df self ≠ df
    ∧ σ1 !! self_df self = Some t
    ∧ ∀ calls, (exec_all calls self σ1).2 !! df = Some t.
Proof.
  intros Ht.
  destruct (frame_init df df σ) as [Hl HQ]; [by rewrite Ht|].
  unfold init, bind, read, alloc, ret in *. rewrite Ht in *. simpl in *.
  eexists _, _. split; [done|].
  specialize (HQ _ eq_refl). simpl in HQ. split; [done|].
  split; [by rewrite lookup_insert_eq|]. intros calls.
  rewrite exec_all_frame; [by rewrite Hl| |done].
  rewrite Hl. by eexists.
Qed.

End StoreFacts.

Section StoreAgreement.
Context `{PandasLib}.

Lemma bind_mutate {A} l f (k : Store.M A) (σ : gmap Store.loc DataFrame) t :
  σ !! l = Some t →
  Store.bind (Store.mutate l f) (λ _, k) σ
  = match f t with
    | OK t' => k (<[l := t']> σ)
    | Raise e => (Raise e, σ)
    end.
Proof.
  intros Ht. unfold Store.mutate, Store.bind, Store.read, Store.lift. cbv beta.
  rewrite Ht. by destruct (f t).
Qed.

Lemma bind_read {A} l (k : DataFrame → Store.M A) (σ : gmap Store.loc DataFrame) t :
  σ !! l = Some t → Store.bind (Store.read l) k σ = k t σ.
Proof. intros Ht. unfold Store.bind, Store.read. by rewrite Ht. Qed.

(** The method on the store computes the function [clean_data] of the table
    held in [self.df], and binds [self.df] to a new object holding it. *)
Lemma clean_data_agrees self (σ : gmap Store.loc DataFrame) t :
  σ !! Store.self_df self = Some t →
  match Store.clean_data self σ with
  | (OK (self', l'), σ') =>
      Store.self_df self' = l' ∧ ∃ t', clean_data t = OK t' ∧ σ' !! l' = Some t'
  | (Raise e, _) => clean_data t = Raise e
  end.
Proof.
  intros Ht. unfold Store.clean_data, Store.mutate_ok, clean_data, clean_in_place.
  repeat (erewrite bind_mutate by (done || apply lookup_insert_eq); cbv beta iota;
          try match goal with
              | |- context [match ?s with OK _ => _ | Raise _ => _ end] =>
                  destruct s eqn:?; simpl rbind; [|done]
              end).
  erewrite bind_read by apply lookup_insert_eq.
  unfold Store.bind, Store.lift, Store.alloc, Store.ret.
  destruct (drop_obvious_duplicates _) as [t'|e]; simpl; [|done].
  split; [done|]. exists t'. split; [done|]. apply lookup_insert_eq.
Qed.

End StoreAgreement.

(** ** Grouping *)


Lemma groupby_OK by_ df :
  groupable by_ df →
  groupby by_ df = OK (map (λ k, (k, group_rows by_ df k)) (group_keys by_ df)).
Proof.
  intros [Hne Hall]. unfold groupby. destruct by_ as [|b by_]; [done|].
  rewrite Forall_forall in Hall.
  rewrite (filter_none (λ b, b ∉ columns df)).
  2:{ intros x Hx Hn. by destruct (Hall x Hx). }
  rewrite (filter_none (λ b, (1 < col_count b df)%nat)).
  2:{ intros x Hx Hn. destruct (Hall x Hx). lia. }
  done.
Qed.


Lemma NoDup_group_keys by_ df : NoDup (group_keys by_ df).
Proof. unfold group_keys. rewrite sort_keys_perm. apply NoDup_distinct. Qed.

Lemma elem_of_group_keys by_ df k :
  k ∈ group_keys by_ df
  ↔ ∃ r, r ∈ rows df ∧ group_key by_ (columns df) r = k ∧ key_known k = true.
Proof.
  unfold group_keys, keyed_rows.
  rewrite sort_keys_perm, elem_of_distinct, list_elem_of_fmap. split.
  - intros (r & -> & [Hk Hr]%list_elem_of_filter). by exists r.
  - intros (r & Hr & <- & Hk). exists r. split; [done|].
    by apply list_elem_of_filter.
Qed.

(** Every group has a row. *)
Lemma group_rows_nonempty by_ df k : k ∈ group_keys by_ df → group_rows by_ df k ≠ [].
Proof.
  intros (r & Hr & Hk & Hkn)%elem_of_group_keys Hnil.
  assert (r ∈ group_rows by_ df k) as Hin.
  { unfold group_rows, keyed_rows. rewrite !list_elem_of_filter. by subst. }
  rewrite Hnil in Hin. by apply not_elem_of_nil in Hin.
Qed.

(** ** Row-normalised percentages *)

Lemma sum_nat_add {A} (f g : A → nat) l :
  sum_nat (map (λ x, f x + g x)%nat l) = (sum_nat (map f l) + sum_nat (map g l))%nat.
Proof. induction l as [|a l IH]; simpl; lia. Qed.

Lemma sum_nat_zero {A} (f : A → nat) l :
  (∀ x, x ∈ l → f x = 0%nat) → sum_nat (map f l) = 0%nat.
Proof.
  induction l as [|a l IH]; intros Hf; simpl; [done|].
  rewrite Hf by left. rewrite IH; [done|]. intros x Hx. apply Hf. by right.
Qed.

Lemma sum_nat_indicator (x : cell) vs :
  NoDup vs → x ∈ vs →
  sum_nat (map (λ v, if decide (x = v) then 1 else 0)%nat vs) = 1%nat.
Proof.
  induction 1 as [|v vs Hv Hnd IH]; intros Hx; [by apply not_elem_of_nil in Hx|].
  simpl. destruct (decide (x = v)) as [->|Hne].
  - rewrite sum_nat_zero; [done|]. intros y Hy. rewrite decide_False; [done|].
    by intros <-.
  - apply elem_of_cons in Hx as [?|Hx]; [done|]. by rewrite IH.
Qed.

(** Counting the cells of [l] value by value, over values that cover [l],
    counts every cell once. *)
Lemma sum_count_occ vs l :
  NoDup vs → (∀ x, x ∈ l → x ∈ vs) →
  sum_nat (map (λ v, count_occ_cell v l) vs) = length l.
Proof.
  intros Hnd. induction l as [|x l IH]; intros Hin.
  - apply sum_nat_zero. by intros.
  - transitivity (sum_nat (map (λ v, (if decide (x = v) then 1 else 0)
                                       + count_occ_cell v l)%nat vs)).
    { f_equal. apply map_ext. intros v. unfold count_occ_cell.
      rewrite filter_cons. by destruct (decide (x = v)). }
    rewrite sum_nat_add, sum_nat_indicator by (done || apply Hin; left).
    rewrite IH by (intros y Hy; apply Hin; by right). done.
Qed.




(** A zero total would be divided to NaN, as float division does. *)
Lemma div_count_zero_total c : div_count c 0 = None.
Proof. reflexivity. Qed.


Lemma select_column_OK n df :
  n ∈ columns df → (col_count n df ≤ 1)%nat → select_column n df = OK ().
Proof.
  intros Hn Hc. unfold select_column.
  rewrite (proj2 (has_col_true _ _) Hn). simpl.
  by rewrite (proj2 (Nat.ltb_ge _ _)) by lia.
Qed.

(** The outcome values that head the columns of the cross table are
    distinct and include every known outcome of the groups shown. *)
Lemma unstack_values cells :
  let values := map (λ k : key, hd CNull k)
                    (sort_keys (distinct (map (λ c, [c]) cells))) in
  NoDup values ∧ ∀ c, c ∈ cells → c ∈ values.
Proof.
  cbv zeta. set (ks := sort_keys _).
  assert (∀ k, k ∈ ks ↔ ∃ c, k = [c] ∧ c ∈ cells) as Hks.
  { intros k. unfold ks. rewrite sort_keys_perm, elem_of_distinct, list_elem_of_fmap.
    naive_solver. }
  split.
  - apply NoDup_fmap_2_strong.
    + intros k1 k2 (c1 & -> & _)%Hks (c2 & -> & _)%Hks. simpl. by intros ->.
    + unfold ks. rewrite sort_keys_perm. apply NoDup_distinct.
  - intros c Hc. apply list_elem_of_fmap. exists [c]. split; [done|].
    apply Hks. by exists c.
Qed.


(** ** Sorted aggregates *)











(** On a cleaned table the [age] and [satisfaction] columns are numeric, so
    the mean branch of [aggregate_by] applies to them. *)
Lemma cleaned_numeric_kind `{PandasLib} (raw t : DataFrame) (n : string) :
  well_formed raw → clean_data raw = OK t →
  n = "age" ∨ n = "satisfaction" → n ∈ columns t →
  kind_of (column n t) = KNumeric.
Proof.
  intros Hw Hc Hn Hin. pose proof (clean_data_cleaned _ _ Hw Hc) as Hcl.
  assert (fixed_under n to_numeric_cell t) as Hf.
  { destruct Hn as [-> | ->]; apply Hcl. }
  unfold kind_of.
  assert (forallb is_num (column n t) = true) as ->; [|done].
  apply forallb_forall. intros c Hc'. apply list_elem_of_In in Hc'.
  unfold column in Hc'. apply list_elem_of_fmap in Hc' as (r & -> & Hr).
  pose proof (under_cell_at _ _ _ _ (cl_wf _ Hcl) Hf Hin Hr) as Hfix.
  simpl in Hfix. by apply to_numeric_fixed in Hfix as [->|[? ->]].
Qed.

(** The example of the specification: of two rows for patient P1 admitted on
    the same day, the first is kept, with its outcome standardised. *)
Example first_occurrence_kept :
  clean_data (H := Sample.conv)
    (mkDF ["patient_id"; "admission_date"; "outcome"]
       [ [CStr "P1"; CStr "2020-01-05"; CStr "Discharge "];
         [CStr "P1"; CStr "2020-01-05"; CStr "death"] ])
  = OK (mkDF ["patient_id"; "admission_date"; "outcome"]
          [ [CStr "P1"; CDate (days_from_civil 2020 1 5 * ns_per_day); CStr "discharge"] ]).
Proof. vm_compute. reflexivity. Qed.

(** Without a [satisfaction] column the average by department is empty. *)
Example average_satisfaction_without_column :
  average_satisfaction_by_department (mkDF ["department"] [[CStr "A"]]) = OK [].
Proof. reflexivity. Qed.

(** ** The theorems at work on the sample tables *)

Section Witnesses.
Import Examples.
Local Existing Instance Sample.conv.

Lemma raw_well_formed : well_formed raw.
Proof. repeat constructor. Defined.

Lemma raw_cleaned : clean_data raw = OK cleaned_table.
Proof. vm_compute. reflexivity. Defined.

Example cleaned_table_rows :
  map (cell_at "outcome" (columns cleaned_table)) (rows cleaned_table)
  = [CStr "discharge"; CStr "nan"; CStr "dama"]
  ∧ columns cleaned_table
    = ["patient_id"; "admission_date"; "discharge_date"; "outcome"; "department";
       "length_of_stay"].
Proof. split; reflexivity. Qed.



Lemma length_of_stay_derived_witness :
  well_formed raw ∧ clean_data raw = OK cleaned_table
  ∧ "length_of_stay" ∈ columns cleaned_table.
Proof.
  split; [exact raw_well_formed|]. split; [exact raw_cleaned|].
  destruct (length_of_stay_derived raw cleaned_table raw_well_formed raw_cleaned)
    as (Hl & _).
  apply Hl; vm_compute; [right; left|do 2 right; left].
Defined.





Lemma plot_admissions_over_time_raises_witness :
  ("admission_date" ∉ columns (mkDF ["age"] []))
  ∧ plot_admissions_over_time Monthly (mkDF ["age"] [])
    = Raise (ValueError "admission_date column required").
Proof.
  assert ("admission_date" ∉ columns (mkDF ["age"] [])) as Hn.
  { simpl. intros Hin. apply elem_of_cons in Hin as [Hin|Hin]; [discriminate|].
    by apply not_elem_of_nil in Hin. }
  split; [exact Hn|]. exact (plot_admissions_over_time_raises Monthly _ Hn).
Defined.



(** The example of the specification: ratings 4 and 2 in A, 5 in B. *)
Example aggregate_by_mean_ratings :
  ∃ s, aggregate_by ["department"] "mean" (Some "satisfaction") ratings = OK (Means s)
       ∧ map fst s = [[CStr "B"]; [CStr "A"]]
       ∧ map (λ e, Qred (this (num_of e.2))) s = [5 # 1; 3 # 1]%Q.
Proof. eexists. split; [reflexivity|]. split; vm_compute; reflexivity. Qed.

Lemma caller_table_unchanged_witness :
  ({[1%positive := raw]} : gmap Store.loc DataFrame) !! 1%positive = Some raw
  ∧ ∃ self σ1,
      Store.init 1%positive ({[1%positive := raw]} : gmap Store.loc DataFrame)
      = (OK self, σ1)
      ∧ (Store.exec_all [Store.CleanData; Store.SummarizeOutcomes []] self σ1).2
          !! 1%positive = Some raw.
Proof.
  assert (({[1%positive := raw]} : gmap Store.loc DataFrame) !! 1%positive = Some raw)
    as Hl by apply lookup_singleton_eq.
  split; [exact Hl|].
  destruct (StoreFacts.caller_table_unchanged _ _ _ Hl) as (self & σ1 & Hi & _ & _ & Hc).
  exists self, σ1. split; [exact Hi|apply Hc].
Defined.


(** C6, counterexample.  A table with a [length_of_stay] column and no date
    column is cleaned without change: the column exists although neither
    date column does. *)
Lemma length_of_stay_without_dates :
  clean_data stay_only = OK stay_only
  ∧ "length_of_stay" ∈ columns stay_only
  ∧ ("admission_date" ∉ columns stay_only)
  ∧ ("discharge_date" ∉ columns stay_only).
Proof.
  split; [vm_compute; reflexivity|]. split; [left|].
  split; intros Hin; apply elem_of_cons in Hin as [Hin|Hin];
    (discriminate || by apply not_elem_of_nil in Hin).
Qed.

End Witnesses.

(** * Further properties of the analyzer *)

(** ** When cleaning returns *)

Section CleaningReturns.
Context `{PandasLib}.

Lemma length_rows_map_col n f df : length (rows (map_col n f df)) = length (rows df).
Proof. unfold map_col. simpl. by rewrite length_map. Qed.

Lemma length_rows_los df : length (rows (length_of_stay_col df)) = length (rows df).
Proof.
  unfold length_of_stay_col. destruct (_ && _); [|done].
  unfold set_col. destruct (has_col _ _); simpl; by rewrite length_map.
Qed.

Lemma length_rows_finished_frame raw :
  length (rows (finished_frame raw)) = length (rows raw).
Proof.
  unfold finished_frame, typed_frame.
  rewrite !length_rows_map_col, length_rows_los, !length_rows_map_col.
  by rewrite rows_base_frame.
Qed.



End CleaningReturns.

(** ** What cleaning leaves in the table *)

Section CleanedShape.
Context `{PandasLib}.

Lemma normalized_name_trimmed l :
  normalize_name l = l → str_strip l = l ∧ str_lower l = l.
Proof.
  unfold normalize_name. intros E. split.
  - rewrite <- E at 1. by rewrite str_strip_lower, str_strip_idem.
  - rewrite <- E at 1. by rewrite str_lower_idem.
Qed.

(** X2.  After cleaning every column label is trimmed and in lower case. *)
Theorem cleaned_labels_normalized (raw t : DataFrame) :
  well_formed raw → clean_data raw = OK t →
  Forall (λ l, str_strip l = l ∧ str_lower l = l) (columns t).
Proof.
  intros Hw Hc. pose proof (clean_data_cleaned _ _ Hw Hc) as Hcl.
  eapply Forall_impl; [apply (cl_names _ Hcl)|]. apply normalized_name_trimmed.
Qed.

(** X3.  After cleaning no [department] and no [gender] cell is missing. *)
Theorem cleaned_categories_filled (raw t : DataFrame) (n : string) (r : row) :
  well_formed raw → clean_data raw = OK t →
  n = "department" ∨ n = "gender" → n ∈ columns t → r ∈ rows t →
  cell_at n (columns t) r ≠ CNull.
Proof.
  intros Hw Hc Hn Hin Hr. pose proof (clean_data_cleaned _ _ Hw Hc) as Hcl.
  assert (fixed_under n fillna_unknown t) as Hf.
  { destruct Hn as [-> | ->]; apply Hcl. }
  pose proof (under_cell_at _ _ _ _ (cl_wf _ Hcl) Hf Hin Hr) as Hfix.
  simpl in Hfix. intros E. by rewrite E in Hfix.
Qed.

(** X4.  After cleaning every [age] and [satisfaction] cell is a number or
    missing: no string survives [to_numeric]. *)
Theorem cleaned_numbers_typed (raw t : DataFrame) (n : string) (r : row) :
  well_formed raw → clean_data raw = OK t →
  n = "age" ∨ n = "satisfaction" → n ∈ columns t → r ∈ rows t →
  cell_at n (columns t) r = CNull ∨ ∃ q, cell_at n (columns t) r = CNum q.
Proof.
  intros Hw Hc Hn Hin Hr. pose proof (clean_data_cleaned _ _ Hw Hc) as Hcl.
  assert (fixed_under n to_numeric_cell t) as Hf.
  { destruct Hn as [-> | ->]; apply Hcl. }
  pose proof (under_cell_at _ _ _ _ (cl_wf _ Hcl) Hf Hin Hr) as Hfix.
  by apply to_numeric_fixed.
Qed.

Lemma elem_of_rename_first_iff l aliases target df :
  l ∉ aliases → l ≠ target →
  l ∈ columns (rename_first_alias aliases target df) ↔ l ∈ columns df.
Proof.
  intros Hl Ht.
  destruct (rename_first_alias_cases aliases target df) as [(a & Ha & _ & ->)|[_ ->]];
    [|done].
  rewrite elem_of_rename_col. split; [naive_solver|].
  intros Hin. right. split; [|done]. by intros ->.
Qed.

Lemma target_in_rename_first aliases target df :
  target ∈ aliases →
  target ∈ columns (rename_first_alias aliases target df)
  ↔ ∃ a, a ∈ aliases ∧ a ∈ columns df.
Proof.
  intros Ht.
  destruct (rename_first_alias_cases aliases target df) as [(a & Ha & Hin & ->)|[Hall ->]].
  - rewrite elem_of_rename_col. split; [by exists a|]. intros _. by left.
  - rewrite Forall_forall in Hall. split.
    + intros Hin. by exists target.
    + intros (a & Ha & Hin). by apply Hall in Ha.
Qed.

Lemma not_in_aliases l (aliases : list string) :
  Forall (λ a, l ≠ a) aliases → l ∉ aliases.
Proof. rewrite Forall_forall. intros Hall Hin. by apply (Hall l). Qed.

(** X5.  The date columns exist after cleaning exactly when the table came with
    one of their aliases (compared after trimming and lowercasing). *)
Theorem cleaned_date_columns (raw t : DataFrame) :
  clean_data raw = OK t →
  ("admission_date" ∈ columns t
   ↔ ∃ a, a ∈ admission_aliases ∧ a ∈ map normalize_name (columns raw))
  ∧ ("discharge_date" ∈ columns t
     ↔ ∃ a, a ∈ discharge_aliases ∧ a ∈ map normalize_name (columns raw)).
Proof.
  intros Hc. apply clean_data_OK in Hc as (_ & _ & Hd).
  apply drop_obvious_duplicates_columns in Hd as ->.
  rewrite !elem_of_finished_frame. unfold base_frame.
  set (d := normalize_columns raw).
  change (map normalize_name (columns raw)) with (columns d).
  split.
  - rewrite (elem_of_rename_first_iff "admission_date" discharge_aliases);
      [| apply not_in_aliases; by repeat constructor | done].
    rewrite target_in_rename_first by left. naive_solver.
  - rewrite (target_in_rename_first discharge_aliases) by left.
    split.
    + intros [(a & Ha & Hin)|(? & _)]; [|done]. exists a. split; [done|].
      apply elem_of_rename_first_iff in Hin; [done| |].
      * unfold discharge_aliases, admission_aliases in *.
        apply not_in_aliases.
        repeat (apply elem_of_cons in Ha as [->|Ha]; [by repeat constructor|]).
        by apply not_elem_of_nil in Ha.
      * intros ->. unfold discharge_aliases in Ha.
        repeat (apply elem_of_cons in Ha as [Ha|Ha]; [done|]).
        by apply not_elem_of_nil in Ha.
    + intros (a & Ha & Hin). left. exists a. split; [done|].
      apply elem_of_rename_first_iff; [| |done].
      * unfold discharge_aliases, admission_aliases in *.
        apply not_in_aliases.
        repeat (apply elem_of_cons in Ha as [->|Ha]; [by repeat constructor|]).
        by apply not_elem_of_nil in Ha.
      * intros ->. unfold discharge_aliases in Ha.
        repeat (apply elem_of_cons in Ha as [Ha|Ha]; [done|]).
        by apply not_elem_of_nil in Ha.
Qed.

(** X6.  Cleaning drops no column and adds no row: the labels are those of the
    input after normalisation and alias renaming, in the same order, with
    [length_of_stay] appended when it is derived and was not there; there are
    at most as many rows as before. *)
Theorem cleaned_shape (raw t : DataFrame) :
  clean_data raw = OK t →
  columns t
  = columns (base_frame raw)
    ++ (if bool_decide ("admission_date" ∈ columns (base_frame raw)
                        ∧ "discharge_date" ∈ columns (base_frame raw)
                        ∧ "length_of_stay" ∉ columns (base_frame raw))
        then ["length_of_stay"] else [])
  ∧ length (columns (base_frame raw)) = length (columns raw)
  ∧ (length (rows t) ≤ length (rows raw))%nat.
Proof.
  intros Hc. apply clean_data_OK in Hc as (_ & _ & Hd).
  pose proof (drop_obvious_duplicates_columns _ _ Hd) as Hcols.
  pose proof (drop_obvious_duplicates_sublist _ _ Hd) as Hsub.
  split; [|split].
  - rewrite Hcols.
    change (columns (finished_frame raw))
      with (columns (length_of_stay_col (typed_frame raw))).
    rewrite columns_length_of_stay_col.
    change (columns (typed_frame raw)) with (columns (base_frame raw)).
    unfold has_col.
    change (columns (typed_frame raw)) with (columns (base_frame raw)).
    destruct (decide ("admission_date" ∈ columns (base_frame raw))) as [Ha|Ha];
    destruct (decide ("discharge_date" ∈ columns (base_frame raw))) as [Hdd|Hdd];
    destruct (decide ("length_of_stay" ∈ columns (base_frame raw))) as [Hl|Hl];
    rewrite ?(bool_decide_eq_true_2 _ Ha), ?(bool_decide_eq_false_2 _ Ha),
            ?(bool_decide_eq_true_2 _ Hdd), ?(bool_decide_eq_false_2 _ Hdd),
            ?(bool_decide_eq_true_2 _ Hl), ?(bool_decide_eq_false_2 _ Hl); simpl;
    first [ rewrite bool_decide_eq_true_2 by done; done
          | rewrite bool_decide_eq_false_2 by naive_solver; by rewrite app_nil_r ].
  - apply length_columns_base_frame.
  - rewrite <- (length_rows_finished_frame raw). by apply sublist_length.
Qed.

End CleanedShape.

(** ** Outcome summaries *)





Lemma outcome_counts_by_OK by_ df :
  groupable by_ df → "outcome" ∈ columns df → (col_count "outcome" df ≤ 1)%nat →
  outcome_counts_by by_ df
  = OK (mkCT (outcome_values by_ df)
          (map (λ g : key * list row,
                  (g.1, map (λ v, count_occ_cell v (known_outcomes df g.2))
                            (outcome_values by_ df)))
               (shown_groups by_ df))).
Proof.
  intros Hg Ho Hone. unfold outcome_counts_by.
  rewrite (groupby_OK _ _ Hg). simpl rbind.
  by rewrite (select_column_OK _ _ Ho Hone).
Qed.

Section GroupedCounts.
Context `{PandasLib}.

(** X8.  On a cleaned table the grouped counts show every group, in ascending
    label order, and the counts of a row add up to the size of its group: no
    row with a known label is left out. *)
Theorem summarize_outcomes_group_totals (raw t : DataFrame) (by_ : list string) :
  well_formed raw → clean_data raw = OK t →
  "outcome" ∈ columns t → groupable by_ t →
  ∃ counts pct,
    summarize_outcomes by_ t = OK (Grouped counts pct)
    ∧ map fst (ct_rows counts) = group_keys by_ t
    ∧ NoDup (ct_columns counts)
    ∧ Forall (λ kr, length kr.2 = length (ct_columns counts)
                    ∧ sum_nat kr.2 = length (group_rows by_ t kr.1))
             (ct_rows counts).
Proof.
  intros Hw Hc Ho Hg. pose proof (clean_data_cleaned _ _ Hw Hc) as Hcl.
  assert (col_count "outcome" t ≤ 1)%nat as Hone.
  { pose proof (cl_unique _ Hcl) as Hu. rewrite Forall_forall in Hu.
    apply Hu. do 2 right. left. }
  assert (∀ g : list row, (∀ r, r ∈ g → r ∈ rows t) →
            known_outcomes t g = map (cell_at "outcome" (columns t)) g) as Hknown.
  { intros g Hin. apply filter_all. intros c (r & -> & Hr)%list_elem_of_fmap.
    pose proof (under_cell_at "outcome" _ t r (cl_wf _ Hcl) (cl_outcome _ Hcl) Ho
                  (Hin r Hr)) as Hf.
    simpl in Hf. by rewrite <- Hf. }
  assert (∀ k r, r ∈ group_rows by_ t k → r ∈ rows t) as Hsub.
  { intros k r Hr. unfold group_rows, keyed_rows in Hr.
    by apply list_elem_of_filter in Hr as [_ [_ Hr]%list_elem_of_filter]. }
  assert (shown_groups by_ t = map (λ k, (k, group_rows by_ t k)) (group_keys by_ t))
    as Hshown.
  { apply filter_all. intros [k g] (k' & [= -> ->] & Hk)%list_elem_of_fmap. simpl.
    rewrite Hknown by apply Hsub.
    pose proof (group_rows_nonempty _ _ _ Hk) as Hne.
    by destruct (group_rows by_ t k'). }
  destruct (unstack_values (flat_map (λ g : key * list row, known_outcomes t g.2)
                                     (shown_groups by_ t))) as [Hnd Hcov].
  fold (outcome_values by_ t) in Hnd, Hcov.
  unfold summarize_outcomes. destruct by_ as [|b by_]; [by destruct Hg|].
  rewrite (outcome_counts_by_OK _ _ Hg Ho Hone). simpl rbind.
  eexists _, _. split; [done|]. split; [|split; [exact Hnd|]].
  - simpl. rewrite Hshown, !map_map. simpl. apply map_id.
  - simpl. apply Forall_map, Forall_forall. intros [k g] Hin. simpl.
    split; [by rewrite length_map|].
    rewrite sum_count_occ; [|done|].
    + rewrite Hshown in Hin.
      apply list_elem_of_fmap in Hin as (k' & [= -> ->] & Hk).
      rewrite Hknown by apply Hsub. by rewrite length_map.
    + intros c Hcin. apply Hcov.
      apply list_elem_of_In, in_flat_map. exists (k, g).
      split; by apply list_elem_of_In.
Qed.

End GroupedCounts.

(** ** Aggregates and absent columns *)

Section AggregateErrors.
Context `{PandasLib}.

Lemma groupby_missing c df : c ∉ columns df → groupby [c] df = Raise (KeyError c).
Proof.
  intros Hc. unfold groupby. rewrite filter_cons, filter_nil.
  by rewrite decide_True.
Qed.

(** X9.  [aggregate_by] on a grouping column that does not exist raises
    [KeyError] naming it, for counts and for means; with the grouping column
    there and the value column absent, the mean raises [KeyError] as well. *)
Theorem aggregate_by_missing_column (df : DataFrame) (c v : string) :
  v ≠ "" →
  (c ∉ columns df →
     aggregate_by [c] "count" None df = Raise (KeyError c)
     ∧ aggregate_by [c] "mean" (Some v) df = Raise (KeyError c))
  ∧ (groupable [c] df → v ∉ columns df →
     aggregate_by [c] "mean" (Some v) df
     = Raise (KeyError ("Column not found: " ++ v))).
Proof.
  intros Hv. split.
  - intros Hc. unfold aggregate_by, groupby_size, groupby_mean.
    rewrite (groupby_missing _ _ Hc).
    rewrite bool_decide_eq_true_2 by done. split; [done|].
    rewrite bool_decide_eq_false_2 by done.
    by rewrite bool_decide_eq_true_2 by done.
  - intros Hg Hn. unfold aggregate_by, groupby_mean.
    rewrite bool_decide_eq_false_2 by done.
    rewrite bool_decide_eq_true_2 by done.
    rewrite (groupby_OK _ _ Hg). simpl rbind. unfold select_column.
    by rewrite (proj2 (has_col_false _ _) Hn).
Qed.

(** X10.  With both columns present, [average_satisfaction_by_department] is
    [aggregate_by("department", "mean", "satisfaction")]. *)
Theorem average_satisfaction_is_aggregate (df : DataFrame) :
  "satisfaction" ∈ columns df → "department" ∈ columns df →
  aggregate_by ["department"] "mean" (Some "satisfaction") df
  = Means <$$> average_satisfaction_by_department df.
Proof.
  intros Hs Hd. unfold aggregate_by, average_satisfaction_by_department.
  rewrite bool_decide_eq_false_2 by done.
  rewrite bool_decide_eq_true_2 by done.
  rewrite (proj2 (has_col_true _ _) Hs), (proj2 (has_col_true _ _) Hd). simpl.
  by destruct (groupby_mean _ _ _).
Qed.

End AggregateErrors.

(** ** The time series accounts for every known admission *)

Lemma sum_indicator_Z (x : Z) vs :
  NoDup vs → x ∈ vs →
  sum_nat (map (λ v, if decide (x = v) then 1 else 0)%nat vs) = 1%nat.
Proof.
  induction 1 as [|v vs Hv Hnd IH]; intros Hx; [by apply not_elem_of_nil in Hx|].
  simpl. destruct (decide (x = v)) as [->|Hne].
  - rewrite sum_nat_zero; [done|]. intros y Hy. rewrite decide_False; [done|].
    by intros <-.
  - apply elem_of_cons in Hx as [?|Hx]; [done|]. by rewrite IH.
Qed.

Lemma sum_count_Z vs l :
  NoDup vs → (∀ x, x ∈ l → x ∈ vs) →
  sum_nat (map (λ v, count_Z v l) vs) = length l.
Proof.
  intros Hnd. induction l as [|x l IH]; intros Hin.
  - apply sum_nat_zero. by intros.
  - transitivity (sum_nat (map (λ v, (if decide (x = v) then 1 else 0)
                                       + count_Z v l)%nat vs)).
    { f_equal. apply map_ext. intros v. unfold count_Z.
      rewrite filter_cons. by destruct (decide (x = v)). }
    rewrite sum_nat_add, sum_indicator_Z by (done || apply Hin; left).
    rewrite IH by (intros y Hy; apply Hin; by right). done.
Qed.

Lemma resample_size_total f dates :
  sum_nat (map snd (resample_size f dates)) = length dates.
Proof.
  unfold resample_size. rewrite <- (length_map (period_of f) dates).
  destruct (map (period_of f) dates) as [|p ps]; [done|].
  rewrite map_map. simpl snd.
  apply sum_count_Z; [apply NoDup_seqZ|].
  intros x Hx. apply elem_of_seqZ.
  pose proof (foldr_min_le p ps x Hx). pose proof (foldr_max_ge p ps x Hx). lia.
Qed.

Lemma known_dates_length col :
  forallb is_date col = true →
  length (known_dates col) = length (filter (λ c, is_null c = false) col).
Proof.
  unfold known_dates. induction col as [|c col IH]; [done|]. simpl forallb.
  intros [Hc Hall]%andb_true_iff. rewrite filter_cons.
  destruct c as [|s|q|d]; try done.
  - rewrite decide_False by done. simpl. by apply IH.
  - rewrite decide_True by done. simpl. f_equal. by apply IH.
Qed.

Section TimeSeries.
Context `{PandasLib}.

Lemma cleaned_admission_dates t :
  cleaned t → "admission_date" ∈ columns t →
  forallb is_date (column "admission_date" t) = true.
Proof.
  intros Hcl Ha. apply forallb_forall. intros c Hin. apply list_elem_of_In in Hin.
  unfold column in Hin. apply list_elem_of_fmap in Hin as (r & -> & Hr).
  pose proof (under_cell_at _ _ _ _ (cl_wf _ Hcl) (cl_adm _ Hcl) Ha Hr) as Hf.
  simpl in Hf. by apply to_datetime_fixed in Hf as [->|[? ->]].
Qed.

(** X11.  On a cleaned table with an [admission_date] column, and with no
    row at all or at least one known admission date, the counts of
    [admissions_over_time] add up to the number of rows whose admission date
    is known: every such row is counted in exactly one period, and rows
    without a date in none. *)
Theorem admissions_over_time_total (raw t : DataFrame) (freq : Freq) :
  well_formed raw → clean_data raw = OK t → "admission_date" ∈ columns t →
  rows t = [] ∨ (∃ r, r ∈ rows t ∧ cell_at "admission_date" (columns t) r ≠ CNull) →
  ∃ s, admissions_over_time freq t = OK s
       ∧ sum_nat (map snd s)
         = length (filter (λ c, is_null c = false) (column "admission_date" t)).
Proof.
  intros Hw Hc Ha _. pose proof (clean_data_cleaned _ _ Hw Hc) as Hcl.
  unfold admissions_over_time.
  rewrite (proj2 (has_col_true _ _) Ha). simpl negb. cbv iota.
  pose proof (cl_unique _ Hcl) as Hu. rewrite Forall_forall in Hu.
  assert (col_count "admission_date" t ≤ 1)%nat as Hone by (apply Hu; left).
  rewrite (proj2 (Nat.ltb_ge _ _)) by lia.
  rewrite (cleaned_admission_dates _ Hcl Ha).
  eexists. split; [done|].
  rewrite resample_size_total. apply known_dates_length.
  by apply cleaned_admission_dates.
Qed.

End TimeSeries.

(** ** Charts *)

(** X12.  [plot_admissions_over_time] never answers "no chart": it raises or it
    returns a line chart over the two columns [date] and [admissions], with
    one data row per period of [admissions_over_time] (none for a table
    without rows). *)
Theorem plot_admissions_over_time_never_none (freq : Freq) (df : DataFrame) :
  plot_admissions_over_time freq df ≠ OK None
  ∧ ∀ ch, plot_admissions_over_time freq df = OK (Some ch) →
      ∃ s, admissions_over_time freq df = OK s
           ∧ chart_mark ch = "line"
           ∧ columns (chart_data ch) = ["date"; "admissions"]
           ∧ rows (chart_data ch) = map (λ e, [CDate e.1; count_cell e.2]) s.
Proof.
  unfold plot_admissions_over_time.
  destruct (admissions_over_time freq df) as [s|e]; simpl; split; try done.
  intros ch [= <-]. by exists s.
Qed.

(** ** Age bins *)


Lemma filter_ext_elem {A} (P Q : A → Prop) `{∀ x, Decision (P x)}
    `{∀ x, Decision (Q x)} (l : list A) :
  (∀ x, x ∈ l → P x ↔ Q x) → filter P l = filter Q l.
Proof.
  induction l as [|a l IH]; intros HPQ; [done|].
  rewrite !filter_cons.
  rewrite IH by (intros x Hx; apply HPQ; by right).
  destruct (decide (P a)) as [HP|HP], (decide (Q a)) as [HQ|HQ]; try done;
    exfalso; [apply HQ|apply HP]; by apply (HPQ a); [left|].
Qed.



Section AgeHistogram.
Context `{PandasLib}.


End AgeHistogram.

Section SatisfactionChart.
Context `{PandasLib}.

Lemma group_keys_nil by_ df :
  group_keys by_ df = []
  ↔ ∀ r, r ∈ rows df → key_known (group_key by_ (columns df) r) = false.
Proof.
  split.
  - intros Hnil r Hr. destruct (key_known _) eqn:E; [|done].
    assert (group_key by_ (columns df) r ∈ group_keys by_ df) as Hin
      by (apply elem_of_group_keys; by exists r).
    rewrite Hnil in Hin. by apply not_elem_of_nil in Hin.
  - intros Hall. destruct (group_keys by_ df) as [|k ks] eqn:E; [done|].
    assert (k ∈ group_keys by_ df) as Hin by (rewrite E; left).
    apply elem_of_group_keys in Hin as (r & Hr & <- & Hk).
    by rewrite (Hall r Hr) in Hk.
Qed.

(** X14.  On a cleaned table with [satisfaction] and [department] columns (the
    latter not repeated), [plot_satisfaction_by_department] does not raise.
    It answers "no chart" exactly on a table without rows; otherwise the bar
    chart has one data row per department. *)
Theorem plot_satisfaction_by_department_cleaned (raw t : DataFrame) :
  well_formed raw → clean_data raw = OK t →
  "satisfaction" ∈ columns t → "department" ∈ columns t →
  (col_count "department" t ≤ 1)%nat →
  (rows t = [] → plot_satisfaction_by_department t = OK None)
  ∧ (rows t ≠ [] →
     ∃ ch, plot_satisfaction_by_department t = OK (Some ch)
           ∧ chart_mark ch = "bar"
           ∧ columns (chart_data ch) = ["department"; "satisfaction"]
           ∧ map (λ r, [hd CNull r]) (rows (chart_data ch))
             ≡ₚ group_keys ["department"] t
           ∧ group_keys ["department"] t ≠ []).
Proof.
  intros Hw Hc Hs Hd Hone. pose proof (clean_data_cleaned _ _ Hw Hc) as Hcl.
  assert (groupable ["department"] t) as Hg.
  { split; [done|]. constructor; [done|constructor]. }
  assert (col_count "satisfaction" t ≤ 1)%nat as Hsone.
  { pose proof (cl_unique _ Hcl) as Hu. rewrite Forall_forall in Hu.
    apply Hu. do 4 right. left. }
  pose proof (cleaned_numeric_kind raw t "satisfaction" Hw Hc (or_intror eq_refl) Hs)
    as Hkind.
  unfold plot_satisfaction_by_department, average_satisfaction_by_department.
  rewrite (proj2 (has_col_true _ _) Hs), (proj2 (has_col_true _ _) Hd). simpl.
  unfold groupby_mean. rewrite (groupby_OK _ _ Hg). simpl rbind.
  rewrite (select_column_OK _ _ Hs Hsone). simpl rbind. rewrite Hkind.
  simpl rbind. rewrite map_map. simpl.
  set (G := map _ (group_keys _ _)).
  pose proof (sort_values_desc_perm cell_ltb is_null G) as Hperm.
  split.
  - intros Hr.
    assert (group_keys ["department"] t = []) as Hnil.
    { apply group_keys_nil. intros r Hin. rewrite Hr in Hin.
      by apply not_elem_of_nil in Hin. }
    assert (G = []) as HG by (unfold G; by rewrite Hnil).
    rewrite HG in *. apply Permutation_nil_r in Hperm. by rewrite Hperm.
  - intros Hr.
    assert (group_keys ["department"] t ≠ []) as Hne.
    { intros Hnil. destruct (rows t) as [|r rs] eqn:Er; [done|].
      assert (r ∈ rows t) as Hin by (rewrite Er; left).
      pose proof (proj1 (group_keys_nil _ _) Hnil r Hin) as Hk.
      pose proof (under_cell_at _ _ _ _ (cl_wf _ Hcl) (cl_dept _ Hcl) Hd Hin) as Hf.
      simpl in Hk, Hf. by destruct (cell_at "department" (columns t) r). }
    destruct (sort_values_desc cell_ltb is_null G) as [|e s] eqn:Es.
    { apply Permutation_nil_l in Hperm. unfold G in Hperm.
      by destruct (group_keys ["department"] t). }
    eexists. split; [done|]. split; [done|]. split; [done|]. split; [|done].
    cbn [chart_data rows]. rewrite map_map. cbn [hd].
    assert (Forall (λ e : key * cell, ∃ c, e.1 = [c]) (e :: s)) as Hsingle.
    { apply Forall_forall. intros x Hx. rewrite Hperm in Hx.
      apply list_elem_of_fmap in Hx as (k & -> & Hk). simpl.
      apply elem_of_group_keys in Hk as (r & _ & <- & _).
      unfold group_key. simpl. by eexists. }
    transitivity (map fst (e :: s)).
    + apply eq_subrelation; [apply _|]. apply map_ext_Forall.
      eapply Forall_impl; [exact Hsingle|].
      intros [k v] Hx. simpl in Hx |- *. destruct Hx as [c Ex]. by subst k.
    + rewrite Hperm. unfold G. rewrite map_map. simpl. by rewrite map_id.
Qed.

End SatisfactionChart.

(** ** What [clean_data] does to the store *)

Section StoreEffects.
Context `{PandasLib}.

(** X15.  [clean_data] rewrites the table of the analyzer in place before it drops
    the duplicates: when [drop_duplicates] raises, the analyzer is left with
    the normalised table, not with the table it had before the call; when it
    returns, the old object holds the normalised table and [self.df] is bound
    to a new object with the result. *)
Theorem clean_data_store_effect (self : Store.HealthAnalyzer)
    (σ : gmap Store.loc DataFrame) (t pre : DataFrame) :
  σ !! Store.self_df self = Some t → clean_in_place t = OK pre →
  let σ1 := <[Store.self_df self := pre]> σ in
  Store.clean_data self σ
  = match drop_obvious_duplicates pre with
    | OK t' => let l' := fresh (dom σ1) in
               (OK (Store.mkHA l', l'), <[l' := t']> σ1)
    | Raise e => (Raise e, σ1)
    end.
Proof.
  intros Ht Hpre. cbv zeta.
  unfold Store.clean_data, Store.mutate_ok. unfold clean_in_place in Hpre.
  repeat (erewrite bind_mutate by (done || apply lookup_insert_eq); cbv beta iota;
          rewrite ?insert_insert_eq;
          try match goal with
              | |- context [match ?s with OK _ => _ | Raise _ => _ end] =>
                  destruct s eqn:?; simpl rbind in Hpre; [|done]
              end).
  erewrite bind_read by apply lookup_insert_eq.
  injection Hpre as <-.
  unfold Store.bind, Store.lift, Store.alloc, Store.ret.
  by destruct (drop_obvious_duplicates _).
Qed.

(** A query looks at the table and changes nothing: not the store, not the
    binding of [self.df]; only [clean_data] does. *)
Theorem queries_read_only (c : Store.call) (self : Store.HealthAnalyzer)
    (σ : gmap Store.loc DataFrame) :
  c ≠ Store.CleanData → Store.exec c self σ = (self, σ).
Proof.
  intros Hc. destruct c; try done; simpl; f_equal;
    unfold Store.query, Store.bind, Store.read, Store.lift;
    by destruct (σ !! Store.self_df self).
Qed.

End StoreEffects.



(** ** The dashboard script *)

Section DashboardFacts.
Import Dashboard.
Context `{PandasLib}.

Lemma py_int_mono (a b : Qc) : (a <= b)%Qc → (py_int a <= py_int b)%Z.
Proof.
  unfold Qcle, py_int. intros Hab.
  destruct (Qle_bool 0 a) eqn:Ea, (Qle_bool 0 b) eqn:Eb.
  - by apply Qfloor_resp_le.
  - apply Qle_bool_iff in Ea. exfalso.
    assert (Qle_bool 0 b = true) as Eb'; [|congruence].
    apply Qle_bool_iff. by eapply Qle_trans.
  - apply Qle_bool_iff in Eb.
    assert (¬ (0 <= a)%Q) as Ha by (rewrite <- Qle_bool_iff; congruence).
    apply Qnot_le_lt, Qlt_le_weak in Ha.
    apply Qceiling_resp_le in Ha. apply Qfloor_resp_le in Eb.
    change 0%Q with (inject_Z 0) in Ha, Eb.
    rewrite Qceiling_Z in Ha. rewrite Qfloor_Z in Eb. lia.
  - by apply Qceiling_resp_le.
Qed.

Lemma qc_min_le (a b : Qc) : (qc_min a b <= a)%Qc ∧ (qc_min a b <= b)%Qc.
Proof.
  unfold qc_min, Qcle. destruct (Qle_bool a b) eqn:E.
  - apply Qle_bool_iff in E. split; [apply Qle_refl|done].
  - assert (¬ (a <= b)%Q) as Hn by (rewrite <- Qle_bool_iff; congruence).
    apply Qnot_le_lt, Qlt_le_weak in Hn. split; [done|apply Qle_refl].
Qed.

Lemma qc_max_ge (a b : Qc) : (a <= qc_max a b)%Qc ∧ (b <= qc_max a b)%Qc.
Proof.
  unfold qc_max, Qcle. destruct (Qle_bool a b) eqn:E.
  - apply Qle_bool_iff in E. split; [done|apply Qle_refl].
  - assert (¬ (a <= b)%Q) as Hn by (rewrite <- Qle_bool_iff; congruence).
    apply Qnot_le_lt, Qlt_le_weak in Hn. split; [apply Qle_refl|done].
Qed.

Lemma foldr_qc_min_le q qs x : x ∈ q :: qs → (foldr qc_min q qs <= x)%Qc.
Proof.
  induction qs as [|a qs IH]; simpl.
  - intros ->%list_elem_of_singleton. apply Qcle_refl.
  - intros Hx. destruct (qc_min_le a (foldr qc_min q qs)) as [Hl Hr].
    apply elem_of_cons in Hx as [->|Hx].
    + eapply Qcle_trans; [exact Hr|]. apply IH. left.
    + apply elem_of_cons in Hx as [->|Hx]; [done|].
      eapply Qcle_trans; [exact Hr|]. apply IH. by right.
Qed.

Lemma foldr_qc_max_ge q qs x : x ∈ q :: qs → (x <= foldr qc_max q qs)%Qc.
Proof.
  induction qs as [|a qs IH]; simpl.
  - intros ->%list_elem_of_singleton. apply Qcle_refl.
  - intros Hx. destruct (qc_max_ge a (foldr qc_max q qs)) as [Hl Hr].
    apply elem_of_cons in Hx as [->|Hx].
    + eapply Qcle_trans; [|exact Hr]. apply IH. left.
    + apply elem_of_cons in Hx as [->|Hx]; [done|].
      eapply Qcle_trans; [|exact Hr]. apply IH. by right.
Qed.

(** The minimum and the maximum are values of the column. *)
Lemma foldr_pick_elem (pick : Qc → Qc → Qc) q qs :
  (∀ a b, pick a b = a ∨ pick a b = b) → foldr pick q qs ∈ q :: qs.
Proof.
  intros Hp. induction qs as [|a qs IH]; simpl; [left|].
  destruct (Hp a (foldr pick q qs)) as [-> | ->]; [right; left|].
  apply elem_of_cons in IH as [->|IH]; [left|by do 2 right].
Qed.

Lemma qc_min_pick a b : qc_min a b = a ∨ qc_min a b = b.
Proof. unfold qc_min. destruct (Qle_bool a b); auto. Qed.

Lemma qc_max_pick a b : qc_max a b = a ∨ qc_max a b = b.
Proof. unfold qc_max. destruct (Qle_bool a b); auto. Qed.

Lemma elem_of_known_numbers a l : a ∈ known_numbers l ↔ CNum a ∈ l.
Proof.
  unfold known_numbers. rewrite list_elem_of_omap. split.
  - intros (c & Hc & E). destruct c; inversion E; by subst.
  - intros Hin. by exists (CNum a).
Qed.

Lemma elem_of_column c n df :
  c ∈ column n df ↔ ∃ r, r ∈ rows df ∧ c = cell_at n (columns df) r.
Proof. unfold column. rewrite list_elem_of_fmap. naive_solver. Qed.

Lemma cleaned_age_numeric t :
  cleaned t → "age" ∈ columns t → forallb is_num (column "age" t) = true.
Proof.
  intros Hcl Hin. apply forallb_forall. intros c Hc. apply list_elem_of_In in Hc.
  apply elem_of_column in Hc as (r & Hr & ->).
  pose proof (under_cell_at _ _ _ _ (cl_wf _ Hcl) (cl_age _ Hcl) Hin Hr) as Hfix.
  simpl in Hfix. by apply to_numeric_fixed in Hfix as [->|[? ->]].
Qed.

Lemma cleaned_age_once t : cleaned t → (1 <? col_count "age" t)%nat = false.
Proof.
  intros Hcl. pose proof (cl_unique _ Hcl) as Hu.
  rewrite !Forall_cons in Hu. apply Nat.ltb_ge. naive_solver.
Qed.

(** What [series_stat] returns on the [age] column of a cleaned table. *)
Lemma series_stat_age pick t :
  cleaned t → "age" ∈ columns t →
  series_stat pick "age" t
  = OK (match known_numbers (column "age" t) with
        | [] => None
        | q :: qs => Some (foldr pick q qs)
        end).
Proof.
  intros Hcl Hin. unfold series_stat.
  rewrite (proj2 (has_col_true _ _) Hin), cleaned_age_once by done.
  by rewrite cleaned_age_numeric.
Qed.

(** X16.  The fallback [(0, 100)] of the age bounds is never used: without an
    [age] column the first component has already raised [KeyError], and
    whenever the bounds are computed the second one is an integer. *)
Theorem age_bounds_fallback_unreachable (df : DataFrame) :
  ("age" ∉ columns df → age_bounds df = Raise (KeyError "age"))
  ∧ (∀ lo m, age_bounds df = OK (lo, m) → "age" ∈ columns df ∧ ∃ hi, m = AgeMax hi).
Proof.
  unfold age_bounds, int_of_stat, series_stat. split.
  - intros Hn. assert (has_col "age" df = false) as ->; [|done].
    destruct (has_col "age" df) eqn:E; [|done]. by apply has_col_true in E.
  - intros lo m. destruct (has_col "age" df) eqn:E; [|done].
    apply has_col_true in E. simpl negb. cbv iota.
    destruct (1 <? col_count "age" df)%nat; [done|].
    destruct (negb (forallb is_num (column "age" df))); [done|].
    destruct (known_numbers (column "age" df)) as [|q qs]; [done|].
    simpl. intros [= <- <-]. split; [done|]. by eexists.
Qed.

(** The age bounds on a cleaned table with an [age] column. *)
Lemma age_bounds_known_ages (t : DataFrame) :
  cleaned t → "age" ∈ columns t →
  ((∀ r, r ∈ rows t → cell_at "age" (columns t) r = CNull) →
     age_bounds t = Raise (ValueError "cannot convert float NaN to integer"))
  ∧ ((∃ r, r ∈ rows t ∧ cell_at "age" (columns t) r ≠ CNull) →
     ∃ lo hi,
       age_bounds t = OK (lo, AgeMax hi)
       ∧ (∃ r a, r ∈ rows t ∧ cell_at "age" (columns t) r = CNum a ∧ lo = py_int a)
       ∧ (∃ r a, r ∈ rows t ∧ cell_at "age" (columns t) r = CNum a ∧ hi = py_int a)
       ∧ ∀ r a, r ∈ rows t → cell_at "age" (columns t) r = CNum a →
           (lo <= py_int a <= hi)%Z).
Proof.
  intros Hcl Hin.
  unfold age_bounds, int_of_stat.
  rewrite !series_stat_age, (proj2 (has_col_true _ _) Hin) by done.
  destruct (known_numbers (column "age" t)) as [|q qs] eqn:Ek; split.
  - done.
  - intros (r & Hr & Hk). exfalso.
    pose proof (under_cell_at _ _ _ _ (cl_wf _ Hcl) (cl_age _ Hcl) Hin Hr) as Hfix.
    simpl in Hfix. apply to_numeric_fixed in Hfix as [E|[a E]]; [done|].
    assert (a ∈ known_numbers (column "age" t)) as Ha.
    { apply elem_of_known_numbers, elem_of_column. by exists r. }
    rewrite Ek in Ha. by apply not_elem_of_nil in Ha.
  - intros Hall. exfalso.
    assert (q ∈ known_numbers (column "age" t)) as Hq by (rewrite Ek; left).
    apply elem_of_known_numbers, elem_of_column in Hq as (r & Hr & E).
    by rewrite (Hall r Hr) in E.
  - intros _. simpl. eexists _, _. split; [done|].
    assert (∀ x, x ∈ q :: qs →
              ∃ r, r ∈ rows t ∧ cell_at "age" (columns t) r = CNum x) as Hrow.
    { intros x Hx. rewrite <- Ek in Hx.
      apply elem_of_known_numbers, elem_of_column in Hx as (r & Hr & E). by exists r. }
    split; [|split].
    + destruct (Hrow _ (foldr_pick_elem qc_min q qs qc_min_pick)) as (r & Hr & E).
      by exists r, (foldr qc_min q qs).
    + destruct (Hrow _ (foldr_pick_elem qc_max q qs qc_max_pick)) as (r & Hr & E).
      by exists r, (foldr qc_max q qs).
    + intros r a Hr E.
      assert (a ∈ q :: qs) as Ha.
      { rewrite <- Ek. apply elem_of_known_numbers, elem_of_column. by exists r. }
      split; apply py_int_mono; [by apply foldr_qc_min_le|by apply foldr_qc_max_ge].
Qed.

(** X17.  On a cleaned table with an [age] column: when no age is known the
    bounds raise [ValueError] (the integer of a NaN); otherwise they are the
    truncated least and greatest known age, both taken from rows of the
    table, and the truncated age of every row lies between them. *)
Theorem age_bounds_cleaned (raw t : DataFrame) :
  well_formed raw → clean_data raw = OK t → "age" ∈ columns t →
  ((∀ r, r ∈ rows t → cell_at "age" (columns t) r = CNull) →
     age_bounds t = Raise (ValueError "cannot convert float NaN to integer"))
  ∧ ((∃ r, r ∈ rows t ∧ cell_at "age" (columns t) r ≠ CNull) →
     ∃ lo hi,
       age_bounds t = OK (lo, AgeMax hi)
       ∧ (∃ r a, r ∈ rows t ∧ cell_at "age" (columns t) r = CNum a ∧ lo = py_int a)
       ∧ (∃ r a, r ∈ rows t ∧ cell_at "age" (columns t) r = CNum a ∧ hi = py_int a)
       ∧ ∀ r a, r ∈ rows t → cell_at "age" (columns t) r = CNum a →
           (lo <= py_int a <= hi)%Z).
Proof.
  intros Hw Hc Hin. apply age_bounds_known_ages; [by eapply clean_data_cleaned|done].
Qed.

End DashboardFacts.

(** ** Filtering a cleaned table *)

Section KeepFirstFixed.
Context {K : Type} `{EqDecision K} (key : row → K).

Lemma keep_first_distinct seen rs :
  Forall (λ r, key r ∉ seen) rs → NoDup (map key rs) → keep_first key seen rs = rs.
Proof.
  revert seen; induction rs as [|r rs IH]; intros seen Hs Hn; simpl; [done|].
  apply Forall_cons in Hs as [Hr Hs]. simpl in Hn. apply NoDup_cons in Hn as [Hnr Hn].
  rewrite bool_decide_eq_false_2 by done. f_equal. apply IH; [|done].
  apply Forall_forall. intros r' Hr'. rewrite Forall_forall in Hs.
  apply not_elem_of_cons. split; [|by apply Hs].
  intros E. apply Hnr. rewrite <- E. apply list_elem_of_fmap. by exists r'.
Qed.

Lemma keep_first_fixed_iff rs : keep_first key [] rs = rs ↔ NoDup (map key rs).
Proof.
  split.
  - intros <-. apply keep_first_NoDup.
  - apply keep_first_distinct, Forall_forall. intros r _. apply not_elem_of_nil.
Qed.

End KeepFirstFixed.


Section Selection.
Context `{PandasLib}.


End Selection.

Section FilterFacts.
Import Dashboard.
Context `{PandasLib}.

Lemma in_age_range_true lo hi c :
  in_age_range lo hi c = true
  ↔ ∃ a : Qc, c = CNum a ∧ (inject_Z lo <= a)%Q ∧ (a <= inject_Z hi)%Q.
Proof.
  destruct c as [|s|a|d]; simpl; try (split; [done|by intros (? & ? & _)]).
  rewrite andb_true_iff, !Qle_bool_iff. split.
  - intros [? ?]. by exists a.
  - by intros (? & [= <-] & ? & ?).
Qed.

Lemma passes_true lo hi G D L r :
  passes lo hi G D L r = true
  ↔ (∃ a : Qc, cell_at "age" L r = CNum a ∧ (inject_Z lo <= a)%Q ∧ (a <= inject_Z hi)%Q)
    ∧ cell_at "gender" L r ∈ G ∧ cell_at "department" L r ∈ D.
Proof.
  unfold passes. rewrite !andb_true_iff, !bool_decide_eq_true, in_age_range_true.
  naive_solver.
Qed.

(** What [filter_rows] returns on a cleaned table that has the three
    columns, [gender] and [department] not repeated. *)
Lemma filter_rows_OK lo hi G D t :
  cleaned t →
  "age" ∈ columns t → "gender" ∈ columns t → "department" ∈ columns t →
  (col_count "gender" t ≤ 1)%nat → (col_count "department" t ≤ 1)%nat →
  filter_rows lo hi G D t
  = OK (mkDF (columns t)
             (filter (λ r, passes lo hi G D (columns t) r = true) (rows t))).
Proof.
  intros Hcl Ha Hg Hd Hg1 Hd1. unfold filter_rows.
  rewrite !(proj2 (has_col_true _ _)) by done.
  rewrite cleaned_age_numeric by done. simpl negb. cbv iota.
  assert (existsb (λ n, (1 <? col_count n t)%nat) ["age"; "gender"; "department"]
          = false) as ->; [|done].
  simpl. rewrite cleaned_age_once by done.
  by rewrite !(proj2 (Nat.ltb_ge _ _)).
Qed.


(** X19.  The filter needs its three columns: on a table without [age], or
    with one numeric [age] column but without [gender] or [department], it
    raises [KeyError] with the first missing label. *)
Theorem filter_rows_missing_column (df : DataFrame) (lo hi : Z) (G D : list cell) :
  ("age" ∉ columns df → filter_rows lo hi G D df = Raise (KeyError "age"))
  ∧ ("age" ∈ columns df → (col_count "age" df ≤ 1)%nat →
     forallb is_num (column "age" df) = true →
     "gender" ∉ columns df → filter_rows lo hi G D df = Raise (KeyError "gender"))
  ∧ ("age" ∈ columns df → (col_count "age" df ≤ 1)%nat →
     forallb is_num (column "age" df) = true →
     "gender" ∈ columns df → "department" ∉ columns df →
     filter_rows lo hi G D df = Raise (KeyError "department")).
Proof.
  assert (∀ n, n ∉ columns df → has_col n df = false) as Hno.
  { intros n Hn. destruct (has_col n df) eqn:E; [|done]. by apply has_col_true in E. }
  unfold filter_rows. split; [|split].
  - intros Hn. by rewrite Hno.
  - intros Ha _ -> Hg. by rewrite (proj2 (has_col_true _ _) Ha), (Hno "gender").
  - intros Ha _ -> Hg Hd.
    by rewrite (proj2 (has_col_true _ _) Ha), (proj2 (has_col_true _ _) Hg),
               (Hno "department").
Qed.

End FilterFacts.

(** ** The widgets and the default view *)

Section WidgetFacts.
Import Dashboard.
Context `{PandasLib}.

Lemma singleton_keys_back (L : list key) :
  Forall (λ k, ∃ c, k = [c]) L → map (λ c, [c]) (map (λ k : key, hd CNull k) L) = L.
Proof.
  induction 1 as [|k L [c ->] _ IH]; simpl; [done|]. by rewrite IH.
Qed.

Lemma lexico_singleton (a b : cell) : lexico [a] [b] → lexico a b.
Proof. intros [?|[_ []]]. done. Qed.

(** What [options] returns when it returns. *)
Lemma options_OK name df l :
  options name df = OK l →
  NoDup l
  ∧ (∀ c, c ∈ l ↔ c ∈ column name df)
  ∧ StronglySorted lexico l.
Proof.
  unfold options. destruct (negb (has_col name df)); [done|].
  destruct (1 <? col_count name df)%nat; [done|].
  destruct (sortable _); [|done]. intros [= <-].
  set (values := distinct (column name df)).
  set (ks := map (λ c, [c]) values).
  assert (NoDup ks) as Hks.
  { apply NoDup_fmap_2; [by intros a b [= ->]|apply NoDup_distinct]. }
  pose proof (sort_keys_perm ks) as Hp.
  assert (Forall (λ k, ∃ c, k = [c]) (sort_keys ks)) as Hsing.
  { apply Forall_forall. intros k Hk. rewrite Hp in Hk.
    apply list_elem_of_fmap in Hk as (c & -> & _). by exists c. }
  pose proof (singleton_keys_back _ Hsing) as Hback.
  set (l := map (λ k : key, hd CNull k) (sort_keys ks)) in *.
  split; [|split].
  - apply (NoDup_fmap_1 (λ c, [c])). change (NoDup (map (λ c, [c]) l)).
    rewrite Hback. by rewrite Hp.
  - intros c. rewrite <- (elem_of_distinct (column name df)). fold values.
    split.
    + intros Hc. assert ([c] ∈ map (λ c, [c]) l) as Hk.
      { apply list_elem_of_fmap. by exists c. }
      rewrite Hback, Hp in Hk. apply list_elem_of_fmap in Hk as (c' & [= ->] & Hc').
      done.
    + intros Hc. assert ([c] ∈ map (λ c, [c]) l) as Hk.
      { rewrite Hback, Hp. apply list_elem_of_fmap. by exists c. }
      apply list_elem_of_fmap in Hk as (c' & [= ->] & Hc'). done.
  - pose proof (sort_keys_strict ks Hks) as Hs. rewrite <- Hback in Hs.
    clear -Hs. induction l as [|a l IH]; [constructor|].
    simpl in Hs. apply StronglySorted_inv in Hs as [Hs Ha].
    constructor; [by apply IH|].
    apply Forall_forall. intros b Hb. rewrite Forall_forall in Ha.
    apply lexico_singleton, Ha, list_elem_of_fmap. by exists b.
Qed.

(** X20.  The options of a multiselect are the distinct values of the column,
    each once, and in ascending order when no value is missing. *)
Theorem options_sorted_distinct (name : string) (df : DataFrame) (l : list cell) :
  options name df = OK l →
  NoDup l
  ∧ (∀ c, c ∈ l ↔ ∃ r, r ∈ rows df ∧ c = cell_at name (columns df) r)
  ∧ (CNull ∉ l → StronglySorted lexico l).
Proof.
  intros (Hn & Hm & Hs)%options_OK. split; [done|]. split; [|done].
  intros c. by rewrite Hm, elem_of_column.
Qed.

Lemma forallb_is_str_sortable l : forallb is_str l = true → sortable (distinct l) = true.
Proof.
  intros Hl. unfold sortable.
  assert (forallb is_str (distinct l) = true) as ->; [|done].
  apply forallb_forall. intros c Hc. rewrite forallb_forall in Hl. apply Hl.
  apply list_elem_of_In. apply list_elem_of_In in Hc.
  by apply (proj1 (elem_of_distinct _ _)) in Hc.
Qed.

(** A column of strings, not repeated, has its options. *)
Lemma options_strings name df :
  name ∈ columns df → (col_count name df ≤ 1)%nat →
  forallb is_str (column name df) = true →
  ∃ l, options name df = OK l ∧ ∀ c, c ∈ l ↔ c ∈ column name df.
Proof.
  intros Hin Hone Hstr.
  destruct (options name df) as [l|e] eqn:E.
  - exists l. split; [done|]. by apply options_OK in E as (_ & ? & _).
  - exfalso. revert E. unfold options.
    rewrite (proj2 (has_col_true _ _) Hin), (proj2 (Nat.ltb_ge _ _) Hone).
    by rewrite forallb_is_str_sortable.
Qed.

Lemma py_int_integer (a : Qc) (z : Z) : (a == inject_Z z)%Q → py_int a = z.
Proof.
  intros E. unfold py_int. destruct (Qle_bool 0 a).
  - rewrite (Qfloor_comp _ _ E). apply Qfloor_Z.
  - rewrite (Qceiling_comp _ _ E). apply Qceiling_Z.
Qed.

(** The rows of the default view, under the conditions of the theorem below. *)
Lemma default_view_rows (raw t : DataFrame) :
  well_formed raw → clean_data raw = OK t →
  "age" ∈ columns t → "gender" ∈ columns t → "department" ∈ columns t →
  (col_count "gender" t ≤ 1)%nat → (col_count "department" t ≤ 1)%nat →
  forallb is_str (column "gender" t) = true →
  forallb is_str (column "department" t) = true →
  (∃ r, r ∈ rows t ∧ cell_at "age" (columns t) r ≠ CNull) →
  (∀ r (a : Qc), r ∈ rows t → cell_at "age" (columns t) r = CNum a →
     ∃ z, (a == inject_Z z)%Q ∧ (0 <= z <= 120)%Z) →
  default_view raw
  = OK (mkDF (columns t)
             (filter (λ r, cell_at "age" (columns t) r ≠ CNull) (rows t))).
Proof.
  intros Hw Hc Ha Hg Hd Hg1 Hd1 Hgs Hds Hk Hint.
  pose proof (clean_data_cleaned _ _ Hw Hc) as Hcl.
  destruct (age_bounds_known_ages t Hcl Ha) as [_ Hb].
  destruct (Hb Hk) as (lo & hi & Eb & _ & _ & Hrange).
  destruct (options_strings "gender" t Hg Hg1 Hgs) as (G & EG & HG).
  destruct (options_strings "department" t Hd Hd1 Hds) as (D & ED & HD).
  unfold default_view, load. rewrite Hc. simpl. rewrite Eb. simpl.
  rewrite EG. simpl. rewrite ED. simpl.
  rewrite filter_rows_OK by done. do 2 f_equal.
  apply filter_ext_elem. intros r Hr. rewrite passes_true.
  assert (cell_at "gender" (columns t) r ∈ G) as HrG.
  { apply HG, elem_of_column. by exists r. }
  assert (cell_at "department" (columns t) r ∈ D) as HrD.
  { apply HD, elem_of_column. by exists r. }
  split.
  - intros ((a & E & _) & _). by rewrite E.
  - intros Hn.
    pose proof (under_cell_at _ _ _ _ (cl_wf _ Hcl) (cl_age _ Hcl) Ha Hr) as Hfix.
    simpl in Hfix. apply to_numeric_fixed in Hfix as [E|[a E]]; [done|].
    split; [|done]. exists a. split; [done|].
    destruct (Hint r a Hr E) as (z & Ez & Hz).
    pose proof (Hrange r a Hr E) as Hlh. rewrite (py_int_integer a z Ez) in Hlh.
    rewrite Ez, <- !Zle_Qle. lia.
Qed.

(** X21.  The default view.  Let the cleaned table have the columns [age],
    [gender] and [department], the last two holding strings and not
    repeated, at least one known age, and let every known age be a whole
    number between 0 and 120.  Then the page as first drawn shows exactly
    the rows whose age is known, in their order: a patient without an age
    is left out of every chart although no filter was set. *)
Theorem default_view_known_ages (raw t : DataFrame) :
  well_formed raw → clean_data raw = OK t →
  "age" ∈ columns t → "gender" ∈ columns t → "department" ∈ columns t →
  (col_count "gender" t ≤ 1)%nat → (col_count "department" t ≤ 1)%nat →
  forallb is_str (column "gender" t) = true →
  forallb is_str (column "department" t) = true →
  (∃ r, r ∈ rows t ∧ cell_at "age" (columns t) r ≠ CNull) →
  (∀ r (a : Qc), r ∈ rows t → cell_at "age" (columns t) r = CNum a →
     ∃ z, (a == inject_Z z)%Q ∧ (0 <= z <= 120)%Z) →
  default_view raw
  = OK (mkDF (columns t)
             (filter (λ r, cell_at "age" (columns t) r ≠ CNull) (rows t))).
Proof. apply default_view_rows. Qed.

End WidgetFacts.

(** ** A selection without rows *)

Section EmptySelection.
Context `{PandasLib}.

(** X22.  When the filters leave no row of a cleaned table that has the
    columns [outcome] and [admission_date], no display raises: the age
    histogram and the satisfaction chart answer "no chart", the admissions
    chart is drawn without a point, and the outcome summary is empty. *)
Theorem empty_selection_displays (raw t f : DataFrame) (width : Z) (freq : Freq) :
  well_formed raw → clean_data raw = OK t →
  columns f = columns t → rows f = [] →
  "outcome" ∈ columns t → "admission_date" ∈ columns t →
  (col_count "department" t ≤ 1)%nat →
  plot_outcomes_by_age_hist width f = OK None
  ∧ (∃ ch, plot_admissions_over_time freq f = OK (Some ch)
           ∧ rows (chart_data ch) = [])
  ∧ plot_satisfaction_by_department f = OK None
  ∧ summarize_outcomes [] f = OK (Overall [] []).
Proof.
  intros Hw Hc Hcols Hrows Ho Ha Hd.
  pose proof (clean_data_cleaned _ _ Hw Hc) as Hcl.
  pose proof (cl_unique _ Hcl) as Hu. rewrite Forall_forall in Hu.
  assert (∀ n, has_col n f = has_col n t) as Hhas.
  { intros n. unfold has_col. by rewrite Hcols. }
  assert (∀ n, col_count n f = col_count n t) as Hcount.
  { intros n. unfold col_count. by rewrite Hcols. }
  assert (∀ n, column n f = []) as Hcol.
  { intros n. unfold column. by rewrite Hrows. }
  split; [|split; [|split]].
  - unfold plot_outcomes_by_age_hist. rewrite Hhas.
    destruct (has_col "age" t) eqn:Eage.
    + apply has_col_true in Eage. unfold dropna.
      rewrite (filter_none (λ s, s ∉ columns f)).
      2:{ rewrite Hcols. intros s Hs Hn. apply Hn.
          apply elem_of_cons in Hs as [->|Hs]; [done|].
          by apply list_elem_of_singleton in Hs as ->. }
      rewrite Hrows. simpl. unfold df_empty. simpl. done.
    + simpl. rewrite Hhas, Eage. simpl. by rewrite orb_true_r.
  - unfold plot_admissions_over_time, admissions_over_time.
    rewrite Hhas, (proj2 (has_col_true _ _) Ha), Hcount. simpl negb. cbv iota.
    rewrite (proj2 (Nat.ltb_ge _ _)) by (apply Hu; left).
    rewrite Hcol. simpl. eexists. split; [done|]. simpl.
    unfold resample_size. by destruct freq.
  - unfold plot_satisfaction_by_department, average_satisfaction_by_department.
    rewrite !Hhas.
    destruct (has_col "satisfaction" t) eqn:Es; [|done].
    destruct (has_col "department" t) eqn:Ed; [|done]. simpl.
    apply has_col_true in Es, Ed.
    assert (groupable ["department"] f) as Hg.
    { split; [done|]. constructor; [|constructor].
      rewrite Hcols, Hcount. done. }
    unfold groupby_mean. rewrite (groupby_OK _ _ Hg). simpl rbind.
    rewrite select_column_OK.
    2:{ by rewrite Hcols. }
    2:{ rewrite Hcount. apply Hu. do 4 right. left. }
    simpl rbind. rewrite Hcol. simpl.
    assert (group_keys ["department"] f = []) as ->.
    { unfold group_keys, keyed_rows. by rewrite Hrows. }
    done.
  - unfold summarize_outcomes.
    rewrite Hhas, (proj2 (has_col_true _ _) Ho), Hcount. simpl negb. cbv iota.
    rewrite (proj2 (Nat.ltb_ge _ _)) by (apply Hu; do 2 right; left).
    by rewrite Hcol.
Qed.

End EmptySelection.

(** ** The demonstration data *)

Section PatientIds.
Import Demo.

Lemma pretty_N_go_numeral (x : N) s :
  (0 < x)%N → ∃ c r, pretty_N_go x s = String c r ∧ c ≠ "0"%char.
Proof.
  revert s. induction (N.lt_wf_0 x) as [x _ IH]; intros s Hx.
  rewrite pretty_N_go_step by done.
  destruct (decide (x `div` 10 = 0)%N) as [E|E].
  - rewrite E, pretty_N_go_0. eexists _, _. split; [done|].
    assert (x < 10)%N as Hlt by (by apply N.div_small_iff in E).
    rewrite N.mod_small by done.
    assert (x = 1 ∨ x = 2 ∨ x = 3 ∨ x = 4 ∨ x = 5 ∨ x = 6
          ∨ x = 7 ∨ x = 8 ∨ x = 9)%N by lia; naive_solver.
  - apply IH; [by apply N.div_lt|]. by apply N.neq_0_lt_0.
Qed.

Lemma pretty_nat_numeral (i : nat) : numeral (pretty i).
Proof.
  unfold pretty, pretty_nat, pretty, pretty_N.
  destruct (decide (N.of_nat i = 0%N)); [by left|right].
  apply pretty_N_go_numeral. lia.
Qed.

Lemma zeros_numeral_inj (k k' : nat) (s s' : string) :
  numeral s → numeral s' →
  string_of_list_ascii (replicate k "0"%char) +:+ s
  = string_of_list_ascii (replicate k' "0"%char) +:+ s' →
  s = s'.
Proof.
  intros Hs Hs'. revert k'. induction k as [|k IH]; intros [|k'];
    cbn [replicate string_of_list_ascii];
    repeat match goal with
    | |- context [String.append EmptyString ?x] =>
        change (String.append EmptyString x) with x
    | |- context [String.append (String ?c ?a) ?x] =>
        change (String.append (String c a) x) with (String c (String.append a x))
    end.
  - done.
  - intros ->. destruct Hs as [E|(c & r & E & Hc)].
    + injection E as E. exfalso.
      destruct k'; [|done]. cbv in E.
      subst s'. by destruct Hs' as [?|(? & ? & ? & ?)].
    + by injection E as <- _.
  - intros <-. destruct Hs' as [E|(c & r & E & Hc)].
    + injection E as E. exfalso.
      destruct k; [|done]. cbv in E.
      subst s. by destruct Hs as [?|(? & ? & ? & ?)].
    + by injection E as <- _.
  - intros [= E]. by eapply IH.
Qed.

(** Distinct positions get distinct patient identifiers. *)
Lemma patient_id_inj (i j : nat) : patient_id i = patient_id j → i = j.
Proof.
  unfold patient_id, zfill.
  change (String.append "P" ?x) with (String "P"%char x). intros [= E].
  apply zeros_numeral_inj in E; [|apply pretty_nat_numeral..].
  by apply (inj pretty) in E.
Qed.

End PatientIds.

Section DemoFacts.
Import Demo.
Context `{PandasLib}.

(** Evaluate the comparisons between the labels of the generated table. *)
Ltac decide_labels :=
  repeat match goal with
  | |- context [bool_decide ?P] =>
      let b := eval vm_compute in (bool_decide P) in
      match b with
      | true => change (bool_decide P) with true
      | false => change (bool_decide P) with false
      end; cbv iota
  end.

Lemma elem_of_sample_rows (g : nat → Draw → row) ds r :
  r ∈ imap g ds ↔ ∃ i d, ds !! i = Some d ∧ r = g i d.
Proof. rewrite elem_of_lookup_imap. naive_solver. Qed.

Lemma sample_well_formed ds : well_formed (generate_sample_data ds).
Proof.
  apply Forall_forall. intros r (i & d & _ & ->)%elem_of_sample_rows. done.
Qed.

Lemma cleaned_sample_well_formed ds : well_formed (cleaned_sample ds).
Proof.
  apply Forall_forall. intros r (i & d & _ & ->)%elem_of_sample_rows. done.
Qed.

Lemma sample_under n P ds :
  (∀ pid d, Forall P (cells_at [n] labels (row_of pid d))) →
  under n P (generate_sample_data ds).
Proof.
  intros HP. apply Forall_forall.
  intros r (i & d & _ & ->)%elem_of_sample_rows. apply HP.
Qed.

Lemma cleaned_sample_under n P ds :
  (∀ pid d, Forall P (cells_at [n] (labels ++ ["length_of_stay"])
                               (row_of pid d ++ [int_cell (discharge_offset d)]))) →
  under n P (cleaned_sample ds).
Proof.
  intros HP. apply Forall_forall.
  intros r (i & d & _ & ->)%elem_of_sample_rows. apply HP.
Qed.

Lemma sample_base_frame ds :
  base_frame (generate_sample_data ds) = generate_sample_data ds.
Proof.
  unfold base_frame.
  rewrite normalize_columns_fixed.
  2:{ simpl. unfold labels. repeat constructor. }
  unfold admission_aliases, discharge_aliases.
  rewrite (rename_first_alias_fixed "admission_date").
  2:{ left. simpl. unfold labels. set_solver. }
  rewrite (rename_first_alias_fixed "discharge_date"); [done|].
  left. simpl. unfold labels. set_solver.
Qed.

Lemma outcome_name_standard o :
  standardize_outcome (CStr (outcome_name o)) = CStr (outcome_name o).
Proof. by destruct o. Qed.

Lemma sample_typed_frame ds :
  typed_frame (generate_sample_data ds) = generate_sample_data ds.
Proof.
  unfold typed_frame. rewrite sample_base_frame.
  rewrite (map_col_fixed "admission_date").
  2:{ apply sample_under. intros pid d. unfold labels, row_of.
      cbn [cells_at]. decide_labels. by repeat constructor. }
  rewrite (map_col_fixed "discharge_date").
  2:{ apply sample_under. intros pid d. unfold labels, row_of.
      cbn [cells_at]. decide_labels. by repeat constructor. }
  rewrite (map_col_fixed "outcome").
  2:{ apply sample_under. intros pid d. unfold labels, row_of.
      cbn [cells_at]. decide_labels.
      constructor; [apply outcome_name_standard|constructor]. }
  rewrite (map_col_fixed "age").
  2:{ apply sample_under. intros pid d. unfold labels, row_of.
      cbn [cells_at]. decide_labels. by repeat constructor. }
  rewrite (map_col_fixed "satisfaction"); [done|].
  apply sample_under. intros pid d. unfold labels, row_of.
  cbn [cells_at]. decide_labels. by repeat constructor.
Qed.

Lemma days_between_midnights (a off : Z) :
  days_between (midnight (a + off)) (midnight a) = int_cell off.
Proof.
  unfold days_between, midnight, int_cell. do 3 f_equal.
  replace ((a + off) * ns_per_day - a * ns_per_day)%Z with (off * ns_per_day)%Z by lia.
  by apply Z.div_mul.
Qed.

Lemma sample_length_of_stay ds :
  length_of_stay_col (generate_sample_data ds) = cleaned_sample ds.
Proof.
  unfold length_of_stay_col, set_col, has_col, generate_sample_data, cleaned_sample.
  cbn [columns rows]. unfold labels. decide_labels. cbn [andb]. cbv iota.
  f_equal. rewrite fmap_imap. apply imap_ext. intros i d _.
  unfold compose. cbn beta. do 2 f_equal.
  unfold row_of. cbn [cell_at]. decide_labels.
  apply days_between_midnights.
Qed.

Lemma sample_finished_frame ds :
  finished_frame (generate_sample_data ds) = cleaned_sample ds.
Proof.
  unfold finished_frame. rewrite sample_typed_frame, sample_length_of_stay.
  rewrite (map_col_fixed "department").
  2:{ apply cleaned_sample_under. intros pid d. unfold labels, row_of.
      cbn [cells_at app]. decide_labels. by repeat constructor. }
  rewrite (map_col_fixed "gender"); [done|].
  apply cleaned_sample_under. intros pid d. unfold labels, row_of.
  cbn [cells_at app]. decide_labels. by repeat constructor.
Qed.

Lemma sample_keys_distinct ds :
  NoDup (map (cells_at ["patient_id"; "admission_date"] (columns (cleaned_sample ds)))
             (rows (cleaned_sample ds))).
Proof.
  apply NoDup_alt. intros i j k Hi Hj.
  unfold cleaned_sample in Hi, Hj. cbn [rows columns] in Hi, Hj.
  rewrite list_lookup_fmap, list_lookup_imap in Hi, Hj.
  destruct (ds !! i) as [d|]; [|done]. destruct (ds !! j) as [d'|]; [|done].
  simpl in Hi, Hj. injection Hi as <-. apply (inj Some) in Hj.
  revert Hj. unfold labels, row_of. cbn [cells_at app]. decide_labels.
  intros E. apply (f_equal (hd CNull)) in E. cbn [hd] in E.
  apply patient_id_inj. congruence.
Qed.

Lemma sample_no_duplicates ds :
  drop_obvious_duplicates (cleaned_sample ds) = OK (cleaned_sample ds).
Proof.
  unfold drop_obvious_duplicates, has_col.
  assert (bool_decide ("patient_id" ∈ columns (cleaned_sample ds)) = true) as ->
    by done.
  unfold drop_duplicates. destruct (df_empty _); [done|].
  cbn [default]. rewrite filter_none.
  2:{ intros s Hs Hn. apply Hn. simpl. unfold labels.
      apply elem_of_cons in Hs as [->|Hs]; [set_solver|].
      apply list_elem_of_singleton in Hs as ->. set_solver. }
  f_equal. unfold id.
  rewrite (proj2 (keep_first_fixed_iff _ _) (sample_keys_distinct ds)).
  by destruct (cleaned_sample ds).
Qed.

Lemma sample_clean_data ds :
  clean_data (generate_sample_data ds) = OK (cleaned_sample ds).
Proof.
  unfold clean_data. rewrite clean_in_place_unique.
  2:{ rewrite sample_base_frame. unfold typed_labels. by repeat constructor. }
  simpl. rewrite sample_finished_frame. apply sample_no_duplicates.
Qed.

(** X23.  Cleaning the demonstration data keeps every generated row as it is
    and adds one column, [length_of_stay], that holds the drawn discharge
    offset: no value is rewritten and no row is dropped, the patient
    identifiers being distinct. *)
Theorem sample_data_cleaning (draws : list Draw) :
  clean_data (generate_sample_data draws)
  = OK (mkDF (labels ++ ["length_of_stay"])
             (imap (λ i d, row_of (patient_id i) d ++ [int_cell (discharge_offset d)])
                   draws)).
Proof. apply sample_clean_data. Qed.

End DemoFacts.

Section DemoView.
Import Demo Dashboard.
Context `{PandasLib}.

Lemma cleaned_sample_rows ds r :
  r ∈ rows (cleaned_sample ds)
  ↔ ∃ i d, ds !! i = Some d
           ∧ r = row_of (patient_id i) d ++ [int_cell (discharge_offset d)].
Proof. unfold cleaned_sample. cbn [rows]. rewrite elem_of_lookup_imap. naive_solver. Qed.

(** The cells of a row of the cleaned demonstration table. *)
Lemma cleaned_sample_cells pid d :
  let r := row_of pid d ++ [int_cell (discharge_offset d)] in
  let L := labels ++ ["length_of_stay"] in
  cell_at "age" L r = int_cell (age d)
  ∧ cell_at "gender" L r = CStr (gender_name (gender d))
  ∧ cell_at "department" L r = CStr (department_name (department d)).
Proof. done. Qed.

(** X24.  With the demonstration data (at least one patient, the whole
    numbers drawn from their ranges) the page as first drawn shows the whole
    cleaned table: the default filters hide no generated patient. *)
Theorem sample_default_view (draws : list Draw) :
  draws ≠ [] → Forall in_range draws →
  default_view (generate_sample_data draws)
  = OK (mkDF (labels ++ ["length_of_stay"])
             (imap (λ i d, row_of (patient_id i) d ++ [int_cell (discharge_offset d)])
                   draws)).
Proof.
  intros Hne Hrange.
  assert (∀ r, r ∈ rows (cleaned_sample draws) →
            ∃ d, d ∈ draws
                 ∧ cell_at "age" (columns (cleaned_sample draws)) r = int_cell (age d)
                 ∧ cell_at "gender" (columns (cleaned_sample draws)) r
                   = CStr (gender_name (gender d))
                 ∧ cell_at "department" (columns (cleaned_sample draws)) r
                   = CStr (department_name (department d))) as Hcells.
  { intros r (i & d & Hi & ->)%cleaned_sample_rows. exists d.
    split; [by eapply list_elem_of_lookup_2|]. apply cleaned_sample_cells. }
  rewrite (default_view_rows _ (cleaned_sample draws)).
  - unfold cleaned_sample at 1. cbn [columns]. f_equal. f_equal.
    apply filter_all. intros r (d & _ & -> & _)%Hcells. done.
  - apply sample_well_formed.
  - apply sample_clean_data.
  - simpl. unfold labels. set_solver.
  - simpl. unfold labels. set_solver.
  - simpl. unfold labels. set_solver.
  - unfold col_count. cbn [columns cleaned_sample]. vm_compute. lia.
  - unfold col_count. cbn [columns cleaned_sample]. vm_compute. lia.
  - apply forallb_forall. intros c Hc. apply list_elem_of_In in Hc.
    apply elem_of_column in Hc as (r & Hr & ->).
    apply Hcells in Hr as (d & _ & _ & -> & _). done.
  - apply forallb_forall. intros c Hc. apply list_elem_of_In in Hc.
    apply elem_of_column in Hc as (r & Hr & ->).
    apply Hcells in Hr as (d & _ & _ & _ & ->). done.
  - destruct draws as [|d ds]; [done|].
    exists (row_of (patient_id 0) d ++ [int_cell (discharge_offset d)]).
    split; [|done]. apply cleaned_sample_rows. by exists 0%nat, d.
  - intros r a (d & Hd & E & _)%Hcells. rewrite E. intros [= <-].
    exists (age d). split; [apply Qred_correct|].
    rewrite Forall_forall in Hrange. destruct (Hrange d Hd) as (_ & _ & ? & _). lia.
Qed.

End DemoView.

(** ** The charts without their columns *)

(** X25.  What the charts do when a column they look for is absent: without
    an [age] column the age histogram answers "no chart"; with [age] but
    without [outcome] it raises [KeyError]; the satisfaction chart answers
    "no chart" when [satisfaction] or [department] is absent. *)
Theorem charts_without_columns (w : Z) (df : DataFrame) :
  ("age" ∉ columns df → plot_outcomes_by_age_hist w df = OK None)
  ∧ ("age" ∈ columns df → "outcome" ∉ columns df →
     plot_outcomes_by_age_hist w df = Raise (KeyError "outcome"))
  ∧ ("satisfaction" ∉ columns df ∨ "department" ∉ columns df →
     plot_satisfaction_by_department df = OK None).
Proof.
  split; [apply plot_outcomes_by_age_hist_no_age|].
  split; [apply plot_outcomes_by_age_hist_raises|].
  apply plot_satisfaction_by_department_absent.
Qed.

(** ** The theorems at work on the ward list *)

Section WardWitnesses.
Import Examples Ward Dashboard.
Local Existing Instance Sample.conv.

(** Decide a closed statement by evaluation. *)
Ltac evaluate := apply (bool_decide_unpack _); vm_compute; exact I.

Lemma visits_well_formed : well_formed visits.
Proof. repeat constructor. Defined.

Lemma visits_cleaned : clean_data visits = OK cleaned_visits.
Proof. vm_compute. reflexivity. Defined.

Example cleaned_visits_table :
  columns cleaned_visits
  = ["patient_id"; "admission_date"; "discharge_date"; "outcome"; "age"; "gender";
     "department"; "satisfaction"; "length_of_stay"]
  ∧ column "age" cleaned_visits
    = [CNum (Q2Qc 34); CNull; CNum (Q2Qc 71)]
  ∧ column "gender" cleaned_visits = [CStr "Female"; CStr "Male"; CStr "Unknown"]
  ∧ column "department" cleaned_visits
    = [CStr "Cardiology"; CStr "Unknown"; CStr "Oncology"].
Proof. repeat split; vm_compute; reflexivity. Qed.

Lemma cleaned_labels_normalized_witness :
  well_formed visits ∧ clean_data visits = OK cleaned_visits
  ∧ Forall (λ l, str_strip l = l ∧ str_lower l = l) (columns cleaned_visits).
Proof.
  split; [exact visits_well_formed|]. split; [exact visits_cleaned|].
  exact (cleaned_labels_normalized visits cleaned_visits visits_well_formed visits_cleaned).
Defined.


Lemma cleaned_categories_filled_witness :
  well_formed visits ∧ clean_data visits = OK cleaned_visits
  ∧ "department" ∈ columns cleaned_visits
  ∧ Forall (λ r, cell_at "department" (columns cleaned_visits) r ≠ CNull)
           (rows cleaned_visits).
Proof.
  split; [exact visits_well_formed|]. split; [exact visits_cleaned|].
  assert ("department" ∈ columns cleaned_visits) as Hd by evaluate.
  split; [exact Hd|]. apply Forall_forall. intros r Hr.
  exact (cleaned_categories_filled visits cleaned_visits "department" r
           visits_well_formed visits_cleaned (or_introl eq_refl) Hd Hr).
Defined.

Lemma cleaned_numbers_typed_witness :
  well_formed visits ∧ clean_data visits = OK cleaned_visits
  ∧ "age" ∈ columns cleaned_visits
  ∧ Forall (λ r, cell_at "age" (columns cleaned_visits) r = CNull
                 ∨ ∃ q, cell_at "age" (columns cleaned_visits) r = CNum q)
           (rows cleaned_visits).
Proof.
  split; [exact visits_well_formed|]. split; [exact visits_cleaned|].
  assert ("age" ∈ columns cleaned_visits) as Ha by evaluate.
  split; [exact Ha|]. apply Forall_forall. intros r Hr.
  exact (cleaned_numbers_typed visits cleaned_visits "age" r
           visits_well_formed visits_cleaned (or_introl eq_refl) Ha Hr).
Defined.

Lemma cleaned_date_columns_witness :
  clean_data visits = OK cleaned_visits
  ∧ "admit_date" ∈ map normalize_name (columns visits)
  ∧ "admission_date" ∈ columns cleaned_visits.
Proof.
  split; [exact visits_cleaned|].
  assert ("admit_date" ∈ map normalize_name (columns visits)) as Hin by evaluate.
  split; [exact Hin|].
  destruct (cleaned_date_columns visits cleaned_visits visits_cleaned) as [Ha _].
  apply Ha. exists "admit_date". split; [evaluate|exact Hin].
Defined.

Lemma cleaned_shape_witness :
  clean_data visits = OK cleaned_visits
  ∧ (length (rows cleaned_visits) ≤ length (rows visits))%nat.
Proof.
  split; [exact visits_cleaned|].
  destruct (cleaned_shape visits cleaned_visits visits_cleaned) as (_ & _ & Hr).
  exact Hr.
Defined.

Lemma outcome_in_cleaned_visits : "outcome" ∈ columns cleaned_visits.
Proof. evaluate. Defined.


Lemma groupable_visits : groupable ["department"] cleaned_visits.
Proof.
  split; [discriminate|]. constructor; [|constructor].
  split; [evaluate|vm_compute; lia].
Defined.

Lemma summarize_outcomes_group_totals_witness :
  well_formed visits ∧ clean_data visits = OK cleaned_visits
  ∧ "outcome" ∈ columns cleaned_visits ∧ groupable ["department"] cleaned_visits
  ∧ ∃ counts pct,
      summarize_outcomes ["department"] cleaned_visits = OK (Grouped counts pct)
      ∧ map fst (ct_rows counts) = group_keys ["department"] cleaned_visits.
Proof.
  split; [exact visits_well_formed|]. split; [exact visits_cleaned|].
  split; [exact outcome_in_cleaned_visits|]. split; [exact groupable_visits|].
  destruct (summarize_outcomes_group_totals visits cleaned_visits ["department"]
              visits_well_formed visits_cleaned outcome_in_cleaned_visits
              groupable_visits) as (counts & pct & Hs & Hk & _).
  by exists counts, pct.
Defined.

Lemma aggregate_by_missing_column_witness :
  "satisfaction" ≠ "" ∧ ("ward" ∉ columns cleaned_visits)
  ∧ aggregate_by ["ward"] "count" None cleaned_visits = Raise (KeyError "ward").
Proof.
  assert ("satisfaction" ≠ "") as Hv by discriminate.
  assert ("ward" ∉ columns cleaned_visits) as Hn by evaluate.
  split; [exact Hv|]. split; [exact Hn|].
  destruct (aggregate_by_missing_column cleaned_visits "ward" "satisfaction" Hv)
    as [Hc _].
  exact (proj1 (Hc Hn)).
Defined.

Lemma average_satisfaction_is_aggregate_witness :
  "satisfaction" ∈ columns cleaned_visits ∧ "department" ∈ columns cleaned_visits
  ∧ aggregate_by ["department"] "mean" (Some "satisfaction") cleaned_visits
    = Means <$$> average_satisfaction_by_department cleaned_visits.
Proof.
  assert ("satisfaction" ∈ columns cleaned_visits) as Hs by evaluate.
  assert ("department" ∈ columns cleaned_visits) as Hd by evaluate.
  split; [exact Hs|]. split; [exact Hd|].
  exact (average_satisfaction_is_aggregate cleaned_visits Hs Hd).
Defined.

Lemma admissions_over_time_total_witness :
  well_formed visits ∧ clean_data visits = OK cleaned_visits
  ∧ "admission_date" ∈ columns cleaned_visits
  ∧ ∃ s, admissions_over_time Monthly cleaned_visits = OK s
         ∧ sum_nat (map snd s)
           = length (filter (λ c, is_null c = false)
                            (column "admission_date" cleaned_visits)).
Proof.
  split; [exact visits_well_formed|]. split; [exact visits_cleaned|].
  assert ("admission_date" ∈ columns cleaned_visits) as Ha by evaluate.
  split; [exact Ha|].
  apply (admissions_over_time_total visits cleaned_visits Monthly
           visits_well_formed visits_cleaned Ha).
  right. exists (hd [] (rows cleaned_visits)). split; [evaluate|].
  vm_compute. discriminate.
Defined.


Lemma plot_satisfaction_by_department_cleaned_witness :
  well_formed visits ∧ clean_data visits = OK cleaned_visits
  ∧ "satisfaction" ∈ columns cleaned_visits ∧ "department" ∈ columns cleaned_visits
  ∧ (col_count "department" cleaned_visits ≤ 1)%nat
  ∧ ∃ ch, plot_satisfaction_by_department cleaned_visits = OK (Some ch)
          ∧ chart_mark ch = "bar".
Proof.
  split; [exact visits_well_formed|]. split; [exact visits_cleaned|].
  assert ("satisfaction" ∈ columns cleaned_visits) as Hs by evaluate.
  assert ("department" ∈ columns cleaned_visits) as Hd by evaluate.
  assert (col_count "department" cleaned_visits ≤ 1)%nat as Hone by (vm_compute; lia).
  split; [exact Hs|]. split; [exact Hd|]. split; [exact Hone|].
  destruct (plot_satisfaction_by_department_cleaned visits cleaned_visits
              visits_well_formed visits_cleaned Hs Hd Hone) as (_ & Hsome).
  destruct Hsome as (ch & Hch & Hm & _); [vm_compute; discriminate|].
  by exists ch.
Defined.

Lemma charts_without_columns_witness :
  ("age" ∉ columns identifiers)
  ∧ plot_outcomes_by_age_hist 10 identifiers = OK None.
Proof.
  assert ("age" ∉ columns identifiers) as Hn by evaluate.
  split; [exact Hn|]. exact (proj1 (charts_without_columns 10 identifiers) Hn).
Defined.

Lemma clean_data_store_effect_witness :
  ({[1%positive := identifiers]} : gmap Store.loc DataFrame) !! 1%positive
  = Some identifiers
  ∧ clean_in_place identifiers = OK (mkDF ["patient_id"] [[CStr "P1"]])
  ∧ Store.clean_data (Store.mkHA 1%positive)
      ({[1%positive := identifiers]} : gmap Store.loc DataFrame)
    = (Raise (KeyError "admission_date"),
       <[1%positive := mkDF ["patient_id"] [[CStr "P1"]]]>
         ({[1%positive := identifiers]} : gmap Store.loc DataFrame)).
Proof.
  assert (({[1%positive := identifiers]} : gmap Store.loc DataFrame) !! 1%positive
          = Some identifiers) as Hl by apply lookup_singleton_eq.
  assert (clean_in_place identifiers = OK (mkDF ["patient_id"] [[CStr "P1"]])) as Hp
    by (vm_compute; reflexivity).
  split; [exact Hl|]. split; [exact Hp|].
  exact (clean_data_store_effect (Store.mkHA 1%positive) _ _ _ Hl Hp).
Defined.

Lemma age_bounds_fallback_unreachable_witness :
  ("age" ∉ columns identifiers) ∧ age_bounds identifiers = Raise (KeyError "age").
Proof.
  assert ("age" ∉ columns identifiers) as Hn by evaluate.
  split; [exact Hn|]. exact (proj1 (age_bounds_fallback_unreachable identifiers) Hn).
Defined.

Lemma age_in_cleaned_visits : "age" ∈ columns cleaned_visits.
Proof. evaluate. Defined.

Lemma gender_in_cleaned_visits : "gender" ∈ columns cleaned_visits.
Proof. evaluate. Defined.

Lemma department_in_cleaned_visits : "department" ∈ columns cleaned_visits.
Proof. evaluate. Defined.

Lemma known_age_in_cleaned_visits :
  ∃ r, r ∈ rows cleaned_visits ∧ cell_at "age" (columns cleaned_visits) r ≠ CNull.
Proof.
  exists (hd [] (rows cleaned_visits)). split; [evaluate|]. vm_compute. discriminate.
Defined.

Lemma age_bounds_cleaned_witness :
  well_formed visits ∧ clean_data visits = OK cleaned_visits
  ∧ "age" ∈ columns cleaned_visits
  ∧ ∃ lo hi, age_bounds cleaned_visits = OK (lo, AgeMax hi).
Proof.
  split; [exact visits_well_formed|]. split; [exact visits_cleaned|].
  split; [exact age_in_cleaned_visits|].
  destruct (age_bounds_cleaned visits cleaned_visits visits_well_formed visits_cleaned
              age_in_cleaned_visits) as [_ Hb].
  destruct (Hb known_age_in_cleaned_visits) as (lo & hi & E & _).
  by exists lo, hi.
Defined.


Lemma filter_rows_missing_column_witness :
  ("age" ∉ columns identifiers)
  ∧ filter_rows 0 120 [] [] identifiers = Raise (KeyError "age").
Proof.
  assert ("age" ∉ columns identifiers) as Hn by evaluate.
  split; [exact Hn|].
  exact (proj1 (filter_rows_missing_column identifiers 0 120 [] []) Hn).
Defined.

Lemma options_sorted_distinct_witness :
  options "gender" cleaned_visits = OK [CStr "Female"; CStr "Male"; CStr "Unknown"]
  ∧ NoDup [CStr "Female"; CStr "Male"; CStr "Unknown"].
Proof.
  assert (options "gender" cleaned_visits
          = OK [CStr "Female"; CStr "Male"; CStr "Unknown"]) as Ho
    by (vm_compute; reflexivity).
  split; [exact Ho|].
  exact (proj1 (options_sorted_distinct "gender" cleaned_visits _ Ho)).
Defined.

Lemma whole_ages_in_cleaned_visits :
  ∀ r (a : Qc), r ∈ rows cleaned_visits →
    cell_at "age" (columns cleaned_visits) r = CNum a →
    ∃ z, (a == inject_Z z)%Q ∧ (0 <= z <= 120)%Z.
Proof.
  intros r a Hr. unfold cleaned_visits in Hr. cbn [rows] in Hr.
  repeat (apply elem_of_cons in Hr as [->|Hr]); [| | |by apply not_elem_of_nil in Hr].
  - intros [= <-]. exists 34%Z. split; [reflexivity|lia].
  - intros [=].
  - intros [= <-]. exists 71%Z. split; [reflexivity|lia].
Defined.

Lemma default_view_known_ages_witness :
  well_formed visits ∧ clean_data visits = OK cleaned_visits
  ∧ default_view visits
    = OK (mkDF (columns cleaned_visits)
               (filter (λ r, cell_at "age" (columns cleaned_visits) r ≠ CNull)
                       (rows cleaned_visits))).
Proof.
  split; [exact visits_well_formed|]. split; [exact visits_cleaned|].
  apply (default_view_known_ages visits cleaned_visits visits_well_formed
           visits_cleaned age_in_cleaned_visits gender_in_cleaned_visits
           department_in_cleaned_visits).
  - vm_compute. lia.
  - vm_compute. lia.
  - vm_compute. reflexivity.
  - vm_compute. reflexivity.
  - exact known_age_in_cleaned_visits.
  - exact whole_ages_in_cleaned_visits.
Defined.

Lemma empty_selection_displays_witness :
  well_formed visits ∧ clean_data visits = OK cleaned_visits
  ∧ plot_outcomes_by_age_hist 10 (mkDF (columns cleaned_visits) []) = OK None
  ∧ summarize_outcomes [] (mkDF (columns cleaned_visits) []) = OK (Overall [] []).
Proof.
  split; [exact visits_well_formed|]. split; [exact visits_cleaned|].
  assert ("admission_date" ∈ columns cleaned_visits) as Ha by evaluate.
  assert (col_count "department" cleaned_visits ≤ 1)%nat as Hd by (vm_compute; lia).
  destruct (empty_selection_displays visits cleaned_visits
              (mkDF (columns cleaned_visits) []) 10 Monthly
              visits_well_formed visits_cleaned eq_refl eq_refl
              outcome_in_cleaned_visits Ha Hd) as (Hh & _ & _ & Hs).
  split; [exact Hh|exact Hs].
Defined.

Lemma sample_default_view_witness :
  [one_draw] ≠ [] ∧ Forall Demo.in_range [one_draw]
  ∧ default_view (Demo.generate_sample_data [one_draw])
    = OK (mkDF (Demo.labels ++ ["length_of_stay"])
               [Demo.row_of (Demo.patient_id 0) one_draw ++ [Demo.int_cell 3]]).
Proof.
  assert ([one_draw] ≠ []) as Hne by discriminate.
  assert (Forall Demo.in_range [one_draw]) as Hr.
  { constructor; [|constructor]. unfold Demo.in_range. simpl. lia. }
  split; [exact Hne|]. split; [exact Hr|].
  exact (sample_default_view [one_draw] Hne Hr).
Defined.

End WardWitnesses.
